(** * Revit MCP bridge: response formatter, gateway call helper, code-execution route

    A shallow embedding of these pieces of the repository:
    - [tools/utils.py]                ([format_response]),
    - [main.py]                       ([_revit_call], [revit_get], [revit_post],
                                       [revit_image], the choice of transport),
    - [tools/view_tools.py]           (the four view tools),
    - [revit_mcp/code_execution.py]   ([execute_code]),
    - [revit_mcp/utils.py]            ([normalize_string],
                                       [find_family_symbol_safely]),
    - [revit_mcp/model_info.py]       (the counts of elements, warnings and
                                       views of [get_model_info]),
    over a small model of the Python values that travel between them. *)

From Stdlib Require Import String Ascii List ZArith Bool DecimalString Sorted.
From Stdlib Require Import Lia Permutation.
From Stdlib Require OrdersEx.
Import ListNotations.
Open Scope string_scope.
Set Warnings "-register-all".

(** * Python values and the builtins the three files call *)
Module Py.

(** A reply is whatever [json.loads] can produce.  Text is a sequence of code
    points below 256.  A float is never computed with in these files: it is only
    printed and tested for truth, so it is carried as its [repr] text. *)
Inductive value : Type :=
| VNone
| VBool (b : bool)
| VInt (n : Z)
| VFloat (repr : string)
| VStr (s : string)
| VList (items : list value)
| VDict (entries : list (string * value)).

(** A raised object: its class name, [str(e)], the frames printed by
    [traceback], and whether its class derives from [Exception] (what an
    [except Exception] clause tests; [SystemExit], [KeyboardInterrupt] and
    [GeneratorExit] derive from [BaseException] only). *)
Record exc : Type := mkExc {
  exc_class : string;
  exc_text : string;
  exc_frames : string;
  is_Exception : bool
}.

Inductive result (A : Type) : Type :=
| Ok (a : A)
| Raise (e : exc).
Arguments Ok {A} a.
Arguments Raise {A} e.

Definition bind {A B : Type} (m : result A) (k : A -> result B) : result B :=
  match m with
  | Ok a => k a
  | Raise e => Raise e
  end.

Declare Scope result_scope.
Delimit Scope result_scope with result.
Notation "x <- m ;; k" := (bind m (fun x => k))
  (at level 61, m at next level, right associativity) : result_scope.
Open Scope result_scope.

(** [try: body except Exception as e: handler e]. *)
Definition try_except {A : Type} (body : result A) (handler : exc -> result A)
  : result A :=
  match body with
  | Ok a => Ok a
  | Raise e => if is_Exception e then handler e else Raise e
  end.

(** An error raised by a library the files call ([httpx], the JSON decoder):
    connection refused, timeout, malformed text.  All their classes derive
    from [Exception]. *)
Record library_error : Type := mkError {
  error_class : string;
  error_text : string
}.

Definition raised (e : library_error) : exc :=
  mkExc (error_class e) (error_text e) EmptyString true.

Definition lift {A : Type} (o : A + library_error) : result A :=
  match o with
  | inl a => Ok a
  | inr e => Raise (raised e)
  end.

Definition NL : string := String (ascii_of_nat 10) EmptyString.
Definition DQ : ascii := ascii_of_nat 34.
Definition SQ : ascii := ascii_of_nat 39.
Definition BSL : ascii := ascii_of_nat 92.

Definition type_name (v : value) : string :=
  match v with
  | VNone => "NoneType"
  | VBool _ => "bool"
  | VInt _ => "int"
  | VFloat _ => "float"
  | VStr _ => "str"
  | VList _ => "list"
  | VDict _ => "dict"
  end.

Definition AttributeError (v : value) (attr : string) : exc :=
  mkExc "AttributeError"
        ("'" ++ type_name v ++ "' object has no attribute '" ++ attr ++ "'")
        EmptyString true.

(** [bool(v)]. *)
Definition truthy (v : value) : bool :=
  match v with
  | VNone => false
  | VBool b => b
  | VInt n => negb (n =? 0)%Z
  | VFloat r => negb ((r =? "0.0") || (r =? "-0.0"))
  | VStr s => negb (s =? EmptyString)
  | VList items => match items with [] => false | _ => true end
  | VDict entries => match entries with [] => false | _ => true end
  end.

(** ** Dictionaries: insertion-ordered, looked up by key

    A [dict] is the list of its items in insertion order; each key occurs once. *)

Fixpoint dict_get (d : list (string * value)) (key : string) : option value :=
  match d with
  | [] => None
  | (k, v) :: rest => if k =? key then Some v else dict_get rest key
  end.

(** [key in d]. *)
Definition contains (d : list (string * value)) (key : string) : bool :=
  match dict_get d key with Some _ => true | None => false end.

(** [d.get(key, default)]. *)
Definition get_default (d : list (string * value)) (key : string) (default : value)
  : value :=
  match dict_get d key with Some v => v | None => default end.

Definition keys (d : list (string * value)) : list string := map fst d.

(** ** Case mapping *)

Definition in_range (lo hi : nat) (c : ascii) : bool :=
  (lo <=? nat_of_ascii c)%nat && (nat_of_ascii c <=? hi)%nat.

Definition is_upper (c : ascii) : bool :=
  in_range 65 90 c || in_range 192 214 c || in_range 216 222 c.

Definition is_lower_letter (c : ascii) : bool :=
  in_range 97 122 c || in_range 224 246 c || in_range 248 254 c.

Definition lower_char (c : ascii) : ascii :=
  if is_upper c then ascii_of_nat (nat_of_ascii c + 32) else c.

Definition upper_char (c : ascii) : ascii :=
  if is_lower_letter c then ascii_of_nat (nat_of_ascii c - 32) else c.

(** Characters with a case: the letters above, and the ordinal indicators, the
    micro sign, the sharp s and the y with diaeresis, which have no single
    upper-case form below 256 and are left as they are by [upper_char] (see
    [title_char] for what [title] makes of them). *)
Definition is_cased (c : ascii) : bool :=
  is_upper c || is_lower_letter c
  || in_range 170 170 c || in_range 181 181 c || in_range 186 186 c
  || in_range 223 223 c || in_range 255 255 c.

(** [s.lower()]. *)
Fixpoint lower (s : string) : string :=
  match s with
  | EmptyString => EmptyString
  | String c rest => String (lower_char c) (lower rest)
  end.

(** [v.lower()]: only [str] has the method. *)
Definition lower_method (v : value) : result string :=
  match v with
  | VStr s => Ok (lower s)
  | _ => Raise (AttributeError v "lower")
  end.

(** [s.replace(old, new)] for one-character [old] and [new]. *)
Fixpoint replace (old new : ascii) (s : string) : string :=
  match s with
  | EmptyString => EmptyString
  | String c rest =>
      String (if Ascii.eqb c old then new else c) (replace old new rest)
  end.

(** The title-case form of a character that begins a word: its upper-case
    form, which for the sharp s is the two letters [Ss].  The title-case forms
    of the micro sign and of the y with diaeresis are the code points 924 and
    376, which this model of text, made of code points below 256, cannot
    hold: these two characters are left as they are, so that [title] is
    [str.title] on every text in which neither of them begins a word. *)
Definition title_char (c : ascii) : string :=
  if in_range 223 223 c then "Ss" else String (upper_char c) EmptyString.

Fixpoint title_from (previous_is_cased : bool) (s : string) : string :=
  match s with
  | EmptyString => EmptyString
  | String c rest =>
      (if previous_is_cased
       then String (lower_char c) EmptyString
       else title_char c)
      ++ title_from (is_cased c) rest
  end.

(** [s.title()]. *)
Definition title (s : string) : string := title_from false s.

(** ** Printing *)

(** [str(n)] of an [int]. *)
Definition string_of_Z (n : Z) : string := NilZero.string_of_int (Z.to_int n).

Definition hex_digit (n : nat) : ascii :=
  if (n <? 10)%nat then ascii_of_nat (48 + n) else ascii_of_nat (87 + n).

(** The two lower-case hexadecimal digits of a character code. *)
Definition hex2 (c : ascii) : string :=
  String (hex_digit (nat_of_ascii c / 16))
         (String (hex_digit (nat_of_ascii c mod 16)) EmptyString).

Fixpoint has_char (c : ascii) (s : string) : bool :=
  match s with
  | EmptyString => false
  | String c' rest => Ascii.eqb c' c || has_char c rest
  end.

(** [str.isprintable] on one character. *)
Definition is_printable (c : ascii) : bool :=
  in_range 32 126 c || in_range 161 172 c || in_range 174 255 c.

Definition repr_char (quote c : ascii) : string :=
  if Ascii.eqb c BSL then String BSL (String BSL EmptyString)
  else if Ascii.eqb c quote then String BSL (String quote EmptyString)
  else if Ascii.eqb c (ascii_of_nat 9) then String BSL "t"
  else if Ascii.eqb c (ascii_of_nat 10) then String BSL "n"
  else if Ascii.eqb c (ascii_of_nat 13) then String BSL "r"
  else if is_printable c then String c EmptyString
  else String BSL (String "x" (hex2 c)).

Fixpoint repr_chars (quote : ascii) (s : string) : string :=
  match s with
  | EmptyString => EmptyString
  | String c rest => repr_char quote c ++ repr_chars quote rest
  end.

(** [repr(s)] of a [str]: single quotes unless the text has a single quote and
    no double quote. *)
Definition repr_str (s : string) : string :=
  let quote := if has_char SQ s && negb (has_char DQ s) then DQ else SQ in
  String quote (repr_chars quote s ++ String quote EmptyString).

(** [repr(v)]. *)
Fixpoint py_repr (v : value) : string :=
  match v with
  | VNone => "None"
  | VBool b => if b then "True" else "False"
  | VInt n => string_of_Z n
  | VFloat r => r
  | VStr s => repr_str s
  | VList items =>
      "[" ++ (fix elems (l : list value) : string :=
                match l with
                | [] => EmptyString
                | x :: rest =>
                    py_repr x ++
                    match rest with [] => EmptyString | _ => ", " ++ elems rest end
                end) items ++ "]"
  | VDict entries =>
      "{" ++ (fix elems (l : list (string * value)) : string :=
                match l with
                | [] => EmptyString
                | (k, x) :: rest =>
                    repr_str k ++ ": " ++ py_repr x ++
                    match rest with [] => EmptyString | _ => ", " ++ elems rest end
                end) entries ++ "}"
  end.

(** [str(v)], which is also what a bare [{}] of [str.format] prints. *)
Definition py_str (v : value) : string :=
  match v with
  | VStr s => s
  | _ => py_repr v
  end.

(** [sep.join(parts)]: every item has to be a [str]. *)
Fixpoint join_from (index : nat) (sep : string) (parts : list value)
  : result string :=
  match parts with
  | [] => Ok EmptyString
  | p :: rest =>
      match p with
      | VStr s =>
          match rest with
          | [] => Ok s
          | _ => tl <- join_from (S index) sep rest ;; Ok (s ++ sep ++ tl)
          end
      | _ =>
          Raise (mkExc "TypeError"
                       ("sequence item " ++ string_of_Z (Z.of_nat index)
                        ++ ": expected str instance, " ++ type_name p ++ " found")
                       EmptyString true)
      end
  end.

Definition join (sep : string) (parts : list value) : result string :=
  join_from 0 sep parts.

(** ** [sorted(set(keys) - known)] *)

Definition mem (key : string) (l : list string) : bool :=
  existsb (String.eqb key) l.

Fixpoint insert_sorted (key : string) (l : list string) : list string :=
  match l with
  | [] => [key]
  | h :: t =>
      if key =? h then l
      else if String.ltb key h then key :: l
      else h :: insert_sorted key t
  end.

Definition sorted_set (l : list string) : list string :=
  fold_right insert_sorted [] l.

Definition sorted_difference (ks known : list string) : list string :=
  sorted_set (filter (fun k => negb (mem k known)) ks).

(** ** [json.dumps(v, indent=2)] with its defaults *)

Definition json_char (c : ascii) : string :=
  if Ascii.eqb c DQ then String BSL (String DQ EmptyString)
  else if Ascii.eqb c BSL then String BSL (String BSL EmptyString)
  else if Ascii.eqb c (ascii_of_nat 10) then String BSL "n"
  else if Ascii.eqb c (ascii_of_nat 13) then String BSL "r"
  else if Ascii.eqb c (ascii_of_nat 9) then String BSL "t"
  else if Ascii.eqb c (ascii_of_nat 12) then String BSL "f"
  else if Ascii.eqb c (ascii_of_nat 8) then String BSL "b"
  else if in_range 32 126 c then String c EmptyString
  else String BSL ("u00" ++ hex2 c).

Fixpoint json_chars (s : string) : string :=
  match s with
  | EmptyString => EmptyString
  | String c rest => json_char c ++ json_chars rest
  end.

Definition json_string (s : string) : string :=
  String DQ (json_chars s ++ String DQ EmptyString).

Definition json_float (r : string) : string :=
  if r =? "nan" then "NaN"
  else if r =? "inf" then "Infinity"
  else if r =? "-inf" then "-Infinity"
  else r.

Fixpoint spaces (n : nat) : string :=
  match n with
  | O => EmptyString
  | S m => String " " (spaces m)
  end.

Definition newline_indent (indent level : nat) : string :=
  NL ++ spaces (indent * level).

Fixpoint json_encode (indent level : nat) (v : value) : string :=
  match v with
  | VNone => "null"
  | VBool b => if b then "true" else "false"
  | VInt n => string_of_Z n
  | VFloat r => json_float r
  | VStr s => json_string s
  | VList items =>
      match items with
      | [] => "[]"
      | _ =>
          "[" ++ newline_indent indent (S level)
          ++ (fix elems (l : list value) : string :=
                match l with
                | [] => EmptyString
                | x :: rest =>
                    json_encode indent (S level) x ++
                    match rest with
                    | [] => EmptyString
                    | _ => "," ++ newline_indent indent (S level) ++ elems rest
                    end
                end) items
          ++ newline_indent indent level ++ "]"
      end
  | VDict entries =>
      match entries with
      | [] => "{}"
      | _ =>
          "{" ++ newline_indent indent (S level)
          ++ (fix elems (l : list (string * value)) : string :=
                match l with
                | [] => EmptyString
                | (k, x) :: rest =>
                    json_string k ++ ": " ++ json_encode indent (S level) x ++
                    match rest with
                    | [] => EmptyString
                    | _ => "," ++ newline_indent indent (S level) ++ elems rest
                    end
                end) entries
          ++ newline_indent indent level ++ "}"
      end
  end.

Definition json_dumps (v : value) (indent : nat) : string :=
  json_encode indent 0 v.

(** ** Other builtins *)

(** [needle in hay] on text. *)
Fixpoint has_substring (needle hay : string) : bool :=
  String.prefix needle hay
  || match hay with
     | EmptyString => false
     | String _ rest => has_substring needle rest
     end.

(** [v.get(key, default)]: only a [dict] has the method. *)
Definition get_method (v : value) (key : string) (default : value)
  : result value :=
  match v with
  | VDict d => Ok (get_default d key default)
  | _ => Raise (AttributeError v "get")
  end.

(** [traceback.format_exc()] inside the handler of [e]. *)
Definition format_exc (e : exc) : string :=
  "Traceback (most recent call last):" ++ NL ++ exc_frames e ++ exc_class e
  ++ (if exc_text e =? EmptyString then EmptyString else ": " ++ exc_text e)
  ++ NL.

(** [line in text.split(NL)], for a line without a newline. *)
Definition has_line (line text : string) : bool :=
  has_substring (NL ++ line ++ NL) (NL ++ text ++ NL).

End Py.

(** * [tools/utils.py]: the response formatter *)
Module Formatter.
Import Py.

Definition dict : Type := list (string * value).

(** [response[key]], used in the source only under [key in response] or on the
    keys of [response] itself. *)
Definition subscript (response : dict) (key : string) : value :=
  get_default response key VNone.

(** ["label{}".format(v)] and ["{}: {}".format(a, b)]. *)
Definition format1 (label : string) (v : value) : value :=
  VStr (label ++ py_str v).

Definition format2 (a b : value) : value :=
  VStr (py_str a ++ ": " ++ py_str b).

Definition known_fields : list string :=
  ["status"; "health"; "api_name"; "document_title"; "revit_available"].

Definition debug_fields : list string :=
  ["code_attempted"; "endpoint"; "request_data"; "response_code"].

Definition error_fields : list string :=
  ["error"; "traceback"; "details"; "status";
   "code_attempted"; "endpoint"; "request_data"; "response_code"].

(** The test assigned to [is_success], on the lower-cased [status] and [health]. *)
Definition success_test (response : dict) (status health : string) : bool :=
  (status =? "success")
  || ((status =? "active") && (health =? "healthy"))
  || ((status =? "active") && contains response "revit_available"
      && truthy (subscript response "revit_available")).

Definition optional_line (response : dict) (key label : string) : list value :=
  if contains response key then [format1 label (subscript response key)] else [].

Definition titled_line (response : dict) (field : string) : value :=
  format2 (VStr (title (replace "_" " " field))) (subscript response field).

Definition status_parts (response : dict) : list value :=
  [VStr "=== REVIT STATUS ===";
   format1 "Status: " (get_default response "status" (VStr "Unknown"));
   format1 "Health: " (get_default response "health" (VStr "Unknown"))]
  ++ optional_line response "api_name" "API: "
  ++ optional_line response "document_title" "Document: "
  ++ optional_line response "revit_available" "Revit Available: "
  ++ (let other_fields := sorted_difference (keys response) known_fields in
      match other_fields with
      | [] => []
      | _ => VStr EmptyString :: map (titled_line response) other_fields
      end).

(** The branch taken when [is_success] holds. *)
Definition success_content (response : dict) (status : string) : result value :=
  if contains response "output" then Ok (subscript response "output")
  else if contains response "message" then Ok (subscript response "message")
  else if contains response "result" then
    Ok (VStr (py_str (subscript response "result")))
  else if contains response "data" then
    Ok (VStr (py_str (subscript response "data")))
  else if status =? "active" then
    text <- join NL (status_parts response) ;; Ok (VStr text)
  else Ok (VStr (json_dumps (VDict response) 2)).

Definition error_parts (response : dict) : list value :=
  let error_msg := get_default response "error" (VStr "Unknown error occurred") in
  let traceback_info := get_default response "traceback" (VStr EmptyString) in
  let details := get_default response "details" (VStr EmptyString) in
  let status := get_default response "status" (VStr "unknown") in
  [VStr "=== ERROR DETAILS ===";
   format1 "Status: " status;
   format1 "Error: " error_msg]
  ++ (if truthy details then [format1 "Details: " details] else [])
  ++ (if truthy traceback_info
      then [VStr (NL ++ "=== TRACEBACK ==="); traceback_info] else [])
  ++ flat_map (fun field =>
                 if contains response field
                 then [titled_line response field] else []) debug_fields
  ++ (let response_keys := sorted_difference (keys response) error_fields in
      match response_keys with
      | [] => []
      | _ => VStr (NL ++ "=== ADDITIONAL RESPONSE DATA ===")
             :: map (fun key => format2 (VStr key) (subscript response key))
                    response_keys
      end).

(** The branch taken otherwise. *)
Definition error_details (response : dict) : result value :=
  text <- join NL (error_parts response) ;; Ok (VStr text).

Definition format_response (response : value) : result value :=
  match response with
  | VDict d =>
      status <- lower_method (get_default d "status" (VStr EmptyString)) ;;
      health <- lower_method (get_default d "health" (VStr EmptyString)) ;;
      let is_success := success_test d status health in
      if is_success then success_content d status else error_details d
  | _ => Ok (VStr (py_str response))
  end.

(** The value of [is_success] when the two [lower()] calls go through. *)
Definition is_success (response : dict) : result bool :=
  status <- lower_method (get_default response "status" (VStr EmptyString)) ;;
  health <- lower_method (get_default response "health" (VStr EmptyString)) ;;
  Ok (success_test response status health).

(** ** The words of the specification *)

(** The success test in the specification's words: the fields compared as they
    are, an absent [status] or [health] read as the empty string. *)
Definition field_is (response : dict) (key text : string) : bool :=
  match get_default response key (VStr EmptyString) with
  | VStr s => s =? text
  | _ => false
  end.

Definition stated_success (response : dict) : bool :=
  field_is response "status" "success"
  || (field_is response "status" "active" && field_is response "health" "healthy")
  || (field_is response "status" "active" && contains response "revit_available"
      && truthy (subscript response "revit_available")).

(** A field that is absent or holds a [str]. *)
Definition str_or_absent (response : dict) (key : string) : bool :=
  match dict_get response key with
  | None | Some (VStr _) => true
  | Some _ => false
  end.

(** A field that is absent, holds a [str], or holds a falsy value. *)
Definition str_or_falsy (response : dict) (key : string) : bool :=
  match dict_get response key with
  | None | Some (VStr _) => true
  | Some v => negb (truthy v)
  end.

Definition is_str (v : value) : bool :=
  match v with VStr _ => true | _ => false end.

(** The status block and the error block, as lines of text. *)
Definition status_block (response : dict) : list string :=
  map py_str (status_parts response).

Definition error_block (response : dict) : list string :=
  map py_str (error_parts response).

(** The replies the formatter can format: a string, or a mapping whose
    status and health, when present, are strings and which, unless it is
    classified as success, holds no traceback or one that is a string or
    falsy. *)
Definition expected_shape (response : value) : bool :=
  match response with
  | VDict d =>
      str_or_absent d "status" && str_or_absent d "health"
      && match is_success d with
         | Ok true => true
         | _ => str_or_falsy d "traceback"
         end
  | _ => true
  end.

(** The four content keys are all absent. *)
Definition no_content_key (response : dict) : Prop :=
  dict_get response "output" = None /\ dict_get response "message" = None
  /\ dict_get response "result" = None /\ dict_get response "data" = None.

(** The labels under which the error block prints the known debug fields. *)
Definition debug_labels : list (string * string) :=
  [("code_attempted", "Code Attempted"); ("endpoint", "Endpoint");
   ("request_data", "Request Data"); ("response_code", "Response Code")].

(** The keys of the mapping that the error block has no line for, sorted. *)
Definition unrecognized (response : dict) : list string :=
  sorted_difference (keys response) error_fields.

(** The error block as the specification describes it, line by line, with
    "present" read as "present and truthy" for details and traceback. *)
Definition described_error_block (response : dict) : list string :=
  ["=== ERROR DETAILS ===";
   "Status: " ++ py_str (get_default response "status" (VStr "unknown"));
   "Error: "
   ++ py_str (get_default response "error" (VStr "Unknown error occurred"))]
  ++ match dict_get response "details" with
     | Some v => if truthy v then ["Details: " ++ py_str v] else []
     | None => []
     end
  ++ match dict_get response "traceback" with
     | Some v => if truthy v then [NL ++ "=== TRACEBACK ==="; py_str v] else []
     | None => []
     end
  ++ flat_map (fun field_label : string * string =>
                 match dict_get response (fst field_label) with
                 | Some v => [snd field_label ++ ": " ++ py_str v]
                 | None => []
                 end) debug_labels
  ++ match unrecognized response with
     | [] => []
     | ks => (NL ++ "=== ADDITIONAL RESPONSE DATA ===")
             :: map (fun k => k ++ ": " ++ py_str (subscript response k)) ks
     end.

End Formatter.

(** * [main.py]: the gateway call helper *)
Module Gateway.
Import Py.

Definition REVIT_HOST : string := "localhost".
Definition REVIT_PORT : Z := 48884.
Definition BASE_URL : string :=
  "http://" ++ REVIT_HOST ++ ":" ++ string_of_Z REVIT_PORT ++ "/revit_mcp".

(** What the helper reads of an [httpx.Response]. *)
Record Response : Type := mkResponse {
  status_code : Z;
  text : string
}.

(** The client opened by [httpx.AsyncClient(timeout=...)]: each call answers or
    raises. *)
Record AsyncClient : Type := mkClient {
  get : string -> option value -> Response + library_error;
  post : string -> option value -> Response + library_error;
  json : Response -> value + library_error
}.

(** The network as seen from the helper: a client for each timeout. *)
Definition Network : Type := Z -> AsyncClient.

Definition default_timeout : Z := 30.

Definition _revit_call (net : Network) (method endpoint : string)
  (data : option value) (timeout : Z) (params : option value) : result value :=
  try_except
    (let client := net timeout in
     let url := BASE_URL ++ endpoint in
     response <- (if method =? "GET"
                  then lift (get client url params)
                  else lift (post client url data)) ;;
     if (status_code response =? 200)%Z
     then lift (json client response)
     else Ok (VStr ("Error: " ++ string_of_Z (status_code response)
                    ++ " - " ++ text response)))
    (fun e => Ok (VStr ("Error: " ++ exc_text e))).

Definition revit_get (net : Network) (endpoint : string) (timeout : Z)
  (params : option value) : result value :=
  _revit_call net "GET" endpoint None timeout params.

Definition revit_post (net : Network) (endpoint : string) (data : value)
  (timeout : Z) (params : option value) : result value :=
  _revit_call net "POST" endpoint (Some data) timeout params.

(** The one request a call issues. *)
Definition sent (net : Network) (method endpoint : string)
  (data : option value) (timeout : Z) (params : option value)
  : Response + library_error :=
  if method =? "GET"
  then get (net timeout) (BASE_URL ++ endpoint) params
  else post (net timeout) (BASE_URL ++ endpoint) data.

(** A service that answers every request with the same status and body, and
    whose body is not JSON. *)
Definition answering (status : Z) (body : string) : Network :=
  fun _ =>
    mkClient (fun _ _ => inl (mkResponse status body))
             (fun _ _ => inl (mkResponse status body))
             (fun _ => inr (mkError "JSONDecodeError" "Expecting value")).

(** A service that cannot be reached. *)
Definition unreachable (e : library_error) : Network :=
  fun _ =>
    mkClient (fun _ _ => inr e) (fun _ _ => inr e)
             (fun _ => inr (mkError "JSONDecodeError" "Expecting value")).

(** ** [revit_image] *)

(** [Image(data=..., format=...)]. *)
Record Image : Type := mkImage {
  image_bytes : string;
  image_format : string
}.

(** What [revit_image] returns: an image or a text. *)
Inductive image_or_text : Type :=
| AnImage (i : Image)
| AText (s : string).

(** What the interpreter and [base64] do for [revit_image]: the error raised
    when a value that is not a mapping is indexed by a key, and
    [base64.b64decode]. *)
Record Codec : Type := mkCodec {
  not_subscriptable : value -> library_error;
  b64decode : value -> string + library_error
}.

(** [data[key]]: a missing key raises [KeyError(key)], whose text is the
    [repr] of the key. *)
Definition getitem (codec : Codec) (data : value) (key : string) : result value :=
  match data with
  | VDict d =>
      match dict_get d key with
      | Some v => Ok v
      | None => Raise (mkExc "KeyError" (repr_str key) EmptyString true)
      end
  | _ => Raise (raised (not_subscriptable codec data))
  end.

Definition image_timeout : Z := 60.

Definition revit_image (net : Network) (codec : Codec) (endpoint : string)
  : result image_or_text :=
  try_except
    (let client := net image_timeout in
     response <- lift (get client (BASE_URL ++ endpoint) None) ;;
     if (status_code response =? 200)%Z
     then
       data <- lift (json client response) ;;
       encoded <- getitem codec data "image_data" ;;
       image_bytes <- lift (b64decode codec encoded) ;;
       Ok (AnImage (mkImage image_bytes "png"))
     else Ok (AText ("Error: " ++ string_of_Z (status_code response)
                     ++ " - " ++ text response)))
    (fun e => Ok (AText ("Error: " ++ exc_text e))).

(** A service that answers every request with status 200 and the same parsed
    body. *)
Definition answering_json (body : value) : Network :=
  fun _ =>
    mkClient (fun _ _ => inl (mkResponse 200 "{}"))
             (fun _ _ => inl (mkResponse 200 "{}"))
             (fun _ => inl body).

(** A codec that takes the encoded text for the bytes. *)
Definition plain_codec : Codec :=
  mkCodec (fun v => mkError "TypeError" "object is not subscriptable")
          (fun v => match v with
                    | VStr s => inl s
                    | _ => inr (mkError "TypeError" "a bytes-like object is required")
                    end).

(** ** The transport chosen on the command line *)

(** What the script does once it has read [sys.argv]: run the server with one
    transport, or run the combined server and exit. *)
Inductive launch : Type :=
| Run (transport : string)
| Combined.

Definition flag (name : string) (argv : list string) : bool :=
  existsb (String.eqb name) argv.

Definition main (argv : list string) : launch :=
  let transport := "stdio" in
  if flag "--sse" argv then Run "sse"
  else if flag "--http" argv || flag "--streamable-http" argv
  then Run "streamable-http"
  else if flag "--combined" argv then Combined
  else Run transport.

End Gateway.

(** * [tools/view_tools.py]: the view tools *)
Module ViewTools.
Import Py Formatter Gateway.

(** The [Context] of a tool call, reduced to its [info] method, which sends a
    log line to the client and may fail. *)
Record Context : Type := mkContext {
  info : string -> result unit
}.

(** [if ctx: await ctx.info(line)]. *)
Definition inform (ctx : option Context) (line : string) : result unit :=
  match ctx with
  | Some c => info c line
  | None => Ok tt
  end.

Definition get_revit_view (net : Network) (codec : Codec) (view_name : string)
  : result image_or_text :=
  revit_image net codec ("/get_view/" ++ view_name).

Definition list_revit_views (net : Network) (ctx : option Context)
  : result value :=
  response <- revit_get net "/list_views/" default_timeout None ;;
  format_response response.

Definition get_current_view_info (net : Network) (ctx : option Context)
  : result value :=
  _ <- inform ctx "Getting current view information..." ;;
  response <- revit_get net "/current_view_info/" default_timeout None ;;
  format_response response.

Definition get_current_view_elements (net : Network) (ctx : option Context)
  : result value :=
  _ <- inform ctx "Getting elements in current view..." ;;
  response <- revit_get net "/current_view_elements/" default_timeout None ;;
  format_response response.

(** A context whose [info] always goes through. *)
Definition quiet_context : Context := mkContext (fun _ => Ok tt).

(** The tools that format what a route answers, each with its route. *)
Definition view_routes
  : list (string * (Network -> option Context -> result value)) :=
  [("/list_views/", list_revit_views);
   ("/current_view_info/", get_current_view_info);
   ("/current_view_elements/", get_current_view_elements)].

(** A context that can be told nothing. *)
Definition quiet_about_everything (ctx : option Context) : Prop :=
  forall line, inform ctx line = Ok tt.

End ViewTools.

(** * [revit_mcp/code_execution.py]: the code-execution route *)
Module Host.
Import Py.

(** [routes.make_response(data=..., status=...)]; the status defaults to 200. *)
Record Response : Type := make_response {
  response_data : value;
  response_status : Z
}.

(** The status of a reply made without one. *)
Definition OK : Z := 200.

(** A field of the reply's mapping. *)
Definition field (r : Response) (key : string) : option value :=
  match response_data r with
  | VDict d => dict_get d key
  | _ => None
  end.

(** [request.data] as the route receives it: bytes, text, or an object that is
    already parsed. *)
Inductive request_data : Type :=
| Bytes (b : string)
| Text (s : string)
| Object (v : value).

Record Request : Type := mkRequest {
  data : request_data
}.

Definition NO_OUTPUT : string := "Code executed successfully (no output)".

(** The life of a [DB.Transaction]. *)
Inductive TransactionStatus : Type :=
| Uninitialized
| Started
| Committed
| RolledBack.

(** What the route asks of the Revit API, in order. *)
Inductive call : Type :=
| TxStart (name : string)
| Exec (code : value)
| TxCommit
| TxRollBack.

(** What [exec(code, namespace)] does: the document it leaves, the exception
    the code ended with, if any, and what [captured_output.getvalue()] gives
    once the code has ended: the text printed, or an exception (a [ValueError]
    when the code has closed the buffer, which is [sys.stdout] while it
    runs). *)
Record exec_outcome (document : Type) : Type := mkOutcome {
  new_doc : document;
  getvalue : result string;
  raised_by_code : option exc
}.
Arguments mkOutcome {document} new_doc getvalue raised_by_code.
Arguments new_doc {document} e.
Arguments getvalue {document} e.
Arguments raised_by_code {document} e.

(** What the host does outside this file: the model of the document, decoding
    request bytes, parsing JSON, running a piece of code against the
    document, and [str(e)] for an exception the route has caught: its text, or
    what its [__str__] method raises. *)
Class Environment : Type := {
  document : Type;
  decode_utf8_replace : string -> string;
  json_loads : string -> value + library_error;
  exec : value -> document -> exec_outcome document;
  str : exc -> result string
}.

Declare Scope host_scope.

Section Route.

Context {E : Environment}.

(** The transaction [t]: its name, its status, and the document as it was when
    the transaction started, which a roll-back brings back. *)
Record Transaction : Type := mkTransaction {
  tx_name : string;
  tx_status : TransactionStatus;
  tx_before : document
}.

(** Everything the route touches. *)
Record host : Type := mkHost {
  doc : document;
  t : option Transaction;
  stdout_captured : bool;
  calls : list call;
  log : list string
}.

Definition fresh (d : document) : host := mkHost d None false [] [].

(** A step of the route: it changes the host and returns or raises. *)
Definition M (A : Type) : Type := host -> result A * host.

Definition ret {A : Type} (a : A) : M A := fun h => (Ok a, h).

Definition bindM {A B : Type} (m : M A) (k : A -> M B) : M B :=
  fun h =>
    match m h with
    | (Ok a, h') => k a h'
    | (Raise e, h') => (Raise e, h')
    end.

Definition of_result {A : Type} (r : result A) : M A := fun h => (r, h).

(** [try: body except Exception as e: handler e]. *)
Definition try_exceptM {A : Type} (body : M A) (handler : exc -> M A) : M A :=
  fun h =>
    match body h with
    | (Ok a, h') => (Ok a, h')
    | (Raise e, h') => if is_Exception e then handler e h' else (Raise e, h')
    end.

Definition InvalidOperationException (text : string) : exc :=
  mkExc "InvalidOperationException" text EmptyString true.

Definition called (c : call) (h : host) : host :=
  mkHost (doc h) (t h) (stdout_captured h) (calls h ++ [c]) (log h).

(** [logger.info] and [logger.error]. *)
Definition logger (line : string) : M unit :=
  fun h =>
    (Ok tt, mkHost (doc h) (t h) (stdout_captured h) (calls h) (log h ++ [line])).

(** [sys.stdout = captured_output] and [sys.stdout = old_stdout]. *)
Definition set_stdout (captured : bool) : M unit :=
  fun h => (Ok tt, mkHost (doc h) (t h) captured (calls h) (log h)).

(** [t = DB.Transaction(doc, name)]. *)
Definition new_Transaction (name : string) : M unit :=
  fun h =>
    (Ok tt, mkHost (doc h) (Some (mkTransaction name Uninitialized (doc h)))
                   (stdout_captured h) (calls h) (log h)).

Definition status_of (h : host) : TransactionStatus :=
  match t h with
  | Some tx => tx_status tx
  | None => Uninitialized
  end.

(** [t.Start()]: only a transaction that has not started can start. *)
Definition Start : M unit :=
  fun h =>
    match t h with
    | Some (mkTransaction name Uninitialized _) =>
        (Ok tt, called (TxStart name)
                  (mkHost (doc h) (Some (mkTransaction name Started (doc h)))
                          (stdout_captured h) (calls h) (log h)))
    | _ => (Raise (InvalidOperationException "Cannot start the transaction"), h)
    end.

(** [t.Commit()]: only a started transaction can be committed. *)
Definition Commit : M unit :=
  fun h =>
    match t h with
    | Some (mkTransaction name Started before) =>
        (Ok tt, called TxCommit
                  (mkHost (doc h) (Some (mkTransaction name Committed before))
                          (stdout_captured h) (calls h) (log h)))
    | _ => (Raise (InvalidOperationException "The transaction is not started"), h)
    end.

(** [t.RollBack()]: only a started transaction can be rolled back; the
    document goes back to what it was at [Start]. *)
Definition RollBack : M unit :=
  fun h =>
    match t h with
    | Some (mkTransaction name Started before) =>
        (Ok tt, called TxRollBack
                  (mkHost before (Some (mkTransaction name RolledBack before))
                          (stdout_captured h) (calls h) (log h)))
    | _ => (Raise (InvalidOperationException "The transaction is not started"), h)
    end.

Definition HasStarted : M bool :=
  fun h =>
    (Ok (match status_of h with Uninitialized => false | _ => true end), h).

Definition HasEnded : M bool :=
  fun h =>
    (Ok (match status_of h with Committed | RolledBack => true | _ => false end),
     h).

(** [exec(code_to_execute, namespace)]: it leaves the capture buffer, of
    which only [getvalue()] is used. *)
Definition exec_code (code : value) : M (result string) :=
  fun h =>
    let o := exec code (doc h) in
    let h' := called (Exec code)
                (mkHost (new_doc o) (t h) (stdout_captured h) (calls h) (log h)) in
    match raised_by_code o with
    | Some e => (Raise e, h')
    | None => (Ok (getvalue o), h')
    end.

Notation "x <- m ;; k" := (bindM m (fun x => k))
  (at level 61, m at next level, right associativity) : host_scope.
Notation "m ;; k" := (bindM m (fun _ => k))
  (at level 61, right associativity) : host_scope.
Open Scope host_scope.

(** The payload: bytes are decoded, text is parsed, anything else is taken as
    it is. *)
Definition payload_of (request : Request) : result value :=
  match data request with
  | Bytes b => lift (json_loads (decode_utf8_replace b))
  | Text s => lift (json_loads s)
  | Object v => Ok v
  end.

(** The inner handler, [except Exception as exec_error]. *)
Definition on_exec_error (code_to_execute : value) (exec_error : exc)
  : M Response :=
  set_stdout false ;;
  started <- HasStarted ;;
  ended <- HasEnded ;;
  (if started && negb ended then RollBack else ret tt) ;;
  let error_traceback := format_exc exec_error in
  text <- of_result (str exec_error) ;;
  logger ("Code execution failed: " ++ text) ;;
  logger ("Traceback: " ++ error_traceback) ;;
  error <- of_result (str exec_error) ;;
  ret (make_response
         (VDict [("status", VStr "error");
                 ("error", VStr error);
                 ("traceback", VStr error_traceback);
                 ("code_attempted", code_to_execute)])
         500).

(** From [logger.info] to the end of the inner [try]. *)
Definition run (code_to_execute description : value) : M Response :=
  logger ("Executing code: " ++ py_str description) ;;
  new_Transaction ("MCP Code Execution: " ++ py_str description) ;;
  Start ;;
  try_exceptM
    (set_stdout true ;;
     captured_output <- exec_code code_to_execute ;;
     set_stdout false ;;
     output <- of_result captured_output ;;
     Commit ;;
     ret (make_response
            (VDict [("status", VStr "success");
                    ("description", description);
                    ("output",
                     VStr (if output =? EmptyString then NO_OUTPUT else output));
                    ("code_executed", code_to_execute)])
            OK))
    (on_exec_error code_to_execute).

(** The outer handler, [except Exception as e]. *)
Definition on_request_error (e : exc) : M Response :=
  text <- of_result (str e) ;;
  logger ("Execute code request failed: " ++ text) ;;
  error_str <- of_result (str e) ;;
  if has_substring "encoding" (lower error_str)
     || has_substring "codepage" (lower error_str)
  then ret (make_response
              (VDict [("error",
                       VStr "Encoding error - .NET CodePages encoding provider may not be registered");
                      ("details", VStr error_str);
                      ("suggestion",
                       VStr "Ensure System.Text.Encoding.CodePages is registered at startup")])
              500)
  else
    error <- of_result (str e) ;;
    ret (make_response (VDict [("error", VStr error)]) 500).

Definition handler (request : Request) : M Response :=
  try_exceptM
    (payload <- of_result (payload_of request) ;;
     code_to_execute <- of_result (get_method payload "code" (VStr EmptyString)) ;;
     description <-
       of_result (get_method payload "description" (VStr "Code execution")) ;;
     if negb (truthy code_to_execute)
     then ret (make_response (VDict [("error", VStr "No code provided")]) 400)
     else run code_to_execute description)
    on_request_error.

(** The route, on a document and a request: what it returns or lets out, and
    the host it leaves. *)
Definition execute_code (doc : document) (request : Request)
  : result Response * host :=
  handler request (fresh doc).


(** The host once the code has been executed in the started transaction, with
    the output still captured or not. *)
Definition executed (doc0 : document) (code description : value)
  (captured : bool) : host :=
  mkHost (new_doc (exec code doc0))
         (Some (mkTransaction ("MCP Code Execution: " ++ py_str description)
                              Started doc0))
         captured
         [TxStart ("MCP Code Execution: " ++ py_str description); Exec code]
         ["Executing code: " ++ py_str description].

End Route.

(** ** Small hosts to run the route on

    The document is reduced to the number of its elements; the host receives
    its payloads already parsed; every exception prints as its text, unless
    it is the one of [unprintable_host]; every piece of code adds one
    element, and then ends quietly, raises a [ValueError], leaves through
    [SystemExit] (which does not derive from [Exception]), ends after closing
    the capture buffer, or raises an exception whose [__str__] raises. *)

Definition no_json (s : string) : value + library_error :=
  inr (mkError "ValueError" "No JSON object could be decoded").

Definition as_is (b : string) : string := b.

Definition its_text (e : exc) : result string := Ok (exc_text e).

Definition ends_quietly (code : value) (elements : nat) : exec_outcome nat :=
  mkOutcome (S elements) (Ok EmptyString) None.




Definition closed_file : exc :=
  mkExc "ValueError" "I/O operation on closed file" EmptyString true.

Definition closes_stdout (code : value) (elements : nat) : exec_outcome nat :=
  mkOutcome (S elements) (Raise closed_file) None.





Definition quiet_host : Environment :=
  Build_Environment nat as_is no_json ends_quietly its_text.



Definition closing_host : Environment :=
  Build_Environment nat as_is no_json closes_stdout its_text.


(** An exception of a class of the executed code, derived from [Exception],
    whose [__str__] raises the exception itself. *)
Definition Stubborn : exc :=
  mkExc "Stubborn" "<unprintable Stubborn object>" EmptyString true.

Definition raises_Stubborn (code : value) (elements : nat) : exec_outcome nat :=
  mkOutcome (S elements) (Ok EmptyString) (Some Stubborn).

Definition str_but_Stubborn (e : exc) : result string :=
  if exc_class e =? "Stubborn" then Raise e else Ok (exc_text e).

Definition stubborn_host : Environment :=
  Build_Environment nat as_is no_json raises_Stubborn str_but_Stubborn.

Definition posted (payload : list (string * value)) : Request :=
  mkRequest (Object (VDict payload)).

End Host.

(** * [revit_mcp/utils.py]: helpers of the Revit side *)
Module RevitUtils.
Import Py.

(** What the interpreter does for the helpers: which characters [strip] takes
    for white space, how bytes read as UTF-8 (if they do), and what
    [unicode(x)] gives for an object that is not a string. *)
Class Interpreter : Type := {
  is_space : ascii -> bool;
  decode_utf8 : string -> option string;
  object : Type;
  unicode : object -> result string
}.

(** [try: body except (classes): handler]. *)
Definition try_except_of {A : Type} (classes : list string) (body : result A)
  (handler : exc -> result A) : result A :=
  match body with
  | Ok a => Ok a
  | Raise e =>
      if existsb (String.eqb (exc_class e)) classes then handler e else Raise e
  end.

Section Helpers.

Context {I : Interpreter}.

(** ** [normalize_string] *)

Fixpoint lstrip (s : string) : string :=
  match s with
  | EmptyString => EmptyString
  | String c rest => if is_space c then lstrip rest else s
  end.

Fixpoint rstrip (s : string) : string :=
  match s with
  | EmptyString => EmptyString
  | String c rest =>
      match rstrip rest with
      | EmptyString => if is_space c then EmptyString else String c EmptyString
      | kept => String c kept
      end
  end.

(** [s.strip()]. *)
Definition strip (s : string) : string := rstrip (lstrip s).

(** What [normalize_string] is given, in the order in which it tests:
    [None], a [unicode] string, a byte string, or anything else. *)
Inductive argument : Type :=
| IsNone
| Unicode (s : string)
| ByteString (b : string)
| Other (o : object).

Definition UnicodeDecodeError : exc :=
  mkExc "UnicodeDecodeError" "'utf8' codec can't decode bytes" EmptyString true.

(** [b.decode("utf-8")]. *)
Definition decode_utf_8 (b : string) : result string :=
  match decode_utf8 b with
  | Some s => Ok s
  | None => Raise UnicodeDecodeError
  end.

(** [b.decode("latin-1")]: every byte is the code point of its value. *)
Definition decode_latin_1 (b : string) : result string := Ok b.

Definition normalize_string (text : argument) : result string :=
  match text with
  | IsNone => Ok "Unnamed"
  | Unicode s => Ok (strip s)
  | ByteString b =>
      try_except_of ["UnicodeDecodeError"; "AttributeError"]
        (s <- decode_utf_8 b ;; Ok (strip s))
        (fun _ => s <- decode_latin_1 b ;; Ok (strip s))
  | Other o =>
      try_except (s <- unicode o ;; Ok (strip s)) (fun _ => Ok "Unnamed")
  end.

(** A text of white space only. *)
Fixpoint blank (s : string) : bool :=
  match s with
  | EmptyString => true
  | String c rest => is_space c && blank rest
  end.

Definition starts_with_space (s : string) : bool :=
  match s with
  | EmptyString => false
  | String c _ => is_space c
  end.

Fixpoint ends_with_space (s : string) : bool :=
  match s with
  | EmptyString => false
  | String c EmptyString => is_space c
  | String _ rest => ends_with_space rest
  end.

(** A text with no white space at either end. *)
Definition trimmed (s : string) : bool :=
  negb (starts_with_space s) && negb (ends_with_space s).

End Helpers.

(** ** [find_family_symbol_safely] *)

(** A [DB.FamilySymbol]: its element id, and what reading [symbol.Family.Name]
    and [symbol.Name] gives. *)
Record FamilySymbol : Type := mkSymbol {
  Id : Z;
  Family_Name : string + library_error;
  Name : string + library_error
}.

(** The document, reduced to what
    [DB.FilteredElementCollector(doc).OfClass(DB.FamilySymbol)] yields. *)
Record Document : Type := mkDocument {
  family_symbols : list FamilySymbol + library_error
}.

(** [name == target], for a name read from the API. *)
Definition eq_text (name : string) (target : value) : bool :=
  match target with
  | VStr s => name =? s
  | _ => false
  end.

(** The loop over the collector. *)
Fixpoint search (collector : list FamilySymbol)
  (target_family_name target_type_name : value)
  : result (option FamilySymbol) :=
  match collector with
  | [] => Ok None
  | symbol :: rest =>
      family <- lift (Family_Name symbol) ;;
      if eq_text family target_family_name
      then
        if negb (truthy target_type_name)
        then Ok (Some symbol)
        else
          name <- lift (Name symbol) ;;
          if eq_text name target_type_name
          then Ok (Some symbol)
          else search rest target_family_name target_type_name
      else search rest target_family_name target_type_name
  end.

(** The symbol found, if any, and the lines logged. *)
Definition find_family_symbol_safely (doc : Document)
  (target_family_name target_type_name : value)
  : result (option FamilySymbol * list string) :=
  try_except
    (collector <- lift (family_symbols doc) ;;
     found <- search collector target_family_name target_type_name ;;
     Ok (found, []))
    (fun e => Ok (None, ["Error finding family symbol: " ++ exc_text e])).

(** What the loop finds out about one symbol. *)
Definition accepted (symbol : FamilySymbol)
  (target_family_name target_type_name : value) : Prop :=
  exists family,
    Family_Name symbol = inl family
    /\ eq_text family target_family_name = true
    /\ (truthy target_type_name = false
        \/ exists name,
             Name symbol = inl name /\ eq_text name target_type_name = true).

Definition passed_over (symbol : FamilySymbol)
  (target_family_name target_type_name : value) : Prop :=
  exists family,
    Family_Name symbol = inl family
    /\ (eq_text family target_family_name = false
        \/ (truthy target_type_name = true
            /\ exists name,
                 Name symbol = inl name
                 /\ eq_text name target_type_name = false)).

Definition unreadable (symbol : FamilySymbol)
  (target_family_name target_type_name : value) (e : library_error) : Prop :=
  Family_Name symbol = inr e
  \/ (exists family,
        Family_Name symbol = inl family
        /\ eq_text family target_family_name = true
        /\ truthy target_type_name = true
        /\ Name symbol = inr e).

(** An interpreter with the white space of [unicode.strip] below 256, bytes
    that never read as UTF-8, and no objects besides strings. *)
Definition plain_interpreter : Interpreter :=
  Build_Interpreter
    (fun c =>
       let n := nat_of_ascii c in
       ((9 <=? n) && (n <=? 13) || (28 <=? n) && (n <=? 32)
        || (n =? 133) || (n =? 160))%nat)
    (fun _ => None)
    Empty_set
    (fun o => match o with end).

End RevitUtils.

(** * [revit_mcp/model_info.py]: the counts of the model summary *)
Module ModelInfo.
Import Py.

(** ** Element counts *)

Inductive BuiltInCategory : Type :=
| OST_Walls
| OST_Floors
| OST_Ceilings
| OST_Roofs
| OST_Doors
| OST_Windows
| OST_Stairs
| OST_Railings
| OST_Columns
| OST_StructuralFraming
| OST_Furniture
| OST_LightingFixtures
| OST_PlumbingFixtures.

Definition element_categories : list (string * BuiltInCategory) :=
  [("Walls", OST_Walls);
   ("Floors", OST_Floors);
   ("Ceilings", OST_Ceilings);
   ("Roofs", OST_Roofs);
   ("Doors", OST_Doors);
   ("Windows", OST_Windows);
   ("Stairs", OST_Stairs);
   ("Railings", OST_Railings);
   ("Columns", OST_Columns);
   ("Structural_Framing", OST_StructuralFraming);
   ("Furniture", OST_Furniture);
   ("Lighting_Fixtures", OST_LightingFixtures);
   ("Plumbing_Fixtures", OST_PlumbingFixtures)].

(** [d[key] = v]. *)
Fixpoint setitem (d : list (string * Z)) (key : string) (v : Z)
  : list (string * Z) :=
  match d with
  | [] => [(key, v)]
  | (k, old) :: rest =>
      if k =? key then (k, v) :: rest else (k, old) :: setitem rest key v
  end.

Fixpoint getitem (d : list (string * Z)) (key : string) : option Z :=
  match d with
  | [] => None
  | (k, v) :: rest => if k =? key then Some v else getitem rest key
  end.

(** One turn of the loop, for the count the collector gives or the exception
    it raises; the bare [except] takes every exception. *)
Definition count_category (GetElementCount : BuiltInCategory -> result Z)
  (state : list (string * Z) * Z) (item : string * BuiltInCategory)
  : list (string * Z) * Z :=
  let '(element_counts, total_elements) := state in
  let '(name, category) := item in
  match GetElementCount category with
  | Ok count => (setitem element_counts name count, total_elements + count)%Z
  | Raise _ => (setitem element_counts name 0%Z, total_elements)
  end.

(** The loop, over the items of the mapping in the order in which the
    interpreter hands them out: [element_counts] and [total_elements]. *)
Definition count_elements (GetElementCount : BuiltInCategory -> result Z)
  (items : list (string * BuiltInCategory)) : list (string * Z) * Z :=
  fold_left (count_category GetElementCount) items ([], 0%Z).

(** The sum of the values of a mapping. *)
Definition sum_values (d : list (string * Z)) : Z :=
  fold_right (fun kv acc => (snd kv + acc)%Z) 0%Z d.

(** What a category counts for. *)
Definition counted (GetElementCount : BuiltInCategory -> result Z)
  (category : BuiltInCategory) : Z :=
  match GetElementCount category with
  | Ok count => count
  | Raise _ => 0%Z
  end.

(** A collector that fails on the doors, finds twelve walls and one element
    of every other category. *)
Definition doors_fail (category : BuiltInCategory) : result Z :=
  match category with
  | OST_Walls => Ok 12%Z
  | OST_Doors => Raise (mkExc "SystemError" "collector" EmptyString false)
  | _ => Ok 1%Z
  end.

(** ** Warnings *)

(** A warning of the document, reduced to what the test
    [w.GetSeverity() == DB.WarningType.Error] gives or raises. *)
Record FailureMessage : Type := mkWarning {
  is_error : result bool
}.

(** [sum(1 for w in warnings if test w)]. *)
Fixpoint sum_ones {A : Type} (test : A -> result bool) (items : list A)
  : result Z :=
  match items with
  | [] => Ok 0%Z
  | x :: rest =>
      hit <- test x ;;
      n <- sum_ones test rest ;;
      Ok (if hit then 1 + n else n)%Z
  end.

(** [warnings_count] and [critical_warnings]; the bare [except] takes every
    exception. *)
Definition count_warnings (GetWarnings : result (list FailureMessage)) : Z * Z :=
  match
    (warnings <- GetWarnings ;;
     let warnings_count := Z.of_nat (length warnings) in
     critical_warnings <- sum_ones is_error warnings ;;
     Ok (warnings_count, critical_warnings))
  with
  | Ok counts => counts
  | Raise _ => (0%Z, 0%Z)
  end.

(** ** Views and sheets *)

Inductive ViewType : Type :=
| Undefined
| FloorPlan
| CeilingPlan
| Elevation
| ThreeD
| Schedule
| DrawingSheet
| ProjectBrowser
| DraftingView
| Legend
| Internal
| Section_
| OtherViewType (n : nat).

Definition ViewType_eqb (a b : ViewType) : bool :=
  match a, b with
  | Undefined, Undefined
  | FloorPlan, FloorPlan
  | CeilingPlan, CeilingPlan
  | Elevation, Elevation
  | ThreeD, ThreeD
  | Schedule, Schedule
  | DrawingSheet, DrawingSheet
  | ProjectBrowser, ProjectBrowser
  | DraftingView, DraftingView
  | Legend, Legend
  | Internal, Internal
  | Section_, Section_ => true
  | OtherViewType n, OtherViewType m => (n =? m)%nat
  | _, _ => false
  end.

(** A [DB.View]: what reading [IsTemplate] and [ViewType] gives. *)
Record View : Type := mkView {
  IsTemplate : bool + library_error;
  view_type : ViewType + library_error
}.

(** [hasattr(v, "IsTemplate")]: the attribute is read, and whatever the
    reading raises means that the view does not have it. *)
Definition hasattr_IsTemplate (v : View) : bool :=
  match IsTemplate v with
  | inl _ => true
  | inr _ => false
  end.

(** The condition of the comprehension, with the short cuts of [and]. *)
Definition is_valid (v : View) : result bool :=
  if negb (hasattr_IsTemplate v) then Ok false
  else
    template <- lift (IsTemplate v) ;;
    if template then Ok false
    else
      first <- lift (view_type v) ;;
      if ViewType_eqb first Internal then Ok false
      else
        second <- lift (view_type v) ;;
        Ok (negb (ViewType_eqb second ProjectBrowser)).

(** [[v for v in all_views if is_valid v]]. *)
Fixpoint valid_among (all_views : list View) : result (list View) :=
  match all_views with
  | [] => Ok []
  | v :: rest =>
      keep <- is_valid v ;;
      kept <- valid_among rest ;;
      Ok (if keep then v :: kept else kept)
  end.

(** [v.ViewType == kind]. *)
Definition of_type (kind : ViewType) (v : View) : result bool :=
  found <- lift (view_type v) ;;
  Ok (ViewType_eqb found kind).

(** A view that counts: it is not a template, and its type is neither
    [Internal] nor [ProjectBrowser]. *)
Definition shown (v : View) : bool :=
  match IsTemplate v, view_type v with
  | inl false, inl kind =>
      negb (ViewType_eqb kind Internal)
      && negb (ViewType_eqb kind ProjectBrowser)
  | _, _ => false
  end.

(** A view of a given type. *)
Definition has_type (kind : ViewType) (v : View) : bool :=
  match view_type v with
  | inl found => ViewType_eqb found kind
  | inr _ => false
  end.

(** A view that is no template and whose type cannot be read. *)
Definition type_unreadable (v : View) (e : library_error) : Prop :=
  IsTemplate v = inl false /\ view_type v = inr e.

Record Documentation : Type := mkDocumentation {
  sheets_count : Z;
  views_count : Z;
  floor_plans : Z;
  elevations : Z;
  sections : Z;
  threed_views : Z;
  schedules : Z
}.

(** The section on views and sheets, for what the two collectors give: the
    seven counts and the lines logged. *)
Definition count_views (GetSheetCount : Z + library_error)
  (ToElements : list View + library_error)
  : result (Documentation * list string) :=
  try_except
    (sheets_count <- lift GetSheetCount ;;
     all_views <- lift ToElements ;;
     valid_views <- valid_among all_views ;;
     let views_count := Z.of_nat (length valid_views) in
     floor_plans <- sum_ones (of_type FloorPlan) valid_views ;;
     elevations <- sum_ones (of_type Elevation) valid_views ;;
     sections <- sum_ones (of_type Section_) valid_views ;;
     threed_views <- sum_ones (of_type ThreeD) valid_views ;;
     schedules <- sum_ones (of_type Schedule) valid_views ;;
     Ok (mkDocumentation sheets_count views_count floor_plans elevations
                         sections threed_views schedules, []))
    (fun e =>
       Ok (mkDocumentation 0 0 0 0 0 0 0,
           ["Could not get views/sheets: " ++ exc_text e])).

End ModelInfo.

(** * Keys of a reply: their order and their content *)
Module Keys.
Import Py.

(** The order in which [sorted] puts two different keys: by code points. *)
Definition precedes (a b : string) : Prop := String.ltb a b = true.


End Keys.

(** * Facts about text *)
Module TextFacts.
Import Py.

Lemma append_assoc (a b c : string) : (a ++ b) ++ c = a ++ b ++ c.
Proof. induction a as [|ch a IH]; simpl; [reflexivity | now rewrite IH]. Qed.

Lemma append_empty_r (a : string) : a ++ EmptyString = a.
Proof. induction a as [|ch a IH]; simpl; [reflexivity | now rewrite IH]. Qed.

Ltac text_assoc :=
  repeat rewrite append_assoc; repeat rewrite append_empty_r; reflexivity.

Lemma prefix_append (a b : string) : String.prefix a (a ++ b) = true.
Proof.
  induction a as [|ch a IH]; simpl.
  - destruct b; reflexivity.
  - destruct (ascii_dec ch ch) as [_|Hne]; [exact IH | now destruct Hne].
Qed.

Lemma has_substring_prefix (needle hay : string) :
  String.prefix needle hay = true -> has_substring needle hay = true.
Proof. intros H. destruct hay; cbn [has_substring]; rewrite H; reflexivity. Qed.

Lemma has_substring_inside (needle before after : string) :
  has_substring needle (before ++ needle ++ after) = true.
Proof.
  induction before as [|ch before IH].
  - change (EmptyString ++ needle ++ after) with (needle ++ after).
    apply has_substring_prefix, prefix_append.
  - change (String ch before ++ needle ++ after)
      with (String ch (before ++ needle ++ after)).
    cbn [has_substring]. rewrite IH. apply orb_true_r.
Qed.

(** A joined text begins with its first part; what follows is empty or begins
    with the separator. *)
Lemma concat_head (sep x : string) (l : list string) :
  exists post,
    String.concat sep (x :: l) = x ++ post
    /\ (post = EmptyString \/ exists rest, post = sep ++ rest).
Proof.
  destruct l as [|y l].
  - exists EmptyString. split; [symmetry; apply append_empty_r | now left].
  - exists (sep ++ String.concat sep (y :: l)). split; [reflexivity|].
    right. eauto.
Qed.

(** Two parts that follow each other are found, separator between them, in the
    joined text. *)
Lemma concat_adjacent (sep x y : string) (before after : list string) :
  exists pre post,
    String.concat sep (before ++ x :: y :: after) = pre ++ (x ++ sep ++ y) ++ post.
Proof.
  induction before as [|b before IH].
  - destruct (concat_head sep y after) as (post & Epost & _).
    exists EmptyString, post.
    change (String.concat sep ([] ++ x :: y :: after))
      with (x ++ sep ++ String.concat sep (y :: after)).
    rewrite Epost. simpl. text_assoc.
  - destruct IH as (pre & post & E).
    exists (b ++ sep ++ pre), post.
    assert (Hcons : String.concat sep ((b :: before) ++ x :: y :: after)
                    = b ++ sep ++ String.concat sep (before ++ x :: y :: after)).
    { destruct before; reflexivity. }
    rewrite Hcons, E. text_assoc.
Qed.

(** A part is found in the joined text. *)
Lemma concat_member (sep x : string) (before after : list string) :
  exists pre post,
    String.concat sep (before ++ x :: after) = pre ++ x ++ post.
Proof.
  induction before as [|b before IH].
  - destruct (concat_head sep x after) as (post & Epost & _).
    exists EmptyString, post. exact Epost.
  - destruct IH as (pre & post & E).
    exists (b ++ sep ++ pre), post.
    assert (Hcons : String.concat sep ((b :: before) ++ x :: after)
                    = b ++ sep ++ String.concat sep (before ++ x :: after)).
    { destruct before; reflexivity. }
    rewrite Hcons, E. text_assoc.
Qed.

Lemma has_substring_member (sep x : string) (before after : list string) :
  has_substring x (String.concat sep (before ++ x :: after)) = true.
Proof.
  destruct (concat_member sep x before after) as (pre & post & ->).
  apply has_substring_inside.
Qed.

(** A heading that opens with the separator, followed by a part: the heading
    is found on a line of its own with the part on the next. *)
Lemma has_substring_section (sep heading y : string) (before after : list string) :
  has_substring (heading ++ sep ++ y)
                (String.concat sep (before ++ (sep ++ heading) :: y :: after))
  = true.
Proof.
  destruct (concat_adjacent sep (sep ++ heading) y before after)
    as (pre & post & ->).
  assert (E : pre ++ ((sep ++ heading) ++ sep ++ y) ++ post
              = (pre ++ sep) ++ (heading ++ sep ++ y) ++ post) by text_assoc.
  rewrite E. apply has_substring_inside.
Qed.

(** The first three parts of a joined text: it begins with the first, and the
    second and the third each stand between two separators once the text is
    wrapped in separators. *)
Lemma concat_first_three (sep a b c : string) (more : list string) :
  String.prefix a (String.concat sep (a :: b :: c :: more)) = true
  /\ has_substring (sep ++ b ++ sep)
                   (sep ++ String.concat sep (a :: b :: c :: more) ++ sep) = true
  /\ has_substring (sep ++ c ++ sep)
                   (sep ++ String.concat sep (a :: b :: c :: more) ++ sep) = true.
Proof.
  destruct (concat_head sep c more) as (post & Epost & Hpost).
  assert (E : String.concat sep (a :: b :: c :: more)
              = a ++ sep ++ b ++ sep ++ c ++ post).
  { change (String.concat sep (a :: b :: c :: more))
      with (a ++ sep ++ b ++ sep ++ String.concat sep (c :: more)).
    rewrite Epost. reflexivity. }
  rewrite E. split; [apply prefix_append|]. split.
  - assert (Hb : sep ++ (a ++ sep ++ b ++ sep ++ c ++ post) ++ sep
                 = (sep ++ a) ++ (sep ++ b ++ sep) ++ (c ++ post ++ sep))
      by text_assoc.
    rewrite Hb. apply has_substring_inside.
  - destruct Hpost as [-> | [rest ->]].
    + assert (Hc : sep ++ (a ++ sep ++ b ++ sep ++ c ++ EmptyString) ++ sep
                   = (sep ++ a ++ sep ++ b) ++ (sep ++ c ++ sep) ++ EmptyString)
        by text_assoc.
      rewrite Hc. apply has_substring_inside.
    + assert (Hc : sep ++ (a ++ sep ++ b ++ sep ++ c ++ sep ++ rest) ++ sep
                   = (sep ++ a ++ sep ++ b) ++ (sep ++ c ++ sep) ++ (rest ++ sep))
        by text_assoc.
      rewrite Hc. apply has_substring_inside.
Qed.

End TextFacts.

(** * Facts about sorted keys *)
Module KeyFacts.
Import Py Keys.

Lemma precedes_trans (a b c : string) :
  precedes a b -> precedes b c -> precedes a c.
Proof.
  unfold precedes, String.ltb. intros Hab Hbc.
  destruct (String.compare a b) eqn:Eab; try discriminate Hab.
  destruct (String.compare b c) eqn:Ebc; try discriminate Hbc.
  assert (Hac : OrdersEx.String_as_OT.lt a c).
  { transitivity b; [exact Eab | exact Ebc]. }
  unfold OrdersEx.String_as_OT.lt in Hac.
  change OrdersEx.String_as_OT.compare with String.compare in Hac.
  rewrite Hac. reflexivity.
Qed.

Lemma precedes_irrefl (a : string) : ~ precedes a a.
Proof.
  unfold precedes, String.ltb. intros H.
  destruct (String.compare a a) eqn:E; try discriminate H.
  assert (Hlt : OrdersEx.String_as_OT.lt a a) by exact E.
  exact (RelationClasses.StrictOrder_Irreflexive a Hlt).
Qed.

Lemma precedes_total (a b : string) : a = b \/ precedes a b \/ precedes b a.
Proof.
  unfold precedes, String.ltb.
  destruct (String.compare a b) eqn:E.
  - left. apply String.compare_eq_iff. exact E.
  - right. left. reflexivity.
  - right. right. rewrite (String.compare_antisym b a), E. reflexivity.
Qed.

Lemma mem_In (key : string) (l : list string) : mem key l = true <-> In key l.
Proof.
  unfold mem. rewrite existsb_exists. split.
  - intros (x & Hin & Heq). apply String.eqb_eq in Heq. subst. exact Hin.
  - intros Hin. exists key. split; [exact Hin | apply String.eqb_refl].
Qed.

Lemma insert_sorted_In (k x : string) (l : list string) :
  In k (insert_sorted x l) <-> k = x \/ In k l.
Proof.
  induction l as [|h t IH]; simpl.
  - intuition congruence.
  - destruct (x =? h) eqn:E.
    + apply String.eqb_eq in E. subst. simpl. intuition congruence.
    + destruct (String.ltb x h); simpl; rewrite ?IH; intuition congruence.
Qed.

Lemma sorted_set_In (k : string) (l : list string) :
  In k (sorted_set l) <-> In k l.
Proof.
  unfold sorted_set. induction l as [|x l IH]; simpl; [tauto|].
  rewrite insert_sorted_In, IH. intuition congruence.
Qed.

Lemma insert_sorted_sorted (x : string) (l : list string) :
  StronglySorted precedes l -> StronglySorted precedes (insert_sorted x l).
Proof.
  induction 1 as [|h t Hsorted IH Hall]; simpl.
  - constructor; constructor.
  - destruct (x =? h) eqn:E; [constructor; assumption|].
    destruct (String.ltb x h) eqn:Hlt.
    + constructor; [constructor; assumption|].
      constructor; [exact Hlt|].
      rewrite Forall_forall in *. intros k Hk.
      exact (precedes_trans x h k Hlt (Hall k Hk)).
    + constructor; [exact IH|].
      rewrite Forall_forall in *. intros k Hk.
      apply insert_sorted_In in Hk as [-> | Hk]; [|exact (Hall k Hk)].
      destruct (precedes_total x h) as [-> | [Hxh | Hhx]].
      * rewrite String.eqb_refl in E. discriminate E.
      * unfold precedes in Hxh. congruence.
      * exact Hhx.
Qed.

Lemma sorted_set_sorted (l : list string) : StronglySorted precedes (sorted_set l).
Proof.
  unfold sorted_set. induction l as [|x l IH]; simpl.
  - constructor.
  - apply insert_sorted_sorted, IH.
Qed.

Lemma sorted_NoDup (l : list string) : StronglySorted precedes l -> NoDup l.
Proof.
  induction 1 as [|h t Hsorted IH Hall]; constructor; [|exact IH].
  intros Hin. rewrite Forall_forall in Hall.
  exact (precedes_irrefl h (Hall h Hin)).
Qed.


Lemma sorted_difference_In (k : string) (ks known : list string) :
  In k (sorted_difference ks known) <-> In k ks /\ ~ In k known.
Proof.
  unfold sorted_difference. rewrite sorted_set_In, filter_In, negb_true_iff.
  split.
  - intros [Hin Hm]. split; [exact Hin|].
    intros Hk. apply mem_In in Hk. congruence.
  - intros [Hin Hk]. split; [exact Hin|].
    destruct (mem k known) eqn:Hm; [|reflexivity].
    apply mem_In in Hm. contradiction.
Qed.

Lemma sorted_difference_sorted (ks known : list string) :
  StronglySorted precedes (sorted_difference ks known).
Proof. apply sorted_set_sorted. Qed.

Lemma keys_In (d : list (string * value)) (k : string) :
  In k (keys d) <-> contains d k = true.
Proof.
  unfold contains, keys. induction d as [|[k' v] d IH]; simpl.
  - intuition discriminate.
  - destruct (k' =? k) eqn:E.
    + apply String.eqb_eq in E. intuition.
    + apply String.eqb_neq in E. rewrite IH. intuition congruence.
Qed.


End KeyFacts.

(** * The formatter: what it returns *)
Module FormatterSpec.
Import Py TextFacts Formatter.

(** ** Joining lines *)

Lemma join_from_texts (sep : string) (parts : list value) :
  forall index, forallb is_str parts = true ->
  join_from index sep parts = Ok (String.concat sep (map py_str parts)).
Proof.
  induction parts as [|p rest IH]; intros index Hall; [reflexivity|].
  simpl in Hall. apply andb_true_iff in Hall as [Hp Hrest].
  destruct p; try discriminate Hp.
  destruct rest as [|q rest']; [reflexivity|].
  change (join_from index sep (VStr s :: q :: rest'))
    with (tl <- join_from (S index) sep (q :: rest') ;; Ok (s ++ sep ++ tl)).
  rewrite (IH (S index) Hrest). reflexivity.
Qed.

Lemma join_texts (sep : string) (parts : list value) :
  forallb is_str parts = true ->
  join sep parts = Ok (String.concat sep (map py_str parts)).
Proof. apply join_from_texts. Qed.

Lemma forallb_is_str_map (A : Type) (f : A -> string) (l : list A) :
  forallb is_str (map (fun a => VStr (f a)) l) = true.
Proof. induction l as [|a l IH]; [reflexivity | exact IH]. Qed.

Lemma forallb_flat_map (A B : Type) (p : B -> bool) (f : A -> list B)
  (l : list A) :
  (forall a, forallb p (f a) = true) -> forallb p (flat_map f l) = true.
Proof.
  intros Hf. induction l as [|a l IH]; [reflexivity|].
  simpl. rewrite forallb_app, Hf, IH. reflexivity.
Qed.

Lemma optional_line_str (d : dict) (key label : string) :
  forallb is_str (optional_line d key label) = true.
Proof. unfold optional_line. destruct (contains d key); reflexivity. Qed.

Lemma status_parts_str (d : dict) : forallb is_str (status_parts d) = true.
Proof.
  unfold status_parts. rewrite !forallb_app, !optional_line_str. simpl.
  destruct (sorted_difference (keys d) known_fields) as [|k ks]; [reflexivity|].
  exact (forallb_is_str_map _ _ (k :: ks)).
Qed.

Lemma error_parts_str (d : dict) :
  str_or_falsy d "traceback" = true -> forallb is_str (error_parts d) = true.
Proof.
  intros Htb. unfold error_parts. cbv zeta. rewrite !forallb_app.
  apply andb_true_iff; split; [reflexivity|].
  apply andb_true_iff; split.
  { destruct (truthy (get_default d "details" (VStr EmptyString))); reflexivity. }
  apply andb_true_iff; split.
  { unfold str_or_falsy in Htb. unfold get_default.
    destruct (dict_get d "traceback") as [v|]; [|reflexivity].
    destruct v; simpl in Htb |- *; try reflexivity;
      try (apply negb_true_iff in Htb; rewrite Htb; reflexivity).
    destruct (negb (s =? EmptyString)); reflexivity. }
  apply andb_true_iff; split.
  { apply forallb_flat_map. intros field.
    destruct (contains d field); reflexivity. }
  destruct (sorted_difference (keys d) error_fields) as [|k ks]; [reflexivity|].
  exact (forallb_is_str_map _ _ (k :: ks)).
Qed.

(** ** The two [lower()] calls and the branch *)

Lemma get_default_str (d : dict) (key dflt : string) :
  str_or_absent d key = true ->
  exists s, get_default d key (VStr dflt) = VStr s.
Proof.
  unfold str_or_absent, get_default. intros H.
  destruct (dict_get d key) as [v|]; [|eauto].
  destruct v; try discriminate H. eauto.
Qed.

Lemma is_success_str (d : dict) (status health : string) :
  get_default d "status" (VStr EmptyString) = VStr status ->
  get_default d "health" (VStr EmptyString) = VStr health ->
  is_success d = Ok (success_test d (lower status) (lower health)).
Proof. intros Hs Hh. unfold is_success. rewrite Hs, Hh. reflexivity. Qed.

Lemma is_success_inv (d : dict) (b : bool) :
  is_success d = Ok b ->
  exists status health,
    get_default d "status" (VStr EmptyString) = VStr status
    /\ get_default d "health" (VStr EmptyString) = VStr health
    /\ b = success_test d (lower status) (lower health).
Proof.
  unfold is_success. intros H.
  destruct (get_default d "status" (VStr EmptyString)) eqn:Es; try discriminate H.
  destruct (get_default d "health" (VStr EmptyString)) eqn:Eh; try discriminate H.
  simpl in H. injection H as <-. eauto.
Qed.

Lemma format_response_branch (d : dict) (status health : string) :
  get_default d "status" (VStr EmptyString) = VStr status ->
  get_default d "health" (VStr EmptyString) = VStr health ->
  format_response (VDict d)
  = if success_test d (lower status) (lower health)
    then success_content d (lower status) else error_details d.
Proof. intros Hs Hh. unfold format_response. rewrite Hs, Hh. reflexivity. Qed.

Lemma contains_get (d : dict) (key : string) (v : value) :
  dict_get d key = Some v -> contains d key = true /\ subscript d key = v.
Proof.
  intros H. unfold contains, subscript, get_default. rewrite H. split; reflexivity.
Qed.

Lemma contains_none (d : dict) (key : string) :
  dict_get d key = None -> contains d key = false.
Proof. intros H. unfold contains. rewrite H. reflexivity. Qed.

Lemma success_status_classified (d : dict) :
  dict_get d "status" = Some (VStr "success") ->
  str_or_absent d "health" = true ->
  is_success d = Ok true.
Proof.
  intros Hs Hh. destruct (get_default_str d "health" EmptyString Hh) as [h Eh].
  rewrite (is_success_str d "success" h); [reflexivity | | exact Eh].
  unfold get_default. rewrite Hs. reflexivity.
Qed.

Lemma status_block_text (d : dict) :
  join NL (status_parts d) = Ok (String.concat NL (status_block d)).
Proof. apply join_texts, status_parts_str. Qed.

Lemma error_block_text (d : dict) :
  str_or_falsy d "traceback" = true ->
  error_details d = Ok (VStr (String.concat NL (error_block d))).
Proof.
  intros Htb. unfold error_details.
  rewrite (join_texts NL _ (error_parts_str d Htb)). reflexivity.
Qed.

(** ** Properties of [format_response] *)

(** C4. A reply that is a string comes back as it is: [format_response(S) == S]. *)
Theorem format_response_string_identity (S : string) :
  format_response (VStr S) = Ok (VStr S).
Proof. unfold format_response, py_str. reflexivity. Qed.

(** C1, as stated, fails: the mapping [{status: SUCCESS}] is sent to the success
    branch although its status does not equal the lower-case word. *)
Lemma upper_case_status_selects_success :
  is_success [("status", VStr "SUCCESS")] = Ok true
  /\ format_response (VDict [("status", VStr "SUCCESS")])
     = success_content [("status", VStr "SUCCESS")] "success"
  /\ stated_success [("status", VStr "SUCCESS")] = false.
Proof. repeat split. Qed.

(** C1, amended. For a mapping whose status and health, when present, are
    strings (absent ones read as the empty string), the success branch is
    selected exactly when the lower-cased status is [success], or the
    lower-cased status is [active] and the lower-cased health is [healthy], or
    the lower-cased status is [active] and [revit_available] is present and
    truthy; otherwise the error branch is selected. *)
Theorem success_branch_iff_lowered_fields (d : dict) (status health : string) :
  get_default d "status" (VStr EmptyString) = VStr status ->
  get_default d "health" (VStr EmptyString) = VStr health ->
  (is_success d = Ok true <->
     lower status = "success"
     \/ (lower status = "active" /\ lower health = "healthy")
     \/ (lower status = "active" /\ contains d "revit_available" = true
         /\ truthy (subscript d "revit_available") = true))
  /\ (is_success d = Ok true ->
      format_response (VDict d) = success_content d (lower status))
  /\ (is_success d = Ok false ->
      format_response (VDict d) = error_details d).
Proof.
  intros Hs Hh.
  rewrite (is_success_str d status health Hs Hh).
  rewrite (format_response_branch d status health Hs Hh).
  repeat split.
  - intros H. injection H as H. unfold success_test in H.
    rewrite !orb_true_iff, !andb_true_iff, !String.eqb_eq in H. tauto.
  - intros H. f_equal. unfold success_test.
    rewrite !orb_true_iff, !andb_true_iff, !String.eqb_eq. tauto.
  - intros H. injection H as ->. reflexivity.
  - intros H. injection H as ->. reflexivity.
Qed.

(** An instance: mixed-case [Active] and [HEALTHY] select the success branch. *)
Lemma success_branch_iff_lowered_fields_witness :
  is_success [("status", VStr "Active"); ("health", VStr "HEALTHY")] = Ok true
  /\ format_response (VDict [("status", VStr "Active"); ("health", VStr "HEALTHY")])
     = success_content [("status", VStr "Active"); ("health", VStr "HEALTHY")]
                       "active".
Proof.
  destruct (success_branch_iff_lowered_fields
              [("status", VStr "Active"); ("health", VStr "HEALTHY")]
              "Active" "HEALTHY" eq_refl eq_refl) as [Hiff [Hsucc _]].
  assert (Hyes :
    is_success [("status", VStr "Active"); ("health", VStr "HEALTHY")] = Ok true).
  { apply Hiff. right. left. split; reflexivity. }
  split; [exact Hyes | exact (Hsucc Hyes)].
Defined.

Lemma success_content_returns (d : dict) (status : string) :
  exists v, success_content d status = Ok v.
Proof.
  unfold success_content.
  destruct (contains d "output"); [eauto|].
  destruct (contains d "message"); [eauto|].
  destruct (contains d "result"); [eauto|].
  destruct (contains d "data"); [eauto|].
  destruct (status =? "active"); [|eauto].
  rewrite status_block_text. simpl. eauto.
Qed.

(** C3, as stated, fails: a status that is a number has no [lower] method, and
    the call raises. *)
Lemma numeric_status_raises :
  format_response (VDict [("status", VInt 200)])
  = Raise (AttributeError (VInt 200) "lower").
Proof. reflexivity. Qed.

(** C10. The claim is that every result is a string; on the mapping
    [{status: success, output: 42}] the code hands back the integer itself,
    while the same value under [result] is passed through [str]. *)
Theorem output_returned_unconverted :
  format_response (VDict [("status", VStr "success"); ("output", VInt 42)])
  = Ok (VInt 42)
  /\ is_str (VInt 42) = false
  /\ format_response (VDict [("status", VStr "success"); ("result", VInt 42)])
     = Ok (VStr "42").
Proof. repeat split. Qed.

Lemma success_content_fallback (d : dict) (status : string) :
  no_content_key d ->
  success_content d status
  = if status =? "active"
    then Ok (VStr (String.concat NL (status_block d)))
    else Ok (VStr (json_dumps (VDict d) 2)).
Proof.
  intros (Ho & Hm & Hr & Hd). unfold success_content.
  rewrite (contains_none _ _ Ho), (contains_none _ _ Hm),
    (contains_none _ _ Hr), (contains_none _ _ Hd).
  destruct (status =? "active"); [|reflexivity].
  rewrite status_block_text. reflexivity.
Qed.

Lemma status_block_head (d : dict) :
  exists more,
    status_block d
    = "=== REVIT STATUS ==="
      :: ("Status: " ++ py_str (get_default d "status" (VStr "Unknown")))
      :: ("Health: " ++ py_str (get_default d "health" (VStr "Unknown")))
      :: more.
Proof. unfold status_block, status_parts. simpl. eauto. Qed.

(** C2, as stated, fails twice.  A mapping with status [success] and an
    [output] key is not answered with its output when its health is a number:
    the call raises.  And a mapping classified as success whose status is
    [ACTIVE], not [active], gets the status block, not the JSON dump. *)
Lemma success_content_counterexamples :
  (dict_get [("status", VStr "success"); ("health", VInt 1); ("output", VStr "done")]
            "status" = Some (VStr "success")
   /\ dict_get [("status", VStr "success"); ("health", VInt 1);
                ("output", VStr "done")]
               "output" = Some (VStr "done")
   /\ format_response
        (VDict [("status", VStr "success"); ("health", VInt 1);
                ("output", VStr "done")])
      = Raise (AttributeError (VInt 1) "lower"))
  /\ (is_success [("status", VStr "ACTIVE"); ("health", VStr "healthy")] = Ok true
      /\ field_is [("status", VStr "ACTIVE"); ("health", VStr "healthy")]
                  "status" "active" = false
      /\ format_response (VDict [("status", VStr "ACTIVE"); ("health", VStr "healthy")])
         = Ok (VStr (String.concat NL
                       ["=== REVIT STATUS ==="; "Status: ACTIVE"; "Health: healthy"]))
      /\ format_response (VDict [("status", VStr "ACTIVE"); ("health", VStr "healthy")])
         <> Ok (VStr (json_dumps
                        (VDict [("status", VStr "ACTIVE"); ("health", VStr "healthy")])
                        2))).
Proof. repeat split. intros H. vm_compute in H. discriminate H. Qed.

(** C2, amended. For every mapping classified as success the content is chosen
    in strict priority order: the value of [output] if that key is present,
    else the value of [message], else [str] of [result], else [str] of [data],
    else, when the lower-cased status is [active], the status block, whose
    first three lines are the header, [Status: <status>] and
    [Health: <health, or Unknown>], else the mapping as JSON indented by two.
    In particular a mapping with status [success], an [output] key and a health
    that is absent or a string is answered with its output; and a mapping with
    status [active], health [healthy] and no content key is answered with a
    block that starts with the header, a [Status: active] line and a
    [Health: healthy] line. *)
Theorem success_content_priority (d : dict) :
  (is_success d = Ok true ->
     (forall v, dict_get d "output" = Some v -> format_response (VDict d) = Ok v)
     /\ (dict_get d "output" = None ->
         forall v, dict_get d "message" = Some v ->
         format_response (VDict d) = Ok v)
     /\ (dict_get d "output" = None -> dict_get d "message" = None ->
         forall v, dict_get d "result" = Some v ->
         format_response (VDict d) = Ok (VStr (py_str v)))
     /\ (dict_get d "output" = None -> dict_get d "message" = None ->
         dict_get d "result" = None ->
         forall v, dict_get d "data" = Some v ->
         format_response (VDict d) = Ok (VStr (py_str v)))
     /\ (no_content_key d ->
         forall status, dict_get d "status" = Some (VStr status) ->
         (lower status = "active" ->
          exists more,
            format_response (VDict d)
            = Ok (VStr (String.concat NL
                          ("=== REVIT STATUS ===" :: ("Status: " ++ status)
                           :: ("Health: "
                               ++ py_str (get_default d "health" (VStr "Unknown")))
                           :: more))))
         /\ (lower status <> "active" ->
             format_response (VDict d) = Ok (VStr (json_dumps (VDict d) 2)))))
  /\ (forall v, dict_get d "status" = Some (VStr "success") ->
      str_or_absent d "health" = true ->
      dict_get d "output" = Some v ->
      format_response (VDict d) = Ok v)
  /\ (dict_get d "status" = Some (VStr "active") ->
      dict_get d "health" = Some (VStr "healthy") ->
      no_content_key d ->
      exists text,
        format_response (VDict d) = Ok (VStr text)
        /\ String.prefix "=== REVIT STATUS ===" text = true
        /\ has_line "Status: active" text = true
        /\ has_line "Health: healthy" text = true
        /\ exists more,
             text = String.concat NL
                      ("=== REVIT STATUS ===" :: "Status: active"
                       :: "Health: healthy" :: more)).
Proof.
  assert (Hprio : forall status health,
    get_default d "status" (VStr EmptyString) = VStr status ->
    get_default d "health" (VStr EmptyString) = VStr health ->
    success_test d (lower status) (lower health) = true ->
    format_response (VDict d) = success_content d (lower status)).
  { intros status health Es Eh Ht.
    rewrite (format_response_branch d status health Es Eh), Ht. reflexivity. }
  split; [|split].
  - intros Hsucc.
    destruct (is_success_inv d true Hsucc) as (status & health & Es & Eh & Ht).
    symmetry in Ht. specialize (Hprio status health Es Eh Ht).
    rewrite Hprio. clear Hprio.
    split; [|split; [|split; [|split]]].
    + intros v Ho. unfold success_content.
      destruct (contains_get _ _ _ Ho) as [-> ->]. reflexivity.
    + intros Ho v Hm. unfold success_content. rewrite (contains_none _ _ Ho).
      destruct (contains_get _ _ _ Hm) as [-> ->]. reflexivity.
    + intros Ho Hm v Hr. unfold success_content.
      rewrite (contains_none _ _ Ho), (contains_none _ _ Hm).
      destruct (contains_get _ _ _ Hr) as [-> ->]. reflexivity.
    + intros Ho Hm Hr v Hd. unfold success_content.
      rewrite (contains_none _ _ Ho), (contains_none _ _ Hm),
        (contains_none _ _ Hr).
      destruct (contains_get _ _ _ Hd) as [-> ->]. reflexivity.
    + intros Hnone status' Hst.
      assert (status' = status) as ->.
      { unfold get_default in Es. rewrite Hst in Es. congruence. }
      rewrite (success_content_fallback d _ Hnone). split.
      * intros Hact. rewrite Hact, String.eqb_refl.
        destruct (status_block_head d) as [more Hmore]. exists more.
        rewrite Hmore. unfold get_default at 1. rewrite Hst. reflexivity.
      * intros Hnot.
        destruct (lower status =? "active") eqn:E; [|reflexivity].
        apply String.eqb_eq in E. contradiction.
  - intros v Hs Hh Ho.
    destruct (get_default_str d "health" EmptyString Hh) as [health Eh].
    rewrite (Hprio "success" health); [| | exact Eh | reflexivity].
    + unfold success_content.
      destruct (contains_get _ _ _ Ho) as [-> ->]. reflexivity.
    + unfold get_default. rewrite Hs. reflexivity.
  - intros Hs Hh Hnone.
    rewrite (Hprio "active" "healthy").
    + rewrite (success_content_fallback d _ Hnone).
      replace (lower "active" =? "active") with true by reflexivity.
      destruct (status_block_head d) as [more Hmore].
      rewrite Hmore. unfold get_default. rewrite Hs, Hh.
      exists (String.concat NL ("=== REVIT STATUS ===" :: "Status: active"
                                :: "Health: healthy" :: more)).
      split; [reflexivity|].
      destruct (concat_first_three NL "=== REVIT STATUS ===" "Status: active"
                                   "Health: healthy" more) as (H1 & H2 & H3).
      split; [exact H1|]. split; [exact H2|]. split; [exact H3|].
      exists more. reflexivity.
    + unfold get_default. rewrite Hs. reflexivity.
    + unfold get_default. rewrite Hh. reflexivity.
    + reflexivity.
Qed.

(** An instance: without [output], the [message] of a healthy status reply is
    what comes back. *)
Lemma success_content_priority_witness :
  is_success [("status", VStr "active"); ("health", VStr "healthy");
              ("message", VStr "ready")] = Ok true
  /\ format_response
       (VDict [("status", VStr "active"); ("health", VStr "healthy");
               ("message", VStr "ready")]) = Ok (VStr "ready").
Proof.
  split; [reflexivity|].
  apply (proj1 (success_content_priority
                  [("status", VStr "active"); ("health", VStr "healthy");
                   ("message", VStr "ready")])); reflexivity.
Defined.

Lemma debug_line (d : dict) (field label : string) :
  title (replace "_" " " field) = label ->
  map py_str (if contains d field then [titled_line d field] else [])
  = match dict_get d field with
    | Some v => [label ++ ": " ++ py_str v]
    | None => []
    end.
Proof.
  intros <-. unfold contains, titled_line, subscript, get_default.
  destruct (dict_get d field); reflexivity.
Qed.

Lemma error_block_described (d : dict) :
  error_block d = described_error_block d.
Proof.
  unfold error_block, described_error_block, error_parts. cbv zeta.
  rewrite !map_app. f_equal. f_equal; [|f_equal; [|f_equal]].
  - unfold get_default. destruct (dict_get d "details") as [v|]; [|reflexivity].
    destruct (truthy v); reflexivity.
  - unfold get_default. destruct (dict_get d "traceback") as [v|]; [|reflexivity].
    destruct (truthy v); reflexivity.
  - unfold debug_fields, debug_labels. cbn [flat_map fst snd].
    rewrite !map_app.
    rewrite (debug_line d "code_attempted" "Code Attempted" eq_refl),
      (debug_line d "endpoint" "Endpoint" eq_refl),
      (debug_line d "request_data" "Request Data" eq_refl),
      (debug_line d "response_code" "Response Code" eq_refl).
    reflexivity.
  - unfold unrecognized.
    destruct (sorted_difference (keys d) error_fields) as [|k ks]; [reflexivity|].
    cbn [map]. rewrite map_map. reflexivity.
Qed.

Lemma error_status_classified (d : dict) :
  dict_get d "status" = Some (VStr "error") ->
  str_or_absent d "health" = true ->
  is_success d = Ok false.
Proof.
  intros Hs Hh. destruct (get_default_str d "health" EmptyString Hh) as [h Eh].
  rewrite (is_success_str d "error" h); [reflexivity | | exact Eh].
  unfold get_default. rewrite Hs. reflexivity.
Qed.

(** C5, as stated, fails twice.  A mapping classified as failure whose
    traceback is a list is not rendered at all: joining the lines raises.  And
    a details key that is present but empty gets no Details line. *)
Lemma error_block_counterexamples :
  (is_success [("status", VStr "error"); ("traceback", VList [VStr "frame"])]
   = Ok false
   /\ format_response
        (VDict [("status", VStr "error"); ("traceback", VList [VStr "frame"])])
      = Raise (mkExc "TypeError"
                     "sequence item 4: expected str instance, list found"
                     EmptyString true))
  /\ (is_success [("status", VStr "error"); ("details", VStr EmptyString)]
      = Ok false
      /\ contains [("status", VStr "error"); ("details", VStr EmptyString)]
                  "details" = true
      /\ format_response
           (VDict [("status", VStr "error"); ("details", VStr EmptyString)])
         = Ok (VStr (String.concat NL
                       ["=== ERROR DETAILS ==="; "Status: error";
                        "Error: Unknown error occurred"]))).
Proof. repeat split. Qed.

Lemma boom_block_lines (d : dict) :
  dict_get d "status" = Some (VStr "error") ->
  dict_get d "error" = Some (VStr "boom") ->
  dict_get d "traceback" = Some (VStr "tb") ->
  exists details rest : list string,
    described_error_block d
    = (["=== ERROR DETAILS ==="; "Status: error"; "Error: boom"]
       ++ details ++ [(NL ++ "=== TRACEBACK ===")%string; "tb"] ++ rest)%list
    /\ (details = []
        \/ exists v, dict_get d "details" = Some v
                     /\ details = ["Details: " ++ py_str v]).
Proof.
  intros Hs He Ht.
  unfold described_error_block, get_default. rewrite Hs, He, Ht.
  cbn [truthy py_str negb String.eqb].
  destruct (dict_get d "details") as [v|] eqn:Ed.
  - destruct (truthy v).
    + eexists ["Details: " ++ py_str v], _. split; [reflexivity|].
      right. exists v. split; reflexivity.
    + eexists [], _. split; [reflexivity | left; reflexivity].
  - eexists [], _. split; [reflexivity | left; reflexivity].
Qed.

(** C5, amended. For every mapping classified as failure whose traceback, when
    present, is a string or falsy, the result is the error block: the
    [=== ERROR DETAILS ===] header, a Status line, an Error line, a Details
    line when details is present and truthy, a [=== TRACEBACK ===] section when
    traceback is present and truthy, a line for each known debug field that is
    present, and the remaining keys, sorted, under
    [=== ADDITIONAL RESPONSE DATA ===].  In particular, for a mapping with
    status [error], error [boom] and traceback [tb] (and a health that is
    absent or a string) the text contains [=== ERROR DETAILS ===] and
    [Error: boom], and the traceback heading with [tb] on the next line; its
    lines are the header, [Status: error], [Error: boom], an optional Details
    line, the traceback heading, [tb], and whatever follows. *)
Theorem error_block_rendered (d : dict) :
  (is_success d = Ok false ->
   str_or_falsy d "traceback" = true ->
   format_response (VDict d)
   = Ok (VStr (String.concat NL (described_error_block d))))
  /\ (dict_get d "status" = Some (VStr "error") ->
      dict_get d "error" = Some (VStr "boom") ->
      dict_get d "traceback" = Some (VStr "tb") ->
      str_or_absent d "health" = true ->
      exists text,
        format_response (VDict d) = Ok (VStr text)
        /\ has_substring "=== ERROR DETAILS ===" text = true
        /\ has_substring "Error: boom" text = true
        /\ has_substring ("=== TRACEBACK ===" ++ NL ++ "tb") text = true
        /\ exists details rest : list string,
             text = String.concat NL
                      (["=== ERROR DETAILS ==="; "Status: error"; "Error: boom"]
                       ++ details
                       ++ [(NL ++ "=== TRACEBACK ===")%string; "tb"] ++ rest)%list
             /\ (details = []
                 \/ exists v, dict_get d "details" = Some v
                              /\ details = ["Details: " ++ py_str v])).
Proof.
  assert (Hmain : is_success d = Ok false ->
                  str_or_falsy d "traceback" = true ->
                  format_response (VDict d)
                  = Ok (VStr (String.concat NL (described_error_block d)))).
  { intros Hfail Htb.
    destruct (is_success_inv d false Hfail) as (status & health & Es & Eh & Ht).
    rewrite (format_response_branch d status health Es Eh), <- Ht.
    rewrite (error_block_text d Htb), error_block_described. reflexivity. }
  split; [exact Hmain|].
  intros Hs He Ht Hh.
  assert (Htb : str_or_falsy d "traceback" = true).
  { unfold str_or_falsy. rewrite Ht. reflexivity. }
  rewrite (Hmain (error_status_classified d Hs Hh) Htb).
  destruct (boom_block_lines d Hs He Ht) as (details & rest & Hlines & Hdetails).
  exists (String.concat NL (described_error_block d)).
  split; [reflexivity|]. rewrite Hlines.
  split; [|split; [|split]].
  - exact (has_substring_member NL "=== ERROR DETAILS ===" [] _).
  - exact (has_substring_member NL "Error: boom"
             ["=== ERROR DETAILS ==="; "Status: error"] _).
  - replace (["=== ERROR DETAILS ==="; "Status: error"; "Error: boom"]
             ++ details ++ [(NL ++ "=== TRACEBACK ===")%string; "tb"] ++ rest)%list
      with ((["=== ERROR DETAILS ==="; "Status: error"; "Error: boom"] ++ details)
            ++ (NL ++ "=== TRACEBACK ===")%string :: "tb" :: rest)%list
      by (rewrite <- app_assoc; reflexivity).
    apply has_substring_section.
  - exists details, rest. split; [reflexivity | exact Hdetails].
Qed.

(** An instance: the error block of [{status: error, error: boom, traceback: tb}]. *)
Lemma error_block_rendered_witness :
  format_response
    (VDict [("status", VStr "error"); ("error", VStr "boom");
            ("traceback", VStr "tb")])
  = Ok (VStr (String.concat NL
                ["=== ERROR DETAILS ==="; "Status: error"; "Error: boom";
                 NL ++ "=== TRACEBACK ==="; "tb"])).
Proof.
  apply (proj1 (error_block_rendered
                  [("status", VStr "error"); ("error", VStr "boom");
                   ("traceback", VStr "tb")])); reflexivity.
Defined.

(** ** Further properties of [format_response] *)

Import Keys KeyFacts.

(** Joining stops at the first part that is not a [str]. *)
Lemma join_from_raises (sep : string) (p : value) (rest : list value) :
  is_str p = false ->
  forall (before : list value) (index : nat),
    forallb is_str before = true ->
    exists e,
      join_from index sep (before ++ p :: rest) = Raise e
      /\ exc_class e = "TypeError" /\ is_Exception e = true.
Proof.
  intros Hp. induction before as [|b before IH]; intros index Hall.
  - destruct p; try discriminate Hp; simpl; eauto.
  - simpl in Hall. apply andb_true_iff in Hall as [Hb Hall].
    destruct b; try discriminate Hb.
    destruct (IH (S index) Hall) as (e & He & Hclass).
    exists e. split; [|exact Hclass].
    change (join_from index sep ((VStr s :: before) ++ p :: rest))
      with (match (before ++ p :: rest)%list with
            | [] => Ok s
            | _ => (tl <- join_from (S index) sep (before ++ p :: rest) ;;
                    Ok (s ++ sep ++ tl))%result
            end).
    destruct (before ++ p :: rest)%list eqn:E.
    + destruct before; discriminate E.
    + rewrite He. reflexivity.
Qed.

Lemma error_details_raises (d : dict) :
  str_or_falsy d "traceback" = false ->
  exists e,
    error_details d = Raise e
    /\ exc_class e = "TypeError" /\ is_Exception e = true.
Proof.
  intros Htb. unfold str_or_falsy in Htb.
  destruct (dict_get d "traceback") as [tb|] eqn:Etb; [|discriminate Htb].
  assert (Hnot : is_str tb = false) by (destruct tb; try reflexivity; discriminate Htb).
  assert (Htruthy : truthy tb = true).
  { destruct tb; try discriminate Hnot; apply negb_false_iff in Htb; exact Htb. }
  unfold error_details, join, error_parts, get_default. cbv zeta.
  rewrite Etb, Htruthy.
  set (details := if truthy match dict_get d "details" with
                              | Some v => v
                              | None => VStr EmptyString
                              end
                  then [format1 "Details: "
                                match dict_get d "details" with
                                | Some v => v
                                | None => VStr EmptyString
                                end]
                  else []).
  match goal with
  | |- context [join_from 0 NL (?a ++ details ++ [?h; tb] ++ ?tail)%list] =>
      replace (a ++ details ++ [h; tb] ++ tail)%list
        with ((a ++ details ++ [h]) ++ tb :: tail)%list
        by (rewrite <- !app_assoc; reflexivity);
      destruct (join_from_raises NL tb tail Hnot (a ++ details ++ [h])%list 0)
        as (e & He & Hclass)
  end.
  - rewrite !forallb_app. subst details.
    match goal with |- context [if ?c then _ else _] => destruct c end;
      reflexivity.
  - exists e. rewrite He. split; [reflexivity | exact Hclass].
Qed.

Lemma lower_method_raises (v : value) :
  is_str v = false ->
  lower_method v = Raise (AttributeError v "lower").
Proof. destruct v; try reflexivity; discriminate. Qed.

Lemma not_str_or_absent (d : dict) (key dflt : string) :
  str_or_absent d key = false ->
  is_str (get_default d key (VStr dflt)) = false.
Proof.
  unfold str_or_absent, get_default.
  destruct (dict_get d key) as [v|]; [|discriminate].
  destruct v; try reflexivity; discriminate.
Qed.

(** C3, amended. [format_response] returns normally exactly for these
    replies: a string (or any other non-mapping), and a mapping whose status
    and health, when present, are strings and which is classified as success
    or holds no traceback, or one that is a string or falsy; every other key
    may be absent or hold any value, and absent fields are read as empty or
    left out. *)
Theorem format_response_returns (response : value) :
  expected_shape response = true <->
  exists v, format_response response = Ok v.
Proof.
  destruct response as [ | b | n | r | s | items | d ];
    try (split; [intros _; eexists; reflexivity | reflexivity]).
  cbn [expected_shape].
  destruct (str_or_absent d "status") eqn:Hs.
  2:{ split; [intros H; discriminate H|]. intros [v Hv]. exfalso. revert Hv.
      unfold format_response.
      rewrite (lower_method_raises _ (not_str_or_absent d "status" EmptyString Hs)).
      intros H. discriminate H. }
  destruct (get_default_str d "status" EmptyString Hs) as [status Es].
  destruct (str_or_absent d "health") eqn:Hh.
  2:{ split; [intros H; discriminate H|]. intros [v Hv]. exfalso. revert Hv.
      unfold format_response. rewrite Es. cbn [lower_method bind].
      rewrite (lower_method_raises _ (not_str_or_absent d "health" EmptyString Hh)).
      intros H. discriminate H. }
  destruct (get_default_str d "health" EmptyString Hh) as [health Eh].
  rewrite (format_response_branch d status health Es Eh).
  rewrite (is_success_str d status health Es Eh). cbn [andb].
  destruct (success_test d (lower status) (lower health)).
  - split; [intros _; apply success_content_returns | reflexivity].
  - destruct (str_or_falsy d "traceback") eqn:Htb.
    + rewrite (error_block_text d Htb). split; [eauto | reflexivity].
    + destruct (error_details_raises d Htb) as (e & He & _).
      rewrite He. split; [intros H; discriminate H|].
      intros [v Hv]. discriminate Hv.
Qed.

(** Two instances: an error reply with a null traceback and a list under a
    debug key is rendered, and so is a success reply whose traceback is a
    list. *)
Lemma format_response_returns_witness :
  (exists v,
     format_response
       (VDict [("status", VStr "error"); ("traceback", VNone);
               ("request_data", VList [VInt 1])]) = Ok v)
  /\ (exists v,
        format_response
          (VDict [("status", VStr "success"); ("output", VStr "done");
                  ("traceback", VList [VStr "frame"])]) = Ok v).
Proof.
  split.
  - apply (proj1 (format_response_returns
                    (VDict [("status", VStr "error"); ("traceback", VNone);
                            ("request_data", VList [VInt 1])]))).
    reflexivity.
  - apply (proj1 (format_response_returns
                    (VDict [("status", VStr "success"); ("output", VStr "done");
                            ("traceback", VList [VStr "frame"])]))).
    reflexivity.
Defined.

Lemma format_response_raise_class (response : value) (e : exc) :
  format_response response = Raise e ->
  (exists d, response = VDict d)
  /\ is_Exception e = true
  /\ (exc_class e = "AttributeError" \/ exc_class e = "TypeError").
Proof.
  destruct response as [ | b | n | r | s | items | d ];
    try (intros H; discriminate H).
  intros H. split; [eauto|]. revert H.
  destruct (str_or_absent d "status") eqn:Hs.
  2:{ unfold format_response.
      rewrite (lower_method_raises _ (not_str_or_absent d "status" EmptyString Hs)).
      intros H. injection H as <-. split; [reflexivity | left; reflexivity]. }
  destruct (get_default_str d "status" EmptyString Hs) as [status Es].
  destruct (str_or_absent d "health") eqn:Hh.
  2:{ unfold format_response. rewrite Es. cbn [lower_method bind].
      rewrite (lower_method_raises _ (not_str_or_absent d "health" EmptyString Hh)).
      intros H. injection H as <-. split; [reflexivity | left; reflexivity]. }
  destruct (get_default_str d "health" EmptyString Hh) as [health Eh].
  rewrite (format_response_branch d status health Es Eh).
  destruct (success_test d (lower status) (lower health)).
  - destruct (success_content_returns d (lower status)) as [v ->].
    intros H. discriminate H.
  - destruct (str_or_falsy d "traceback") eqn:Htb.
    + rewrite (error_block_text d Htb). intros H. discriminate H.
    + destruct (error_details_raises d Htb) as (e' & -> & Hclass & Hexc).
      intros H. injection H as <-. auto.
Qed.

(** X1. [format_response] raises exactly on a mapping whose status is present
    and not a string, or whose health is present and not a string, or which is
    classified as failure and holds a truthy traceback that is not a string;
    what it raises is then an [AttributeError] or a [TypeError], both of which
    derive from [Exception]. *)
Theorem format_response_raises_iff (response : value) :
  ((exists e, format_response response = Raise e) <->
   exists d,
     response = VDict d
     /\ (str_or_absent d "status" = false
         \/ str_or_absent d "health" = false
         \/ (is_success d = Ok false /\ str_or_falsy d "traceback" = false)))
  /\ (forall e,
        format_response response = Raise e ->
        is_Exception e = true
        /\ (exc_class e = "AttributeError" \/ exc_class e = "TypeError")).
Proof.
  destruct response as [ | b | n | r | s | items | d ];
    try (split; [split; [intros [e He]; discriminate He
                        | intros (d & Hd & _); discriminate Hd]
                | intros e He; discriminate He]).
  destruct (str_or_absent d "status") eqn:Hs.
  2:{ pose proof (not_str_or_absent d "status" EmptyString Hs) as Hv.
      assert (Hraise : format_response (VDict d)
                       = Raise (AttributeError
                                  (get_default d "status" (VStr EmptyString))
                                  "lower")).
      { unfold format_response. rewrite (lower_method_raises _ Hv). reflexivity. }
      rewrite Hraise. split.
      - split; [intros _; exists d; auto | intros _; eauto].
      - intros e He. injection He as <-. split; [reflexivity | left; reflexivity]. }
  destruct (get_default_str d "status" EmptyString Hs) as [status Es].
  destruct (str_or_absent d "health") eqn:Hh.
  2:{ pose proof (not_str_or_absent d "health" EmptyString Hh) as Hv.
      assert (Hraise : format_response (VDict d)
                       = Raise (AttributeError
                                  (get_default d "health" (VStr EmptyString))
                                  "lower")).
      { unfold format_response. rewrite Es. cbn [lower_method bind].
        rewrite (lower_method_raises _ Hv). reflexivity. }
      rewrite Hraise. split.
      - split; [intros _; exists d; auto | intros _; eauto].
      - intros e He. injection He as <-. split; [reflexivity | left; reflexivity]. }
  destruct (get_default_str d "health" EmptyString Hh) as [health Eh].
  rewrite (format_response_branch d status health Es Eh).
  pose proof (is_success_str d status health Es Eh) as Hcls.
  destruct (success_test d (lower status) (lower health)).
  - destruct (success_content_returns d (lower status)) as [v Hv]. rewrite Hv.
    split.
    + split; [intros [e He]; discriminate He|].
      intros (d' & Hd & [H | [H | [H _]]]); injection Hd as <-;
        congruence.
    + intros e He. discriminate He.
  - destruct (str_or_falsy d "traceback") eqn:Htb.
    + rewrite (error_block_text d Htb). split.
      * split; [intros [e He]; discriminate He|].
        intros (d' & Hd & [H | [H | [_ H]]]); injection Hd as <-; congruence.
      * intros e He. discriminate He.
    + destruct (error_details_raises d Htb) as (e & He & Hclass & Hexc).
      rewrite He. split.
      * split; [|intros _; eauto].
        intros _. exists d. split; [reflexivity|].
        right. right. split; [exact Hcls | exact Htb].
      * intros e' He'. injection He' as <-. auto.
Qed.

(** X2. A result that is not a string can only be the value found under
    [output], or under [message] when there is no [output], of a mapping
    classified as success: every other path ends in a string. *)
Theorem non_string_result_source (response v : value) :
  format_response response = Ok v ->
  is_str v = false ->
  exists d,
    response = VDict d
    /\ is_success d = Ok true
    /\ (dict_get d "output" = Some v
        \/ (dict_get d "output" = None /\ dict_get d "message" = Some v)).
Proof.
  intros Hret Hnot.
  destruct response as [ | b | n | r | s | items | d ];
    try (injection Hret as <-; discriminate Hnot).
  exists d. split; [reflexivity|].
  unfold format_response in Hret.
  destruct (get_default d "status" (VStr EmptyString)) eqn:Es;
    try discriminate Hret.
  destruct (get_default d "health" (VStr EmptyString)) eqn:Eh;
    try discriminate Hret.
  cbn [lower_method bind] in Hret. cbv zeta in Hret.
  rewrite (is_success_str d _ _ Es Eh).
  destruct (success_test d (lower s) (lower s0)).
  - split; [reflexivity|].
    unfold success_content, contains, subscript, get_default in Hret.
    destruct (dict_get d "output") as [o|].
    { injection Hret as <-. left. reflexivity. }
    destruct (dict_get d "message") as [m|].
    { injection Hret as <-. right. split; reflexivity. }
    exfalso.
    destruct (dict_get d "result"); [injection Hret as <-; discriminate Hnot|].
    destruct (dict_get d "data"); [injection Hret as <-; discriminate Hnot|].
    destruct (lower s =? "active").
    + rewrite status_block_text in Hret. injection Hret as <-. discriminate Hnot.
    + injection Hret as <-. discriminate Hnot.
  - exfalso. unfold error_details in Hret.
    destruct (join NL (error_parts d)); [|discriminate Hret].
    injection Hret as <-. discriminate Hnot.
Qed.

(** An instance: a numeric [message] comes back as the number. *)
Lemma non_string_result_source_witness :
  exists d,
    VDict [("status", VStr "success"); ("message", VInt 3)] = VDict d
    /\ is_success d = Ok true
    /\ (dict_get d "output" = Some (VInt 3)
        \/ (dict_get d "output" = None /\ dict_get d "message" = Some (VInt 3))).
Proof.
  exact (non_string_result_source
           (VDict [("status", VStr "success"); ("message", VInt 3)]) (VInt 3)
           eq_refl eq_refl).
Defined.

(** X3. The lines under [=== ADDITIONAL RESPONSE DATA ===] are for exactly
    the keys of the reply outside the eight the error block handles itself,
    each key once, in increasing order; the same holds for the extra fields of
    the status block and its five known keys; and each heading is there only
    when there is such a key. *)
Theorem additional_keys_sorted (d : dict) :
  (forall k, In k (unrecognized d) <-> contains d k = true /\ ~ In k error_fields)
  /\ StronglySorted precedes (unrecognized d)
  /\ NoDup (unrecognized d)
  /\ (exists head,
        error_parts d
        = (head
           ++ match unrecognized d with
              | [] => []
              | ks => VStr (NL ++ "=== ADDITIONAL RESPONSE DATA ===")%string
                      :: map (fun key => format2 (VStr key) (subscript d key)) ks
              end)%list)
  /\ (forall k, In k (sorted_difference (keys d) known_fields)
                <-> contains d k = true /\ ~ In k known_fields)
  /\ StronglySorted precedes (sorted_difference (keys d) known_fields)
  /\ NoDup (sorted_difference (keys d) known_fields)
  /\ (exists head,
        status_parts d
        = (head
           ++ match sorted_difference (keys d) known_fields with
              | [] => []
              | ks => VStr EmptyString :: map (titled_line d) ks
              end)%list).
Proof.
  unfold unrecognized.
  split; [intros k; rewrite sorted_difference_In, keys_In; tauto|].
  split; [apply sorted_difference_sorted|].
  split; [apply sorted_NoDup, sorted_difference_sorted|].
  split.
  { unfold error_parts. cbv zeta. eexists. rewrite !app_assoc.
    f_equal. destruct (sorted_difference (keys d) error_fields); reflexivity. }
  split; [intros k; rewrite sorted_difference_In, keys_In; tauto|].
  split; [apply sorted_difference_sorted|].
  split; [apply sorted_NoDup, sorted_difference_sorted|].
  unfold status_parts. cbv zeta. eexists. rewrite !app_assoc.
  f_equal. destruct (sorted_difference (keys d) known_fields); reflexivity.
Qed.








End FormatterSpec.

(** * The gateway call helper: what it returns *)
Module GatewaySpec.
Import Py Gateway.

Lemma revit_call_cases (net : Network) (method endpoint : string)
  (data : option value) (timeout : Z) (params : option value) :
  _revit_call net method endpoint data timeout params
  = Ok (match sent net method endpoint data timeout params with
        | inr e => VStr ("Error: " ++ error_text e)
        | inl response =>
            if (status_code response =? 200)%Z
            then match json (net timeout) response with
                 | inl body => body
                 | inr e => VStr ("Error: " ++ error_text e)
                 end
            else VStr ("Error: " ++ string_of_Z (status_code response)
                       ++ " - " ++ text response)
        end).
Proof.
  unfold _revit_call, sent. cbv zeta.
  destruct (method =? "GET").
  - destruct (get (net timeout) (BASE_URL ++ endpoint) params) as [r|e];
      [|reflexivity].
    simpl. destruct (status_code r =? 200)%Z; [|reflexivity].
    destruct (json (net timeout) r); reflexivity.
  - destruct (post (net timeout) (BASE_URL ++ endpoint) data) as [r|e];
      [|reflexivity].
    simpl. destruct (status_code r =? 200)%Z; [|reflexivity].
    destruct (json (net timeout) r); reflexivity.
Qed.

(** C6. The call helper never lets an exception out; it returns the parsed
    JSON body exactly when the status is 200 (and the body parses), the string
    [Error: <status> - <body>] for every other status, and the string
    [Error: ] followed by the exception text for every failure of the
    transport or of the decoding; a 503 answer with body [unavailable] gives
    exactly [Error: 503 - unavailable]. *)
Theorem revit_call_never_raises (net : Network) (method endpoint : string)
  (data : option value) (timeout : Z) (params : option value) :
  (exists v, _revit_call net method endpoint data timeout params = Ok v)
  /\ (forall response body,
        sent net method endpoint data timeout params = inl response ->
        status_code response = 200%Z ->
        json (net timeout) response = inl body ->
        _revit_call net method endpoint data timeout params = Ok body)
  /\ (forall response,
        sent net method endpoint data timeout params = inl response ->
        status_code response <> 200%Z ->
        _revit_call net method endpoint data timeout params
        = Ok (VStr ("Error: " ++ string_of_Z (status_code response)
                    ++ " - " ++ text response)))
  /\ (forall e,
        sent net method endpoint data timeout params = inr e ->
        _revit_call net method endpoint data timeout params
        = Ok (VStr ("Error: " ++ error_text e)))
  /\ (forall response e,
        sent net method endpoint data timeout params = inl response ->
        status_code response = 200%Z ->
        json (net timeout) response = inr e ->
        _revit_call net method endpoint data timeout params
        = Ok (VStr ("Error: " ++ error_text e)))
  /\ revit_get (answering 503 "unavailable") endpoint timeout params
     = Ok (VStr "Error: 503 - unavailable").
Proof.
  rewrite revit_call_cases.
  split; [eauto|]. split; [|split; [|split; [|split]]].
  - intros response body -> H200 ->. rewrite H200. reflexivity.
  - intros response -> Hnot. apply Z.eqb_neq in Hnot. rewrite Hnot. reflexivity.
  - intros e ->. reflexivity.
  - intros response e -> H200 ->. rewrite H200. reflexivity.
  - unfold revit_get. rewrite revit_call_cases. reflexivity.
Qed.

(** Two instances: a GET answered with 503, and a POST to a service that
    cannot be reached. *)
Lemma revit_call_never_raises_witness :
  revit_get (answering 503 "unavailable") "/model_info/" default_timeout None
  = Ok (VStr "Error: 503 - unavailable")
  /\ revit_post (unreachable (mkError "ConnectTimeout" "x")) "/execute_code/"
                (VDict [("code", VStr "print(1)")]) default_timeout None
     = Ok (VStr "Error: x").
Proof.
  split.
  - exact (proj2 (proj2 (proj2 (proj2 (proj2
             (revit_call_never_raises
                (answering 503 "unavailable") "GET" "/model_info/" None
                default_timeout None)))))).
  - exact (proj1 (proj2 (proj2 (proj2
             (revit_call_never_raises
                (unreachable (mkError "ConnectTimeout" "x")) "POST"
                "/execute_code/" (Some (VDict [("code", VStr "print(1)")]))
                default_timeout None))))
             (mkError "ConnectTimeout" "x") eq_refl).
Defined.

(** ** [revit_image] *)

Lemma getitem_raises_Exception (codec : Codec) (data : value) (key : string)
  (e : exc) :
  getitem codec data key = Raise e -> is_Exception e = true.
Proof.
  destruct data as [ | b | n | r | s | items | d ]; simpl;
    try (intros H; injection H as <-; reflexivity).
  destruct (dict_get d key); [discriminate|].
  intros H. injection H as <-. reflexivity.
Qed.

Lemma revit_image_cases (net : Network) (codec : Codec) (endpoint : string) :
  revit_image net codec endpoint
  = Ok (match get (net image_timeout) (BASE_URL ++ endpoint) None with
        | inr e => AText ("Error: " ++ error_text e)
        | inl response =>
            if (status_code response =? 200)%Z
            then match json (net image_timeout) response with
                 | inr e => AText ("Error: " ++ error_text e)
                 | inl data =>
                     match getitem codec data "image_data" with
                     | Raise e => AText ("Error: " ++ exc_text e)
                     | Ok encoded =>
                         match b64decode codec encoded with
                         | inl decoded => AnImage (mkImage decoded "png")
                         | inr e => AText ("Error: " ++ error_text e)
                         end
                     end
                 end
            else AText ("Error: " ++ string_of_Z (status_code response)
                        ++ " - " ++ text response)
        end).
Proof.
  unfold revit_image. cbv zeta.
  destruct (get (net image_timeout) (BASE_URL ++ endpoint) None) as [r|e];
    [|reflexivity].
  simpl. destruct (status_code r =? 200)%Z; [|reflexivity].
  destruct (json (net image_timeout) r) as [data|e]; [|reflexivity].
  simpl. destruct (getitem codec data "image_data") as [encoded|e] eqn:Hg.
  - simpl. destruct (b64decode codec encoded); reflexivity.
  - simpl. rewrite (getitem_raises_Exception _ _ _ _ Hg). reflexivity.
Qed.

(** [revit_image] never lets an exception out.  It returns an image exactly
    when the service answers with status 200, the body parses, the parsed body
    can be indexed by [image_data] and what is found there decodes; the image
    then holds the decoded bytes and the format [png].  Every text it returns
    begins with [Error: ]; an answer with another status gives
    [Error: <status> - <body>], and a parsed mapping without the key
    [image_data] gives the text [Error: 'image_data'], the key in quotes and
    nothing else. *)
Theorem revit_image_image_or_error (net : Network) (codec : Codec)
  (endpoint : string) :
  (exists r, revit_image net codec endpoint = Ok r)
  /\ (forall i,
        revit_image net codec endpoint = Ok (AnImage i) <->
        exists response data encoded,
          get (net image_timeout) (BASE_URL ++ endpoint) None = inl response
          /\ status_code response = 200%Z
          /\ json (net image_timeout) response = inl data
          /\ getitem codec data "image_data" = Ok encoded
          /\ b64decode codec encoded = inl (image_bytes i)
          /\ image_format i = "png")
  /\ (forall s,
        revit_image net codec endpoint = Ok (AText s) ->
        String.prefix "Error: " s = true)
  /\ (forall response,
        get (net image_timeout) (BASE_URL ++ endpoint) None = inl response ->
        status_code response <> 200%Z ->
        revit_image net codec endpoint
        = Ok (AText ("Error: " ++ string_of_Z (status_code response)
                     ++ " - " ++ text response)))
  /\ (forall response d,
        get (net image_timeout) (BASE_URL ++ endpoint) None = inl response ->
        status_code response = 200%Z ->
        json (net image_timeout) response = inl (VDict d) ->
        dict_get d "image_data" = None ->
        revit_image net codec endpoint = Ok (AText "Error: 'image_data'")).
Proof.
  rewrite revit_image_cases.
  remember (get (net image_timeout) (BASE_URL ++ endpoint) None) as answer
    eqn:Hget.
  split; [eauto|]. split; [|split; [|split]].
  - intros [decoded format]. split.
    + intros H. injection H as H. revert H.
      destruct answer as [response|e]; [|intros H; discriminate H].
      destruct (status_code response =? 200)%Z eqn:H200;
        [|intros H; discriminate H].
      destruct (json (net image_timeout) response) as [data|e] eqn:Hj;
        [|intros H; discriminate H].
      destruct (getitem codec data "image_data") as [encoded|e] eqn:Hg;
        [|intros H; discriminate H].
      destruct (b64decode codec encoded) as [b|e] eqn:Hb;
        [|intros H; discriminate H].
      intros H. injection H as -> <-. apply Z.eqb_eq in H200.
      exists response, data, encoded.
      repeat split; solve [assumption | reflexivity].
    + intros (response & data & encoded & -> & H200 & -> & -> & Hb & Hf).
      simpl in Hb, Hf. rewrite H200, Hb, Hf. reflexivity.
  - intros s H. injection H as H. revert H.
    destruct answer as [response|e].
    2:{ intros H. injection H as <-. exact (TextFacts.prefix_append "Error: " _). }
    destruct (status_code response =? 200)%Z.
    2:{ intros H. injection H as <-. exact (TextFacts.prefix_append "Error: " _). }
    destruct (json (net image_timeout) response) as [data|e].
    2:{ intros H. injection H as <-. exact (TextFacts.prefix_append "Error: " _). }
    destruct (getitem codec data "image_data") as [encoded|e].
    2:{ intros H. injection H as <-. exact (TextFacts.prefix_append "Error: " _). }
    destruct (b64decode codec encoded) as [b|e]; [intros H; discriminate H|].
    intros H. injection H as <-. exact (TextFacts.prefix_append "Error: " _).
  - intros response -> Hnot. apply Z.eqb_neq in Hnot. rewrite Hnot. reflexivity.
  - intros response d -> H200 -> Hkey. rewrite H200. simpl. rewrite Hkey.
    reflexivity.
Qed.

(** ** The transport chosen on the command line *)

Lemma flag_In (name : string) (argv : list string) :
  flag name argv = true <-> In name argv.
Proof.
  unfold flag. rewrite existsb_exists. split.
  - intros (a & Ha & Heq). apply String.eqb_eq in Heq. now subst.
  - intros H. exists name. split; [exact H | apply String.eqb_refl].
Qed.

Lemma flag_same_arguments (name : string) (argv argv' : list string) :
  (forall a, In a argv <-> In a argv') -> flag name argv = flag name argv'.
Proof.
  intros H. destruct (flag name argv) eqn:E1, (flag name argv') eqn:E2;
    try reflexivity.
  - apply flag_In, H, flag_In in E1. congruence.
  - apply flag_In, H, flag_In in E2. congruence.
Qed.

(** The transport depends on which flags are on the command line, not on
    where or how often: [--sse] wins over every other flag, [--http] and
    [--streamable-http] are the same flag and win over [--combined], the
    combined server runs only when [--combined] is the only flag of the four,
    and without any of them the transport is [stdio]. *)
Theorem transport_precedence (argv : list string) :
  (In "--sse" argv -> main argv = Run "sse")
  /\ (~ In "--sse" argv ->
      In "--http" argv \/ In "--streamable-http" argv ->
      main argv = Run "streamable-http")
  /\ (~ In "--sse" argv -> ~ In "--http" argv ->
      ~ In "--streamable-http" argv -> In "--combined" argv ->
      main argv = Combined)
  /\ (~ In "--sse" argv -> ~ In "--http" argv ->
      ~ In "--streamable-http" argv -> ~ In "--combined" argv ->
      main argv = Run "stdio")
  /\ (forall argv',
        (forall a, In a argv <-> In a argv') -> main argv = main argv').
Proof.
  unfold main. cbv zeta.
  split; [|split; [|split; [|split]]].
  - intros H. apply flag_In in H. rewrite H. reflexivity.
  - intros Hsse H.
    destruct (flag "--sse" argv) eqn:E; [apply flag_In in E; contradiction|].
    destruct H as [H|H]; apply flag_In in H; rewrite H;
      [reflexivity | rewrite orb_true_r; reflexivity].
  - intros Hsse Hhttp Hstream H.
    destruct (flag "--sse" argv) eqn:E1; [apply flag_In in E1; contradiction|].
    destruct (flag "--http" argv) eqn:E2; [apply flag_In in E2; contradiction|].
    destruct (flag "--streamable-http" argv) eqn:E3;
      [apply flag_In in E3; contradiction|].
    apply flag_In in H. rewrite H. reflexivity.
  - intros Hsse Hhttp Hstream Hcombined.
    destruct (flag "--sse" argv) eqn:E1; [apply flag_In in E1; contradiction|].
    destruct (flag "--http" argv) eqn:E2; [apply flag_In in E2; contradiction|].
    destruct (flag "--streamable-http" argv) eqn:E3;
      [apply flag_In in E3; contradiction|].
    destruct (flag "--combined" argv) eqn:E4;
      [apply flag_In in E4; contradiction|].
    reflexivity.
  - intros argv' H.
    rewrite (flag_same_arguments "--sse" argv argv' H),
      (flag_same_arguments "--http" argv argv' H),
      (flag_same_arguments "--streamable-http" argv argv' H),
      (flag_same_arguments "--combined" argv argv' H).
    reflexivity.
Qed.

End GatewaySpec.

(** * The code-execution route: what it returns and what it leaves *)
Module HostSpec.
Import Py Host.

Section RouteFacts.

Context {E : Environment}.

(** ** Properties of [execute_code] *)

Ltac run_route :=
  unfold execute_code, handler, run, on_exec_error, on_request_error,
    try_exceptM, bindM, of_result, logger,
    new_Transaction, Start, Commit, RollBack, HasStarted, HasEnded, set_stdout,
    exec_code, ret, fresh, called, status_of, field;
  cbn.


(** C9. A payload without a [code] key, or with the empty string for it, is
    answered with the mapping [{error: No code provided}] alone and status
    400; no transaction is created or started, nothing is executed, and the
    document is the one the route was given. *)
Theorem no_code_no_transaction (doc0 : document) (request : Request)
  (payload : list (string * value)) :
  payload_of request = Ok (VDict payload) ->
  dict_get payload "code" = None
  \/ dict_get payload "code" = Some (VStr EmptyString) ->
  execute_code doc0 request
  = (Ok (make_response (VDict [("error", VStr "No code provided")]) 400),
     fresh doc0).
Proof.
  intros Hp Hcode. unfold execute_code, handler, try_exceptM, bindM, of_result.
  rewrite Hp. unfold get_method, get_default.
  destruct Hcode as [-> | ->]; reflexivity.
Qed.

(** ** The two handlers *)

(** The outer handler: when the exception prints, one line is logged and the
    reply is made of its text; when it does not, what [str] raised goes out
    and nothing is logged. *)
Lemma on_request_error_cases (e : exc) (h : host) :
  on_request_error e h
  = match str e with
    | Ok text =>
        (Ok (if has_substring "encoding" (lower text)
                || has_substring "codepage" (lower text)
             then make_response
                    (VDict [("error",
                             VStr "Encoding error - .NET CodePages encoding provider may not be registered");
                            ("details", VStr text);
                            ("suggestion",
                             VStr "Ensure System.Text.Encoding.CodePages is registered at startup")])
                    500
             else make_response (VDict [("error", VStr text)]) 500),
         mkHost (doc h) (t h) (stdout_captured h) (calls h)
                (log h ++ ["Execute code request failed: " ++ text]))
    | Raise e' => (Raise e', h)
    end.
Proof.
  unfold on_request_error, bindM, of_result, logger, ret.
  destruct (str e) as [text|e']; [|reflexivity].
  destruct (has_substring "encoding" (lower text)
            || has_substring "codepage" (lower text)); reflexivity.
Qed.

(** The inner handler, met with a started transaction: the output is no
    longer captured and the transaction is rolled back before [str] is asked
    for the text of the exception. *)
Lemma on_exec_error_cases (code : value) (e : exc) (h : host) (name : string)
  (before : document) :
  t h = Some (mkTransaction name Started before) ->
  on_exec_error code e h
  = match str e with
    | Ok text =>
        (Ok (make_response
               (VDict [("status", VStr "error");
                       ("error", VStr text);
                       ("traceback", VStr (format_exc e));
                       ("code_attempted", code)])
               500),
         mkHost before (Some (mkTransaction name RolledBack before)) false
                (calls h ++ [TxRollBack])
                ((log h ++ ["Code execution failed: " ++ text])
                 ++ ["Traceback: " ++ format_exc e]))
    | Raise e' =>
        (Raise e',
         mkHost before (Some (mkTransaction name RolledBack before)) false
                (calls h ++ [TxRollBack]) (log h))
    end.
Proof.
  destruct h as [d tx out cs lg]. cbn [t]. intros ->.
  unfold on_exec_error, bindM, of_result, logger, set_stdout, HasStarted,
    HasEnded, RollBack, ret, status_of, called.
  cbn. destruct (str e) as [text|e']; reflexivity.
Qed.

(** ** The route with code to run *)

(** What is run, for a payload with code: the transaction is started, and
    then everything depends on how the code ends and on whether its output
    can be read. *)
Lemma run_cases (doc0 : document) (code description : value) :
  run code description (fresh doc0)
  = match raised_by_code (exec code doc0) with
    | Some e =>
        if is_Exception e
        then on_exec_error code e (executed doc0 code description true)
        else (Raise e, executed doc0 code description true)
    | None =>
        match getvalue (exec code doc0) with
        | Ok output =>
            (Ok (make_response
                   (VDict [("status", VStr "success");
                           ("description", description);
                           ("output",
                            VStr (if output =? EmptyString
                                  then NO_OUTPUT else output));
                           ("code_executed", code)])
                   OK),
             mkHost (new_doc (exec code doc0))
               (Some (mkTransaction
                        ("MCP Code Execution: " ++ py_str description)
                        Committed doc0))
               false
               [TxStart ("MCP Code Execution: " ++ py_str description);
                Exec code; TxCommit]
               ["Executing code: " ++ py_str description])
        | Raise e =>
            if is_Exception e
            then on_exec_error code e (executed doc0 code description false)
            else (Raise e, executed doc0 code description false)
        end
    end.
Proof.
  unfold run, try_exceptM, bindM, of_result, logger, new_Transaction, Start,
    Commit, set_stdout, exec_code, ret, fresh, called, executed.
  cbn.
  destruct (raised_by_code (exec code doc0)) as [e|].
  - destruct (is_Exception e); reflexivity.
  - destruct (getvalue (exec code doc0)) as [output|e]; [reflexivity|].
    cbn. destruct (is_Exception e); reflexivity.
Qed.

(** The route, for a payload with code. *)
Lemma execute_code_runs (doc0 : document) (request : Request)
  (payload : list (string * value)) :
  payload_of request = Ok (VDict payload) ->
  truthy (get_default payload "code" (VStr EmptyString)) = true ->
  execute_code doc0 request
  = match run (get_default payload "code" (VStr EmptyString))
              (get_default payload "description" (VStr "Code execution"))
              (fresh doc0)
    with
    | (Ok r, h) => (Ok r, h)
    | (Raise e, h) =>
        if is_Exception e then on_request_error e h else (Raise e, h)
    end.
Proof.
  intros Hp Ht. unfold execute_code, handler, try_exceptM.
  unfold bindM at 1 2 3, of_result. rewrite Hp. unfold get_method.
  rewrite Ht. reflexivity.
Qed.

(** Once the inner handler has caught an exception, the transaction is rolled
    back whatever happens next; the reply is the error reply when the
    exception prints; a reply has status 500; and what goes out, if anything,
    was raised by [str]. *)
Lemma caught_is_rolled_back (doc0 : document) (code description : value)
  (e : exc) (captured : bool) :
  exists outcome hlog,
    (match on_exec_error code e (executed doc0 code description captured) with
     | (Ok r, h) => (Ok r, h)
     | (Raise e', h) =>
         if is_Exception e' then on_request_error e' h else (Raise e', h)
     end)
    = (outcome,
       mkHost doc0
         (Some (mkTransaction
                  ("MCP Code Execution: " ++ py_str description)
                  RolledBack doc0))
         false
         [TxStart ("MCP Code Execution: " ++ py_str description);
          Exec code; TxRollBack]
         hlog)
    /\ (forall text,
          str e = Ok text ->
          outcome
          = Ok (make_response
                  (VDict [("status", VStr "error");
                          ("error", VStr text);
                          ("traceback", VStr (format_exc e));
                          ("code_attempted", code)])
                  500))
    /\ (forall r, outcome = Ok r -> response_status r = 500%Z)
    /\ (forall e', outcome = Raise e' -> exists e'', str e'' = Raise e').
Proof.
  rewrite (on_exec_error_cases code e (executed doc0 code description captured)
             ("MCP Code Execution: " ++ py_str description) doc0 eq_refl).
  unfold executed. cbn [calls log app].
  destruct (str e) as [text|e'] eqn:He.
  - do 2 eexists. split; [reflexivity|]. split; [|split].
    + intros text' H. now injection H as <-.
    + intros r H. now injection H as <-.
    + intros e' H. discriminate H.
  - destruct (is_Exception e') eqn:Hexc.
    + rewrite on_request_error_cases. cbn [doc t stdout_captured calls log app].
      destruct (str e') as [text'|e''] eqn:He'.
      * do 2 eexists. split; [reflexivity|]. split; [|split].
        -- intros text H. discriminate H.
        -- intros r H. injection H as <-.
           destruct (has_substring "encoding" (lower text')
                     || has_substring "codepage" (lower text')); reflexivity.
        -- intros e0 H. discriminate H.
      * do 2 eexists. split; [reflexivity|]. split; [|split].
        -- intros text H. discriminate H.
        -- intros r H. discriminate H.
        -- intros e0 H. injection H as <-. eauto.
    + do 2 eexists. split; [reflexivity|]. split; [|split].
      * intros text H. discriminate H.
      * intros r H. discriminate H.
      * intros e0 H. injection H as <-. eauto.
Qed.

(** The route, once the code or the reading of its output has raised an
    exception that derives from [Exception]. *)
Lemma execute_code_caught (doc0 : document) (request : Request)
  (payload : list (string * value)) (e : exc) :
  payload_of request = Ok (VDict payload) ->
  truthy (get_default payload "code" (VStr EmptyString)) = true ->
  raised_by_code (exec (get_default payload "code" (VStr EmptyString)) doc0)
  = Some e
  \/ (raised_by_code (exec (get_default payload "code" (VStr EmptyString)) doc0)
      = None
      /\ getvalue (exec (get_default payload "code" (VStr EmptyString)) doc0)
         = Raise e) ->
  is_Exception e = true ->
  exists captured,
    execute_code doc0 request
    = match on_exec_error (get_default payload "code" (VStr EmptyString)) e
              (executed doc0 (get_default payload "code" (VStr EmptyString))
                 (get_default payload "description" (VStr "Code execution"))
                 captured)
      with
      | (Ok r, h) => (Ok r, h)
      | (Raise e', h) =>
          if is_Exception e' then on_request_error e' h else (Raise e', h)
      end.
Proof.
  intros Hp Ht Hwhy He.
  rewrite (execute_code_runs doc0 request payload Hp Ht), run_cases.
  destruct Hwhy as [Hr | [Hr Hout]].
  - exists true. rewrite Hr, He. reflexivity.
  - exists false. rewrite Hr, Hout, He. reflexivity.
Qed.

(** C8, amended. When the code runs to its end and what it printed can be
    read, the reply has status [success] and HTTP status 200; its [output] is
    the fixed sentinel when nothing was printed, and the printed text
    otherwise. *)
Theorem success_output (doc0 : document) (request : Request)
  (payload : list (string * value)) (code : value) (output : string) :
  payload_of request = Ok (VDict payload) ->
  get_default payload "code" (VStr EmptyString) = code ->
  truthy code = true ->
  raised_by_code (exec code doc0) = None ->
  getvalue (exec code doc0) = Ok output ->
  exists r h,
    execute_code doc0 request = (Ok r, h)
    /\ response_status r = 200%Z
    /\ field r "status" = Some (VStr "success")
    /\ field r "code_executed" = Some code
    /\ (output = EmptyString ->
        field r "output" = Some (VStr "Code executed successfully (no output)"))
    /\ (output <> EmptyString -> field r "output" = Some (VStr output))
    /\ status_of h = Committed
    /\ doc h = new_doc (exec code doc0).
Proof.
  intros Hp Hc Ht Hr Hout. subst code.
  rewrite (execute_code_runs doc0 request payload Hp Ht), run_cases, Hr, Hout.
  do 2 eexists. split; [reflexivity|]. unfold field. cbn.
  repeat split.
  - intros ->. reflexivity.
  - intros Hne. destruct (output =? EmptyString) eqn:Hempty; [|reflexivity].
    apply String.eqb_eq in Hempty. contradiction.
Qed.


(** ** The route as a whole *)

Lemma payload_of_raises (request : Request) (e : exc) :
  payload_of request = Raise e -> is_Exception e = true.
Proof.
  unfold payload_of. destruct (data request) as [b|s|v]; [| |discriminate].
  - destruct (json_loads (decode_utf8_replace b)); simpl; [discriminate|].
    intros H. injection H as <-. reflexivity.
  - destruct (json_loads s); simpl; [discriminate|].
    intros H. injection H as <-. reflexivity.
Qed.

Lemma get_method_raises (v : value) (key : string) (dflt : value) :
  (forall d, v <> VDict d) ->
  get_method v key dflt = Raise (AttributeError v "get").
Proof. destruct v; intros H; try reflexivity. now destruct (H entries). Qed.

(** A request that cannot be read goes to the outer handler at once. *)
Lemma execute_code_unreadable (doc0 : document) (request : Request) (e : exc) :
  (payload_of request = Raise e
   \/ exists v, payload_of request = Ok v /\ (forall d, v <> VDict d)
                /\ e = AttributeError v "get") ->
  execute_code doc0 request = on_request_error e (fresh doc0).
Proof.
  intros Hwhy.
  assert (He : is_Exception e = true).
  { destruct Hwhy as [Hp | (v & _ & _ & ->)];
      [exact (payload_of_raises _ _ Hp) | reflexivity]. }
  unfold execute_code, handler, try_exceptM. unfold bindM at 1 2 3, of_result.
  destruct Hwhy as [-> | (v & -> & Hv & ->)].
  - rewrite He. reflexivity.
  - rewrite (get_method_raises v _ _ Hv). reflexivity.
Qed.

(** A request that cannot be read, because its text is not JSON or because
    what it holds is not a mapping, changes nothing: no transaction exists,
    nothing was asked of the Revit API, the output is not captured and the
    document is the one the route was given.  When the exception prints, one
    line is logged and the reply has status 500; it holds the text under
    [error], unless the text, in lower case, contains [encoding] or
    [codepage]: then it holds a fixed message under [error], the text under
    [details] and a fixed suggestion.  When the exception does not print, what
    [str] raised goes out and nothing is logged. *)
Theorem unreadable_request_changes_nothing (doc0 : document)
  (request : Request) (e : exc) :
  (payload_of request = Raise e
   \/ exists v, payload_of request = Ok v /\ (forall d, v <> VDict d)
                /\ e = AttributeError v "get") ->
  (forall text,
     str e = Ok text ->
     execute_code doc0 request
     = (Ok (if has_substring "encoding" (lower text)
               || has_substring "codepage" (lower text)
            then make_response
                   (VDict [("error",
                            VStr "Encoding error - .NET CodePages encoding provider may not be registered");
                           ("details", VStr text);
                           ("suggestion",
                            VStr "Ensure System.Text.Encoding.CodePages is registered at startup")])
                   500
            else make_response (VDict [("error", VStr text)]) 500),
        mkHost doc0 None false []
               ["Execute code request failed: " ++ text]))
  /\ (forall e',
        str e = Raise e' ->
        execute_code doc0 request = (Raise e', fresh doc0)).
Proof.
  intros Hwhy. rewrite (execute_code_unreadable doc0 request e Hwhy).
  rewrite on_request_error_cases. split.
  - intros text ->. reflexivity.
  - intros e' ->. reflexivity.
Qed.

(** The ways through the route. *)
Lemma route_outcome (doc0 : document) (request : Request) :
  (exists e,
     (payload_of request = Raise e
      \/ exists v, payload_of request = Ok v /\ (forall d, v <> VDict d)
                   /\ e = AttributeError v "get")
     /\ execute_code doc0 request = on_request_error e (fresh doc0))
  \/ (exists payload,
        payload_of request = Ok (VDict payload)
        /\ truthy (get_default payload "code" (VStr EmptyString)) = false
        /\ execute_code doc0 request
           = (Ok (make_response (VDict [("error", VStr "No code provided")]) 400),
              fresh doc0))
  \/ (exists payload output r h,
        payload_of request = Ok (VDict payload)
        /\ truthy (get_default payload "code" (VStr EmptyString)) = true
        /\ raised_by_code
             (exec (get_default payload "code" (VStr EmptyString)) doc0) = None
        /\ getvalue
             (exec (get_default payload "code" (VStr EmptyString)) doc0)
           = Ok output
        /\ execute_code doc0 request = (Ok r, h)
        /\ response_status r = 200%Z
        /\ status_of h = Committed
        /\ stdout_captured h = false
        /\ doc h = new_doc
                     (exec (get_default payload "code" (VStr EmptyString)) doc0))
  \/ (exists payload e captured,
        payload_of request = Ok (VDict payload)
        /\ truthy (get_default payload "code" (VStr EmptyString)) = true
        /\ ((raised_by_code
               (exec (get_default payload "code" (VStr EmptyString)) doc0)
             = Some e /\ captured = true)
            \/ (raised_by_code
                  (exec (get_default payload "code" (VStr EmptyString)) doc0)
                = None
                /\ getvalue
                     (exec (get_default payload "code" (VStr EmptyString)) doc0)
                   = Raise e
                /\ captured = false))
        /\ ((is_Exception e = false
             /\ execute_code doc0 request
                = (Raise e,
                   executed doc0 (get_default payload "code" (VStr EmptyString))
                     (get_default payload "description" (VStr "Code execution"))
                     captured))
            \/ (is_Exception e = true
                /\ exists outcome h,
                     execute_code doc0 request = (outcome, h)
                     /\ status_of h = RolledBack
                     /\ stdout_captured h = false
                     /\ doc h = doc0
                     /\ (forall r, outcome = Ok r -> response_status r = 500%Z)
                     /\ (forall e', outcome = Raise e' ->
                                    exists e'', str e'' = Raise e')))).
Proof.
  destruct (payload_of request) as [v|e] eqn:Hp.
  2:{ left. exists e. split; [now left|].
      apply execute_code_unreadable. now left. }
  assert (Hnot : (forall d, v <> VDict d) ->
                 exists e,
                   (Ok v = Raise e
                    \/ exists v', Ok v = Ok v' /\ (forall d, v' <> VDict d)
                                  /\ e = AttributeError v' "get")
                   /\ execute_code doc0 request = on_request_error e (fresh doc0)).
  { intros Hv. exists (AttributeError v "get"). split.
    - right. exists v. auto.
    - apply execute_code_unreadable. right. exists v. auto. }
  destruct v as [ | b | n | f | s | items | payload ];
    try (left; apply Hnot; intros d; discriminate).
  clear Hnot. right.
  destruct (truthy (get_default payload "code" (VStr EmptyString))) eqn:Ht.
  2:{ left. exists payload. split; [reflexivity|]. split; [exact Ht|].
      unfold execute_code, handler, try_exceptM, bindM, of_result.
      rewrite Hp. unfold get_method. rewrite Ht. reflexivity. }
  right.
  assert (Hcaught : forall e captured,
    (raised_by_code (exec (get_default payload "code" (VStr EmptyString)) doc0)
     = Some e /\ captured = true)
    \/ (raised_by_code (exec (get_default payload "code" (VStr EmptyString)) doc0)
        = None
        /\ getvalue (exec (get_default payload "code" (VStr EmptyString)) doc0)
           = Raise e
        /\ captured = false) ->
    (is_Exception e = false
     /\ execute_code doc0 request
        = (Raise e,
           executed doc0 (get_default payload "code" (VStr EmptyString))
             (get_default payload "description" (VStr "Code execution"))
             captured))
    \/ (is_Exception e = true
        /\ exists outcome h,
             execute_code doc0 request = (outcome, h)
             /\ status_of h = RolledBack
             /\ stdout_captured h = false
             /\ doc h = doc0
             /\ (forall r, outcome = Ok r -> response_status r = 500%Z)
             /\ (forall e', outcome = Raise e' ->
                            exists e'', str e'' = Raise e'))).
  { intros e captured Hwhy. destruct (is_Exception e) eqn:He.
    - right. split; [reflexivity|].
      assert (Hwhy' :
        raised_by_code (exec (get_default payload "code" (VStr EmptyString)) doc0)
        = Some e
        \/ (raised_by_code
              (exec (get_default payload "code" (VStr EmptyString)) doc0) = None
            /\ getvalue
                 (exec (get_default payload "code" (VStr EmptyString)) doc0)
               = Raise e)) by tauto.
      destruct (execute_code_caught doc0 request payload e Hp Ht Hwhy' He)
        as [captured' Hrun].
      destruct (caught_is_rolled_back doc0
                  (get_default payload "code" (VStr EmptyString))
                  (get_default payload "description" (VStr "Code execution"))
                  e captured')
        as (outcome & hlog & Hout & _ & Hreply & Hraise).
      rewrite Hout in Hrun. do 2 eexists. split; [exact Hrun|].
      repeat split; assumption.
    - left. split; [reflexivity|].
      rewrite (execute_code_runs doc0 request payload Hp Ht), run_cases.
      destruct Hwhy as [[Hr ->] | (Hr & Hout & ->)].
      + rewrite Hr, He. cbn iota. rewrite He. reflexivity.
      + rewrite Hr, Hout, He. cbn iota. rewrite He. reflexivity. }
  destruct (raised_by_code
              (exec (get_default payload "code" (VStr EmptyString)) doc0))
    as [e|] eqn:Hr.
  { right. exists payload, e, true. split; [reflexivity|].
    split; [exact Ht|]. split; [left; auto|]. apply Hcaught. left. auto. }
  destruct (getvalue (exec (get_default payload "code" (VStr EmptyString)) doc0))
    as [output|e] eqn:Hout.
  2:{ right. exists payload, e, false. split; [reflexivity|].
      split; [exact Ht|]. split; [right; auto|]. apply Hcaught. right. auto. }
  left. exists payload, output.
  rewrite (execute_code_runs doc0 request payload Hp Ht), run_cases, Hr, Hout.
  do 2 eexists. repeat split; solve [assumption | reflexivity].
Qed.


(** An exception leaves the route in two ways only.  Either it does not derive
    from [Exception] and was raised by the executed code, or by the reading of
    its output: the transaction is then left started, with the document as
    the code left it, and the output still captured in the first case.  Or it
    was raised by [str], asked for the text of an exception that a handler had
    caught: then no transaction is left started, the output is not captured,
    and the document is the one the route was given. *)
Theorem escapes_from_code_or_str (doc0 : document) (request : Request)
  (e : exc) (h : host) :
  execute_code doc0 request = (Raise e, h) ->
  (is_Exception e = false
   /\ status_of h = Started
   /\ exists payload,
        payload_of request = Ok (VDict payload)
        /\ truthy (get_default payload "code" (VStr EmptyString)) = true
        /\ doc h = new_doc
                     (exec (get_default payload "code" (VStr EmptyString)) doc0)
        /\ ((raised_by_code
               (exec (get_default payload "code" (VStr EmptyString)) doc0)
             = Some e /\ stdout_captured h = true)
            \/ (raised_by_code
                  (exec (get_default payload "code" (VStr EmptyString)) doc0)
                = None
                /\ getvalue
                     (exec (get_default payload "code" (VStr EmptyString)) doc0)
                   = Raise e
                /\ stdout_captured h = false)))
  \/ ((exists caught, str caught = Raise e)
      /\ status_of h <> Started
      /\ stdout_captured h = false
      /\ doc h = doc0).
Proof.
  intros Hrun.
  destruct (route_outcome doc0 request)
    as [(e0 & _ & H)
       | [(payload & _ & _ & H)
         | [(payload & output & r' & h' & _ & _ & _ & _ & H & _)
           | (payload & e0 & captured & Hp & Ht & Hwhy
              & [[He H] | (_ & out & h' & H & Hs & Ho & Hd & _ & Hraise)])]]];
    rewrite H in Hrun; try discriminate Hrun.
  - rewrite on_request_error_cases in Hrun.
    destruct (str e0) as [text|e'] eqn:Hstr; [discriminate Hrun|].
    injection Hrun as <- <-. right. split; [eauto|].
    unfold status_of. cbn. repeat split. discriminate.
  - injection Hrun as <- <-. left. split; [exact He|]. split; [reflexivity|].
    exists payload. split; [exact Hp|]. split; [exact Ht|].
    split; [reflexivity|].
    destruct Hwhy as [[Hr ->] | (Hr & Hout & ->)]; [left | right]; auto.
  - injection Hrun as Hout <-. right. split; [exact (Hraise e Hout)|].
    rewrite Hs, Ho, Hd. repeat split. discriminate.
Qed.

(** What the status of a reply tells: 400 exactly when the request holds a
    mapping whose [code] is absent or falsy (the empty string, but also
    [null], [0], [false] or an empty list), and then nothing at all has
    happened on the host; 200 exactly when there was code to run, it ran to
    its end and what it printed could be read. *)
Theorem status_tells_what_happened (doc0 : document) (request : Request)
  (r : Response) (h : host) :
  execute_code doc0 request = (Ok r, h) ->
  (response_status r = 400%Z <->
   exists payload,
     payload_of request = Ok (VDict payload)
     /\ truthy (get_default payload "code" (VStr EmptyString)) = false)
  /\ (response_status r = 200%Z <->
      exists payload output,
        payload_of request = Ok (VDict payload)
        /\ truthy (get_default payload "code" (VStr EmptyString)) = true
        /\ raised_by_code
             (exec (get_default payload "code" (VStr EmptyString)) doc0) = None
        /\ getvalue
             (exec (get_default payload "code" (VStr EmptyString)) doc0)
           = Ok output)
  /\ (response_status r = 400%Z -> h = fresh doc0).
Proof.
  intros Hrun.
  destruct (route_outcome doc0 request)
    as [(e & Hwhy & H)
       | [(payload & Hp & Ht & H)
         | [(payload & output & r' & h' & Hp & Ht & Hr & Hout & H & Hs & _)
           | (payload & e & captured & Hp & Ht & Hwhy
              & [[_ H] | (_ & out & h' & H & _ & _ & _ & Hs & _)])]]];
    rewrite H in Hrun.
  - rewrite on_request_error_cases in Hrun.
    destruct (str e) as [text|e']; [|discriminate Hrun].
    injection Hrun as <- _.
    assert (Hs : response_status
                   (if has_substring "encoding" (lower text)
                       || has_substring "codepage" (lower text)
                    then make_response
                           (VDict [("error",
                                    VStr "Encoding error - .NET CodePages encoding provider may not be registered");
                                   ("details", VStr text);
                                   ("suggestion",
                                    VStr "Ensure System.Text.Encoding.CodePages is registered at startup")])
                           500
                    else make_response (VDict [("error", VStr text)]) 500)
                 = 500%Z).
    { destruct (has_substring "encoding" (lower text)
                || has_substring "codepage" (lower text)); reflexivity. }
    rewrite Hs. split; [|split]; [split | split |]; try discriminate.
    + intros (payload & Hp & _).
      destruct Hwhy as [Hw | (v & Hw & Hv & _)]; rewrite Hp in Hw;
        [discriminate Hw | injection Hw as <-; now destruct (Hv payload)].
    + intros (payload & output & Hp & _).
      destruct Hwhy as [Hw | (v & Hw & Hv & _)]; rewrite Hp in Hw;
        [discriminate Hw | injection Hw as <-; now destruct (Hv payload)].
  - injection Hrun as <- <-. cbn.
    split; [|split]; [split | split |]; try discriminate; eauto.
    intros (payload' & output & Hp' & Ht' & _). congruence.
  - injection Hrun as <- <-. rewrite Hs.
    split; [|split]; [split | split |]; try discriminate; eauto 10.
    intros (payload' & Hp' & Ht'). congruence.
  - discriminate Hrun.
  - injection Hrun as Hreply _. rewrite (Hs r Hreply).
    split; [|split]; [split | split |]; try discriminate.
    + intros (payload' & Hp' & Ht'). congruence.
    + intros (payload' & output & Hp' & Ht' & Hr' & Hout').
      assert (payload' = payload) by congruence. subst payload'.
      destruct Hwhy as [[Hr _] | (Hr & Hout & _)]; congruence.
Qed.

End RouteFacts.

(** An instance: a payload with a description only. *)
Lemma no_code_no_transaction_witness :
  execute_code (E := quiet_host) 7
               (posted [("description", VStr "nothing to run")])
  = (Ok (make_response (VDict [("error", VStr "No code provided")]) 400),
     fresh (E := quiet_host) 7).
Proof.
  apply (no_code_no_transaction (E := quiet_host) 7
           (posted [("description", VStr "nothing to run")])
           [("description", VStr "nothing to run")]).
  - reflexivity.
  - left. reflexivity.
Defined.

(** An instance: code that prints nothing is answered with the sentinel, after
    the commit. *)
Lemma success_output_witness :
  exists (r : Response) (h : @host quiet_host),
    execute_code (E := quiet_host) 7
                 (posted [("code", VStr "x = 1")])
    = (Ok r, h)
    /\ field r "output" = Some (VStr NO_OUTPUT)
    /\ status_of h = Committed.
Proof.
  destruct (success_output (E := quiet_host) 7
              (posted [("code", VStr "x = 1")]) [("code", VStr "x = 1")]
              (VStr "x = 1") EmptyString eq_refl eq_refl eq_refl eq_refl eq_refl)
    as (r & h & Hrun & _ & _ & _ & Hquiet & _ & Hdone & _).
  exists r, h. split; [exact Hrun|]. split; [exact (Hquiet eq_refl) | exact Hdone].
Defined.

(** C8, as stated, fails: code that closes [sys.stdout], which is the capture
    buffer while the code runs, ends without raising and has printed nothing;
    but [getvalue()] then raises a [ValueError] inside the inner [try], so the
    transaction is rolled back and the reply is the error reply, with status
    500, not the sentinel. *)
Lemma closed_buffer_is_an_error :
  raised_by_code
    (exec (Environment := closing_host)
          (VStr "import sys; sys.stdout.close()") 7) = None
  /\ execute_code (E := closing_host) 7
                  (posted [("code", VStr "import sys; sys.stdout.close()")])
     = (Ok (make_response
              (VDict [("status", VStr "error");
                      ("error", VStr "I/O operation on closed file");
                      ("traceback", VStr (format_exc closed_file));
                      ("code_attempted",
                       VStr "import sys; sys.stdout.close()")])
              500),
        mkHost (E := closing_host) 7
               (Some (mkTransaction (E := closing_host)
                                    "MCP Code Execution: Code execution"
                                    RolledBack 7))
               false
               [TxStart "MCP Code Execution: Code execution";
                Exec (VStr "import sys; sys.stdout.close()");
                TxRollBack]
               ["Executing code: Code execution";
                "Code execution failed: I/O operation on closed file";
                "Traceback: " ++ format_exc closed_file]).
Proof. split; reflexivity. Qed.



(** An instance: a request whose text is not JSON. *)
Lemma unreadable_request_changes_nothing_witness :
  execute_code (E := quiet_host) 7 (mkRequest (Text "{"))
  = (Ok (make_response
           (VDict [("error", VStr "No JSON object could be decoded")]) 500),
     mkHost (E := quiet_host) 7 None false []
            ["Execute code request failed: No JSON object could be decoded"]).
Proof.
  exact (proj1 (unreadable_request_changes_nothing (E := quiet_host) 7
                  (mkRequest (Text "{"))
                  (raised (mkError "ValueError" "No JSON object could be decoded"))
                  (or_introl eq_refl))
               "No JSON object could be decoded" eq_refl).
Defined.


(** An instance: code that raises an exception whose [__str__] raises the
    exception itself; it derives from [Exception], and yet it leaves the
    route, after the roll-back. *)
Lemma escapes_from_code_or_str_witness :
  exists h : @host stubborn_host,
    execute_code (E := stubborn_host) 7
                 (posted [("code", VStr "raise Stubborn()")])
    = (Raise Stubborn, h)
    /\ is_Exception Stubborn = true
    /\ status_of h <> Started
    /\ stdout_captured h = false
    /\ doc h = 7.
Proof.
  assert (Hrun :
    execute_code (E := stubborn_host) 7
                 (posted [("code", VStr "raise Stubborn()")])
    = (Raise Stubborn,
       mkHost (E := stubborn_host) 7
              (Some (mkTransaction (E := stubborn_host)
                                   "MCP Code Execution: Code execution"
                                   RolledBack 7))
              false
              [TxStart "MCP Code Execution: Code execution";
               Exec (VStr "raise Stubborn()"); TxRollBack]
              ["Executing code: Code execution"]))
    by reflexivity.
  destruct (escapes_from_code_or_str (E := stubborn_host) 7
              (posted [("code", VStr "raise Stubborn()")]) _ _ Hrun)
    as [(Hexc & _) | (_ & Hstatus & Hout & Hdoc)].
  - discriminate Hexc.
  - eexists. split; [exact Hrun|]. split; [reflexivity|].
    split; [exact Hstatus|]. split; [exact Hout | exact Hdoc].
Defined.

(** An instance: a request whose [code] is the number zero. *)
Lemma status_tells_what_happened_witness :
  exists (r : Response) (h : @host quiet_host),
    execute_code (E := quiet_host) 7 (posted [("code", VInt 0)]) = (Ok r, h)
    /\ response_status r = 400%Z
    /\ h = fresh (E := quiet_host) 7.
Proof.
  assert (Hrun :
    execute_code (E := quiet_host) 7 (posted [("code", VInt 0)])
    = (Ok (make_response (VDict [("error", VStr "No code provided")]) 400),
       fresh (E := quiet_host) 7))
    by reflexivity.
  destruct (status_tells_what_happened (E := quiet_host) 7
              (posted [("code", VInt 0)]) _ _ Hrun) as (H400 & _ & Hfresh).
  assert (Hstatus :
    response_status
      (make_response (VDict [("error", VStr "No code provided")]) 400)
    = 400%Z).
  { apply H400. exists [("code", VInt 0)]. split; reflexivity. }
  do 2 eexists. split; [exact Hrun|].
  split; [exact Hstatus | exact (Hfresh Hstatus)].
Defined.

End HostSpec.

(** * The view tools: what they pass on and when they fail *)
Module ViewToolsSpec.
Import Py Formatter Gateway ViewTools.

(** What a tool makes of the answer to its request. *)
Lemma formatted_get (net : Network) (endpoint : string) :
  (response <- revit_get net endpoint default_timeout None ;;
   format_response response)
  = match get (net default_timeout) (BASE_URL ++ endpoint) None with
    | inr e => Ok (VStr ("Error: " ++ error_text e))
    | inl response =>
        if (status_code response =? 200)%Z
        then match json (net default_timeout) response with
             | inl body => format_response body
             | inr e => Ok (VStr ("Error: " ++ error_text e))
             end
        else Ok (VStr ("Error: " ++ string_of_Z (status_code response)
                       ++ " - " ++ text response))
    end.
Proof.
  unfold revit_get. rewrite GatewaySpec.revit_call_cases. unfold sent.
  replace ("GET" =? "GET") with true by reflexivity.
  cbn [bind].
  destruct (get (net default_timeout) (BASE_URL ++ endpoint) None)
    as [response|e]; [|reflexivity].
  destruct (status_code response =? 200)%Z; [|reflexivity].
  destruct (json (net default_timeout) response); reflexivity.
Qed.

(** Each tool tells its context, when it has something to tell, and then
    formats what its route answers. *)
Lemma view_tool_body (endpoint : string)
  (tool : Network -> option Context -> result value)
  (net : Network) (ctx : option Context) :
  In (endpoint, tool) view_routes ->
  exists told : result unit,
    (told = Ok tt \/ exists line, told = inform ctx line)
    /\ tool net ctx
       = (_ <- told ;;
          response <- revit_get net endpoint default_timeout None ;;
          format_response response).
Proof.
  intros [H | [H | [H | []]]]; injection H as <- <-.
  - exists (Ok tt). split; [now left | reflexivity].
  - exists (inform ctx "Getting current view information...").
    split; [right; eauto | reflexivity].
  - exists (inform ctx "Getting elements in current view...").
    split; [right; eauto | reflexivity].
Qed.

(** A tool hands every failure of its request on as the text the gateway
    made of it: [Error: ] and the exception text when the service cannot be
    reached or its body does not parse, [Error: <status> - <body>] for a
    status other than 200.  Only a parsed body is formatted. *)
Theorem view_tools_pass_errors_through (endpoint : string)
  (tool : Network -> option Context -> result value)
  (net : Network) (ctx : option Context) :
  In (endpoint, tool) view_routes ->
  quiet_about_everything ctx ->
  (forall e,
     get (net default_timeout) (BASE_URL ++ endpoint) None = inr e ->
     tool net ctx = Ok (VStr ("Error: " ++ error_text e)))
  /\ (forall response,
        get (net default_timeout) (BASE_URL ++ endpoint) None = inl response ->
        status_code response <> 200%Z ->
        tool net ctx
        = Ok (VStr ("Error: " ++ string_of_Z (status_code response)
                    ++ " - " ++ text response)))
  /\ (forall response e,
        get (net default_timeout) (BASE_URL ++ endpoint) None = inl response ->
        status_code response = 200%Z ->
        json (net default_timeout) response = inr e ->
        tool net ctx = Ok (VStr ("Error: " ++ error_text e)))
  /\ (forall response body,
        get (net default_timeout) (BASE_URL ++ endpoint) None = inl response ->
        status_code response = 200%Z ->
        json (net default_timeout) response = inl body ->
        tool net ctx = format_response body).
Proof.
  intros Hin Hquiet.
  destruct (view_tool_body endpoint tool net ctx Hin) as (told & Htold & ->).
  assert (Hok : told = Ok tt).
  { destruct Htold as [H | [line H]]; [exact H | rewrite H; apply Hquiet]. }
  rewrite Hok. cbn [bind]. rewrite formatted_get.
  split; [|split; [|split]].
  - intros e ->. reflexivity.
  - intros response -> Hnot. apply Z.eqb_neq in Hnot. rewrite Hnot. reflexivity.
  - intros response e -> H200 ->. rewrite H200. reflexivity.
  - intros response body -> H200 ->. rewrite H200. reflexivity.
Qed.

(** An instance: the service cannot be reached. *)
Lemma view_tools_pass_errors_through_witness :
  get_current_view_info (unreachable (mkError "ConnectError" "refused"))
                        (Some quiet_context)
  = Ok (VStr "Error: refused").
Proof.
  refine (proj1 (view_tools_pass_errors_through
                   "/current_view_info/" get_current_view_info
                   (unreachable (mkError "ConnectError" "refused"))
                   (Some quiet_context) _ _)
                (mkError "ConnectError" "refused") eq_refl).
  - right. left. reflexivity.
  - intros line. reflexivity.
Defined.

(** A tool lets an exception out in two cases only: its context failed to
    take the progress line, or the service answered with status 200 and a
    mapping that [format_response] cannot format; the exception is then an
    [AttributeError] or a [TypeError]. *)
Theorem view_tools_raise_only_on_malformed_reply (endpoint : string)
  (tool : Network -> option Context -> result value)
  (net : Network) (ctx : option Context) (e : exc) :
  In (endpoint, tool) view_routes ->
  tool net ctx = Raise e ->
  (exists line, inform ctx line = Raise e)
  \/ (exists response d,
        get (net default_timeout) (BASE_URL ++ endpoint) None = inl response
        /\ status_code response = 200%Z
        /\ json (net default_timeout) response = inl (VDict d)
        /\ format_response (VDict d) = Raise e
        /\ is_Exception e = true
        /\ (exc_class e = "AttributeError" \/ exc_class e = "TypeError")).
Proof.
  intros Hin.
  destruct (view_tool_body endpoint tool net ctx Hin) as (told & Htold & ->).
  destruct told as [[]|e'] eqn:Etold.
  - cbn [bind]. rewrite formatted_get. intros H. right.
    destruct (get (net default_timeout) (BASE_URL ++ endpoint) None)
      as [response|e'] eqn:Hget; [|discriminate H].
    destruct (status_code response =? 200)%Z eqn:H200; [|discriminate H].
    destruct (json (net default_timeout) response) as [body|e'] eqn:Hj;
      [|discriminate H].
    apply Z.eqb_eq in H200.
    destruct (FormatterSpec.format_response_raise_class body e H)
      as ((d & ->) & Hexc & Hcls).
    exists response, d. auto 10.
  - cbn [bind]. intros H. injection H as ->. left.
    destruct Htold as [H | [line H]]; [discriminate H | eauto].
Qed.

(** An instance: a reply whose status is a number. *)
Lemma view_tools_raise_only_on_malformed_reply_witness :
  (exists line, inform None line = Raise (AttributeError (VInt 200) "lower"))
  \/ (exists response d,
        get (answering_json (VDict [("status", VInt 200)]) default_timeout)
            (BASE_URL ++ "/list_views/") None = inl response
        /\ status_code response = 200%Z
        /\ json (answering_json (VDict [("status", VInt 200)]) default_timeout)
                response = inl (VDict d)
        /\ format_response (VDict d) = Raise (AttributeError (VInt 200) "lower")
        /\ is_Exception (AttributeError (VInt 200) "lower") = true
        /\ (exc_class (AttributeError (VInt 200) "lower") = "AttributeError"
            \/ exc_class (AttributeError (VInt 200) "lower") = "TypeError")).
Proof.
  apply (view_tools_raise_only_on_malformed_reply
           "/list_views/" list_revit_views
           (answering_json (VDict [("status", VInt 200)])) None
           (AttributeError (VInt 200) "lower")).
  - left. reflexivity.
  - reflexivity.
Defined.

(** [get_revit_view] never lets an exception out, and what it returns is
    decided by the answer to one request: a GET, with a timeout of sixty
    seconds, of the address made of the base address, [/get_view/] and the
    name of the view as it was given, without any escaping. *)
Theorem get_revit_view_one_request (net net' : Network) (codec : Codec)
  (view_name : string) :
  get (net 60%Z) ("http://localhost:48884/revit_mcp/get_view/" ++ view_name) None
  = get (net' 60%Z) ("http://localhost:48884/revit_mcp/get_view/" ++ view_name)
        None ->
  (forall response, json (net 60%Z) response = json (net' 60%Z) response) ->
  (exists r, get_revit_view net codec view_name = Ok r)
  /\ get_revit_view net codec view_name = get_revit_view net' codec view_name.
Proof.
  intros Hget Hjson. unfold get_revit_view.
  rewrite !GatewaySpec.revit_image_cases. split; [eauto|].
  change (BASE_URL ++ "/get_view/" ++ view_name)
    with ("http://localhost:48884/revit_mcp/get_view/" ++ view_name).
  change image_timeout with 60%Z.
  rewrite <- Hget.
  destruct (get (net 60%Z)
              ("http://localhost:48884/revit_mcp/get_view/" ++ view_name) None)
    as [response|e]; [|reflexivity].
  rewrite <- Hjson. reflexivity.
Qed.

(** An instance: two services that differ on every other timeout. *)
Lemma get_revit_view_one_request_witness :
  (exists r, get_revit_view (answering 404 "no such view") plain_codec
                            "Level 1" = Ok r)
  /\ get_revit_view (answering 404 "no such view") plain_codec "Level 1"
     = get_revit_view
         (fun timeout =>
            if (timeout =? 60)%Z
            then answering 404 "no such view" timeout
            else unreachable (mkError "ConnectError" "refused") timeout)
         plain_codec "Level 1".
Proof.
  apply (get_revit_view_one_request
           (answering 404 "no such view")
           (fun timeout =>
              if (timeout =? 60)%Z
              then answering 404 "no such view" timeout
              else unreachable (mkError "ConnectError" "refused") timeout)
           plain_codec "Level 1").
  - reflexivity.
  - intros response. reflexivity.
Defined.

End ViewToolsSpec.

(** * The helpers of the Revit side *)
Module RevitUtilsSpec.
Import Py RevitUtils.

Section HelperFacts.

Context {I : Interpreter}.

(** ** White space at the ends of a text *)

Lemma lstrip_parts (s : string) :
  exists pre,
    s = pre ++ lstrip s /\ blank pre = true
    /\ starts_with_space (lstrip s) = false.
Proof.
  induction s as [|c s IH].
  - exists EmptyString. auto.
  - simpl. destruct (is_space c) eqn:Hc.
    + destruct IH as (pre & Hs & Hpre & Hfirst).
      exists (String c pre). simpl. rewrite Hc, Hpre. split; [|auto].
      f_equal. exact Hs.
    + exists EmptyString. simpl. auto.
Qed.

Lemma rstrip_parts (s : string) :
  exists post,
    s = rstrip s ++ post /\ blank post = true
    /\ ends_with_space (rstrip s) = false.
Proof.
  induction s as [|c s IH].
  - exists EmptyString. auto.
  - destruct IH as (post & Hs & Hpost & Hlast). simpl.
    destruct (rstrip s) as [|k kept] eqn:Hkept.
    + destruct (is_space c) eqn:Hc.
      * exists (String c post). simpl in *. rewrite Hc, Hpost. split; [|auto].
        f_equal. exact Hs.
      * exists post. simpl in *. rewrite Hc. split; [|auto]. f_equal. exact Hs.
    + exists post. split; [|split; [exact Hpost | exact Hlast]].
      simpl. f_equal. exact Hs.
Qed.

Lemma rstrip_keeps_start (s : string) :
  starts_with_space s = false -> starts_with_space (rstrip s) = false.
Proof.
  destruct s as [|c s]; [reflexivity|]. simpl. intros Hc.
  destruct (rstrip s); [rewrite Hc|]; simpl; auto.
Qed.

Lemma strip_parts (s : string) :
  exists pre post,
    s = pre ++ strip s ++ post
    /\ blank pre = true /\ blank post = true /\ trimmed (strip s) = true.
Proof.
  destruct (lstrip_parts s) as (pre & Hs & Hpre & Hfirst).
  destruct (rstrip_parts (lstrip s)) as (post & Hl & Hpost & Hlast).
  exists pre, post. unfold strip, trimmed.
  rewrite (rstrip_keeps_start _ Hfirst), Hlast, <- Hl.
  auto.
Qed.

Lemma lstrip_fixed (s : string) :
  starts_with_space s = false -> lstrip s = s.
Proof. destruct s as [|c s]; simpl; [reflexivity|]. now intros ->. Qed.

Lemma rstrip_fixed (s : string) :
  ends_with_space s = false -> rstrip s = s.
Proof.
  induction s as [|c s IH]; [reflexivity|]. simpl.
  destruct s as [|c' s'].
  - simpl. now intros ->.
  - intros H. rewrite (IH H). reflexivity.
Qed.

Lemma strip_fixed (s : string) : trimmed s = true -> strip s = s.
Proof.
  unfold trimmed, strip. rewrite andb_true_iff, !negb_true_iff.
  intros [Hfirst Hlast]. rewrite (lstrip_fixed s Hfirst). now apply rstrip_fixed.
Qed.

Lemma lstrip_blank (s : string) : blank s = true -> lstrip s = EmptyString.
Proof.
  induction s as [|c s IH]; [reflexivity|]. simpl.
  rewrite andb_true_iff. intros [-> Hs]. exact (IH Hs).
Qed.

Lemma strip_blank (s : string) : blank s = true -> strip s = EmptyString.
Proof. intros H. unfold strip. now rewrite (lstrip_blank s H). Qed.

Lemma normalize_bytes (b : string) :
  normalize_string (ByteString b)
  = Ok (strip (match decode_utf8 b with Some s => s | None => b end)).
Proof.
  unfold normalize_string, decode_utf_8, decode_latin_1.
  destruct (decode_utf8 b); reflexivity.
Qed.

(** [normalize_string] gives [Unnamed] for [None]; a unicode string loses the
    white space at its two ends and nothing else, so that a string of white
    space only becomes the empty string, not [Unnamed]; a byte string is read
    as UTF-8 or, when that fails, byte for byte, and then treated alike; any
    other object is converted by [unicode] first, and when that conversion
    fails the name is [Unnamed], unless the exception does not derive from
    [Exception]: that one, and no other, is let out. *)
Theorem normalize_string_trims :
  normalize_string IsNone = Ok "Unnamed"
  /\ (forall u,
        exists r pre post,
          normalize_string (Unicode u) = Ok r
          /\ u = pre ++ r ++ post
          /\ blank pre = true /\ blank post = true /\ trimmed r = true)
  /\ (forall u, blank u = true -> normalize_string (Unicode u) = Ok EmptyString)
  /\ (forall b,
        normalize_string (ByteString b)
        = normalize_string
            (Unicode (match decode_utf8 b with Some s => s | None => b end)))
  /\ (forall o s,
        unicode o = Ok s ->
        normalize_string (Other o) = normalize_string (Unicode s))
  /\ (forall o e,
        unicode o = Raise e ->
        normalize_string (Other o)
        = if is_Exception e then Ok "Unnamed" else Raise e)
  /\ (forall text e,
        normalize_string text = Raise e ->
        is_Exception e = false
        /\ exists o, text = Other o /\ unicode o = Raise e).
Proof.
  split; [reflexivity|]. split; [|split; [|split; [|split; [|split]]]].
  - intros u. destruct (strip_parts u) as (pre & post & Hu & Hpre & Hpost & Ht).
    exists (strip u), pre, post. auto.
  - intros u Hu. simpl. now rewrite (strip_blank u Hu).
  - intros b. rewrite normalize_bytes. reflexivity.
  - intros o s Ho. simpl. rewrite Ho. reflexivity.
  - intros o e Ho. simpl. rewrite Ho. simpl. destruct (is_Exception e); reflexivity.
  - intros [ | u | b | o ] e.
    + intros H. discriminate H.
    + intros H. discriminate H.
    + rewrite normalize_bytes. intros H. discriminate H.
    + simpl. destruct (unicode o) as [s|e'] eqn:Ho; simpl.
      * intros H. discriminate H.
      * destruct (is_Exception e') eqn:He; intros H; [discriminate H|].
        injection H as <-. eauto.
Qed.

Lemma normalize_string_result (text : argument) (r : string) :
  normalize_string text = Ok r ->
  r = "Unnamed" \/ trimmed r = true.
Proof.
  destruct text as [ | u | b | o ].
  - intros H. injection H as <-. now left.
  - intros H. injection H as <-. right.
    destruct (strip_parts u) as (_ & _ & _ & _ & _ & Ht). exact Ht.
  - rewrite normalize_bytes. intros H. injection H as <-. right.
    destruct (strip_parts (match decode_utf8 b with Some s => s | None => b end))
      as (_ & _ & _ & _ & _ & Ht).
    exact Ht.
  - simpl. destruct (unicode o) as [s|e]; simpl.
    + intros H. injection H as <-. right.
      destruct (strip_parts s) as (_ & _ & _ & _ & _ & Ht). exact Ht.
    + destruct (is_Exception e); intros H; [|discriminate H].
      injection H as <-. now left.
Qed.

(** Normalizing twice is normalizing once: a name that [normalize_string]
    returned comes back unchanged (in an interpreter for which the letters
    [U] and [d] are not white space). *)
Theorem normalize_string_idempotent (text : argument) (r : string) :
  is_space "U" = false ->
  is_space "d" = false ->
  normalize_string text = Ok r ->
  normalize_string (Unicode r) = Ok r.
Proof.
  intros HU Hd H. simpl. f_equal. apply strip_fixed.
  destruct (normalize_string_result text r H) as [-> | Ht]; [|exact Ht].
  unfold trimmed. simpl. now rewrite HU, Hd.
Qed.

End HelperFacts.

(** An instance: a name that came out of a padded one. *)
Lemma normalize_string_idempotent_witness :
  normalize_string (I := plain_interpreter) (Unicode "Level 1") = Ok "Level 1".
Proof.
  apply (normalize_string_idempotent (I := plain_interpreter)
           (Unicode "  Level 1 ") "Level 1"); reflexivity.
Defined.

(** ** [find_family_symbol_safely] *)

Lemma search_cases (collector : list FamilySymbol)
  (target_family_name target_type_name : value) :
  (exists before symbol after,
     collector = (before ++ symbol :: after)%list
     /\ (forall x, In x before ->
                   passed_over x target_family_name target_type_name)
     /\ accepted symbol target_family_name target_type_name
     /\ search collector target_family_name target_type_name = Ok (Some symbol))
  \/ (exists before bad after e,
        collector = (before ++ bad :: after)%list
        /\ (forall x, In x before ->
                      passed_over x target_family_name target_type_name)
        /\ unreadable bad target_family_name target_type_name e
        /\ search collector target_family_name target_type_name
           = Raise (raised e))
  \/ ((forall x, In x collector ->
                 passed_over x target_family_name target_type_name)
      /\ search collector target_family_name target_type_name = Ok None).
Proof.
  induction collector as [|symbol rest IH].
  - right. right. split; [intros x []|reflexivity].
  - assert (Hnext :
      passed_over symbol target_family_name target_type_name ->
      search (symbol :: rest) target_family_name target_type_name
      = search rest target_family_name target_type_name ->
      (exists before found after,
         symbol :: rest = (before ++ found :: after)%list
         /\ (forall x, In x before ->
                       passed_over x target_family_name target_type_name)
         /\ accepted found target_family_name target_type_name
         /\ search (symbol :: rest) target_family_name target_type_name
            = Ok (Some found))
      \/ (exists before bad after e,
            symbol :: rest = (before ++ bad :: after)%list
            /\ (forall x, In x before ->
                          passed_over x target_family_name target_type_name)
            /\ unreadable bad target_family_name target_type_name e
            /\ search (symbol :: rest) target_family_name target_type_name
               = Raise (raised e))
      \/ ((forall x, In x (symbol :: rest) ->
                     passed_over x target_family_name target_type_name)
          /\ search (symbol :: rest) target_family_name target_type_name
             = Ok None)).
    { intros Hpass ->.
      destruct IH as [(before & found & after & -> & Hb & Ha & Hs)
                     | [(before & bad & after & e & -> & Hb & Hu & Hs)
                       | (Hall & Hs)]].
      - left. exists (symbol :: before), found, after.
        split; [reflexivity|]. split; [|auto].
        intros x [<- | Hx]; auto.
      - right. left. exists (symbol :: before), bad, after, e.
        split; [reflexivity|]. split; [|auto].
        intros x [<- | Hx]; auto.
      - right. right. split; [|exact Hs]. intros x [<- | Hx]; auto. }
    destruct (Family_Name symbol) as [family|e] eqn:Hfamily.
    2:{ right. left. exists [], symbol, rest, e.
        split; [reflexivity|]. split; [intros x []|].
        split; [left; exact Hfamily|].
        cbn [search]. rewrite Hfamily. reflexivity. }
    destruct (eq_text family target_family_name) eqn:Hfam.
    2:{ apply Hnext.
        - exists family. auto.
        - cbn [search]. rewrite Hfamily. cbn [lift bind]. rewrite Hfam.
          reflexivity. }
    destruct (truthy target_type_name) eqn:Htype.
    2:{ left. exists [], symbol, rest. split; [reflexivity|].
        split; [intros x []|]. split; [exists family; auto|].
        cbn [search]. rewrite Hfamily. cbn [lift bind]. rewrite Hfam, Htype.
        reflexivity. }
    destruct (Name symbol) as [name|e] eqn:Hname.
    2:{ right. left. exists [], symbol, rest, e.
        split; [reflexivity|]. split; [intros x []|].
        split; [right; exists family; auto|].
        cbn [search]. rewrite Hfamily. cbn [lift bind]. rewrite Hfam, Htype.
        cbn [negb]. rewrite Hname. reflexivity. }
    destruct (eq_text name target_type_name) eqn:Hty.
    + left. exists [], symbol, rest. split; [reflexivity|].
      split; [intros x []|]. split.
      * exists family. split; [exact Hfamily|]. split; [exact Hfam|].
        right. exists name. auto.
      * cbn [search]. rewrite Hfamily. cbn [lift bind]. rewrite Hfam, Htype.
        cbn [negb]. rewrite Hname. cbn [lift bind]. rewrite Hty. reflexivity.
    + apply Hnext.
      * exists family. split; [exact Hfamily|]. right. split; [exact Htype|].
        exists name. auto.
      * cbn [search]. rewrite Hfamily. cbn [lift bind]. rewrite Hfam, Htype.
        cbn [negb]. rewrite Hname. cbn [lift bind]. rewrite Hty. reflexivity.
Qed.

(** [find_family_symbol_safely] never lets an exception out.  The symbol it
    returns is the first one of the collector that has the family name and,
    when a type name is asked for, the type name; every symbol before it was
    read and passed over.  It returns [None] in three cases: the collector
    could not be made; no symbol fits; or, before any symbol that fits, there
    is one whose family name (or whose own name, once its family fits) cannot
    be read: the search ends there with one line logged, whatever comes
    after. *)
Theorem find_family_symbol_first_match (doc : Document)
  (target_family_name target_type_name : value) :
  exists found log,
    find_family_symbol_safely doc target_family_name target_type_name
    = Ok (found, log)
    /\ (forall symbol,
          found = Some symbol ->
          log = []
          /\ exists before after,
               family_symbols doc = inl (before ++ symbol :: after)%list
               /\ accepted symbol target_family_name target_type_name
               /\ forall x, In x before ->
                            passed_over x target_family_name target_type_name)
    /\ (found = None ->
        (exists e,
           family_symbols doc = inr e
           /\ log = ["Error finding family symbol: " ++ error_text e])
        \/ (exists before bad after e,
              family_symbols doc = inl (before ++ bad :: after)%list
              /\ (forall x, In x before ->
                            passed_over x target_family_name target_type_name)
              /\ unreadable bad target_family_name target_type_name e
              /\ log = ["Error finding family symbol: " ++ error_text e])
        \/ (exists collector,
              family_symbols doc = inl collector
              /\ (forall x, In x collector ->
                            passed_over x target_family_name target_type_name)
              /\ log = [])).
Proof.
  unfold find_family_symbol_safely.
  destruct (family_symbols doc) as [collector|e] eqn:Hdoc.
  2:{ exists None, ["Error finding family symbol: " ++ error_text e].
      split; [reflexivity|]. split; [intros symbol H; discriminate H|].
      intros _. left. exists e. auto. }
  cbn [lift bind].
  destruct (search_cases collector target_family_name target_type_name)
    as [(before & symbol & after & Hc & Hb & Ha & Hs)
       | [(before & bad & after & e & Hc & Hb & Hu & Hs)
         | (Hall & Hs)]]; rewrite Hs.
  - exists (Some symbol), []. split; [reflexivity|]. split.
    + intros s H. injection H as <-. split; [reflexivity|].
      exists before, after. rewrite Hc. auto.
    + intros H. discriminate H.
  - exists None, ["Error finding family symbol: " ++ error_text e].
    split; [reflexivity|]. split; [intros s H; discriminate H|].
    intros _. right. left. exists before, bad, after, e. rewrite Hc. auto.
  - exists None, []. split; [reflexivity|]. split; [intros s H; discriminate H|].
    intros _. right. right. exists collector. auto.
Qed.

End RevitUtilsSpec.

(** * The counts of the model summary *)
Module ModelInfoSpec.
Import Py ModelInfo.

(** ** Element counts *)

Lemma getitem_setitem_same (d : list (string * Z)) (key : string) (v : Z) :
  getitem (setitem d key v) key = Some v.
Proof.
  induction d as [|[k old] d IH]; simpl.
  - now rewrite String.eqb_refl.
  - destruct (k =? key) eqn:Hk; simpl; rewrite Hk; [reflexivity | exact IH].
Qed.

Lemma getitem_setitem_other (d : list (string * Z)) (key other : string) (v : Z) :
  key <> other -> getitem (setitem d key v) other = getitem d other.
Proof.
  intros Hne. induction d as [|[k old] d IH]; simpl.
  - apply String.eqb_neq in Hne. now rewrite Hne.
  - destruct (k =? key) eqn:Hk; simpl.
    + apply String.eqb_eq in Hk. subst k.
      apply String.eqb_neq in Hne. now rewrite Hne.
    + destruct (k =? other); [reflexivity | exact IH].
Qed.

Lemma setitem_new (d : list (string * Z)) (key : string) (v : Z) :
  getitem d key = None ->
  sum_values (setitem d key v) = (sum_values d + v)%Z
  /\ length (setitem d key v) = S (length d).
Proof.
  induction d as [|[k old] d IH]; simpl.
  - intros _. split; [lia | reflexivity].
  - destruct (k =? key); [discriminate|]. intros H.
    destruct (IH H) as [Hsum Hlen]. simpl. unfold sum_values in *. simpl.
    split; [rewrite Hsum; lia | now rewrite Hlen].
Qed.

Lemma count_category_counted (G : BuiltInCategory -> result Z)
  (counts : list (string * Z)) (total : Z) (name : string)
  (category : BuiltInCategory) :
  count_category G (counts, total) (name, category)
  = (setitem counts name (counted G category), (total + counted G category)%Z).
Proof.
  unfold count_category, counted. destruct (G category); [reflexivity|].
  now rewrite Z.add_0_r.
Qed.

(** The sum of what the categories of a list count for. *)
Lemma count_elements_from (G : BuiltInCategory -> result Z)
  (items : list (string * BuiltInCategory)) :
  forall (counts : list (string * Z)) (total : Z),
    NoDup (map fst items) ->
    (forall name, In name (map fst items) -> getitem counts name = None) ->
    total = sum_values counts ->
    snd (fold_left (count_category G) items (counts, total))
    = sum_values (fst (fold_left (count_category G) items (counts, total)))
    /\ snd (fold_left (count_category G) items (counts, total))
       = (total + fold_right (fun item acc => counted G (snd item) + acc) 0 items)%Z
    /\ length (fst (fold_left (count_category G) items (counts, total)))
       = (length counts + length items)%nat
    /\ (forall name category,
          In (name, category) items ->
          getitem (fst (fold_left (count_category G) items (counts, total))) name
          = Some (counted G category))
    /\ (forall name,
          ~ In name (map fst items) ->
          getitem (fst (fold_left (count_category G) items (counts, total))) name
          = getitem counts name).
Proof.
  induction items as [|[n c] rest IH]; intros counts total Hnodup Hnew Htotal.
  - simpl. repeat split; try lia; auto; intros name category [].
  - simpl map in Hnodup. inversion Hnodup as [|? ? Hn Hrest]; subst.
    cbn [fold_left]. rewrite count_category_counted.
    destruct (setitem_new counts n (counted G c) (Hnew n (or_introl eq_refl)))
      as [Hsum Hlen].
    destruct (IH (setitem counts n (counted G c)) (sum_values counts + counted G c)%Z
                Hrest) as (H1 & H2 & H3 & H4 & H5).
    + intros name Hin. rewrite getitem_setitem_other.
      * apply Hnew. now right.
      * intros ->. contradiction.
    + now rewrite Hsum.
    + split; [exact H1|]. split; [rewrite H2; simpl; lia|].
      split; [rewrite H3, Hlen; simpl; lia|]. split.
      * intros name category [Heq | Hin].
        -- injection Heq as <- <-. rewrite (H5 n Hn).
           apply getitem_setitem_same.
        -- exact (H4 name category Hin).
      * intros name Hnot. simpl in Hnot. rewrite H5 by tauto.
        apply getitem_setitem_other. tauto.
Qed.

Lemma counted_sum_permutation (G : BuiltInCategory -> result Z)
  (items items' : list (string * BuiltInCategory)) :
  Permutation items items' ->
  fold_right (fun item acc => counted G (snd item) + acc)%Z 0%Z items
  = fold_right (fun item acc => counted G (snd item) + acc)%Z 0%Z items'.
Proof. induction 1; simpl; lia. Qed.

Lemma element_categories_NoDup : NoDup (map fst element_categories).
Proof.
  repeat (constructor;
          [simpl; intros H; repeat (destruct H as [H|H]; [discriminate H|]);
           exact H|]).
  constructor.
Qed.

(** In whatever order the interpreter hands out the thirteen categories, the
    total is the sum of the counts reported by category; every category has
    its entry, which is the count of the collector, or zero when the collector
    raised anything at all; and the total does not depend on the order. *)
Theorem total_is_sum_of_counts (GetElementCount : BuiltInCategory -> result Z)
  (items : list (string * BuiltInCategory))
  (element_counts : list (string * Z)) (total_elements : Z) :
  Permutation items element_categories ->
  count_elements GetElementCount items = (element_counts, total_elements) ->
  total_elements = sum_values element_counts
  /\ length element_counts = 13%nat
  /\ (forall name category,
        In (name, category) element_categories ->
        getitem element_counts name = Some (counted GetElementCount category))
  /\ total_elements = snd (count_elements GetElementCount element_categories).
Proof.
  intros Hperm Hrun. unfold count_elements in *.
  assert (Hnodup : NoDup (map fst items)).
  { apply (Permutation_NoDup (l := map fst element_categories)).
    - apply Permutation_map, Permutation_sym, Hperm.
    - exact element_categories_NoDup. }
  destruct (count_elements_from GetElementCount items [] 0%Z Hnodup
              (fun _ _ => eq_refl) eq_refl) as (H1 & H2 & H3 & H4 & _).
  destruct (count_elements_from GetElementCount element_categories [] 0%Z
              element_categories_NoDup (fun _ _ => eq_refl) eq_refl)
    as (_ & H2' & _).
  rewrite Hrun in H1, H2, H3, H4. cbn [fst snd] in H1, H2, H3, H4.
  split; [exact H1|]. split; [|split].
  - rewrite H3. rewrite (Permutation_length Hperm). reflexivity.
  - intros name category Hin. apply H4.
    apply (Permutation_in _ (Permutation_sym Hperm)), Hin.
  - rewrite H2, H2'.
    now rewrite (counted_sum_permutation GetElementCount _ _ Hperm).
Qed.

(** An instance: the categories in the order of the source, with a collector
    that fails on the doors. *)
Lemma total_is_sum_of_counts_witness :
  snd (count_elements doors_fail element_categories)
  = sum_values (fst (count_elements doors_fail element_categories))
  /\ getitem (fst (count_elements doors_fail element_categories)) "Doors"
     = Some 0%Z.
Proof.
  destruct (total_is_sum_of_counts doors_fail element_categories
              (fst (count_elements doors_fail element_categories))
              (snd (count_elements doors_fail element_categories))
              (Permutation_refl _) eq_refl) as (Hsum & _ & Hentry & _).
  split; [exact Hsum|]. apply (Hentry "Doors" OST_Doors). simpl. tauto.
Defined.

(** ** Warnings *)

Lemma sum_ones_returns {A : Type} (test : A -> result bool) (items : list A)
  (n : Z) :
  sum_ones test items = Ok n ->
  (0 <= n <= Z.of_nat (length items))%Z
  /\ (forall x, In x items -> exists hit, test x = Ok hit)
  /\ n = Z.of_nat (length (filter (fun x => match test x with
                                            | Ok true => true
                                            | _ => false
                                            end) items)).
Proof.
  revert n. induction items as [|x rest IH]; intros n.
  - simpl. intros H. injection H as <-. repeat split; try lia; intros x [].
  - cbn [sum_ones]. destruct (test x) as [hit|e] eqn:Hx; [|discriminate].
    cbn [bind]. destruct (sum_ones test rest) as [m|e]; [|discriminate].
    cbn [bind]. intros H.
    assert (Hn : n = (if hit then 1 + m else m)%Z) by congruence.
    subst n. clear H.
    destruct (IH m eq_refl) as (Hm & Hall & Hcount).
    split; [|split].
    + cbn [Datatypes.length]. destruct hit; lia.
    + intros y [<- | Hy]; eauto.
    + cbn [filter]. rewrite Hx. destruct hit; cbn [Datatypes.length]; lia.
Qed.

Lemma sum_ones_raises {A : Type} (test : A -> result bool) (items : list A)
  (e : exc) :
  sum_ones test items = Raise e -> exists x, In x items /\ test x = Raise e.
Proof.
  induction items as [|x rest IH]; [discriminate|].
  cbn [sum_ones]. destruct (test x) as [hit|e1] eqn:Hx; cbn [bind].
  - destruct (sum_ones test rest) as [m|e2]; cbn [bind]; [discriminate|].
    intros H. injection H as <-. destruct (IH eq_refl) as (y & Hy & Hty).
    exists y. split; [now right | exact Hty].
  - intros H. injection H as <-. exists x. split; [now left | exact Hx].
Qed.

(** The critical warnings are never more than the warnings.  When the
    warnings and the severity of each can be read, the two numbers are the
    number of warnings and the number of those whose test gives true; when the
    warnings cannot be read, or the test raises for a single one of them, both
    numbers are zero: the number of warnings, already known, is lost. *)
Theorem critical_within_total (GetWarnings : result (list FailureMessage)) :
  (0 <= snd (count_warnings GetWarnings) <= fst (count_warnings GetWarnings))%Z
  /\ (forall warnings,
        GetWarnings = Ok warnings ->
        (forall w, In w warnings -> exists hit, is_error w = Ok hit) ->
        count_warnings GetWarnings
        = (Z.of_nat (length warnings),
           Z.of_nat (length (filter (fun w => match is_error w with
                                              | Ok true => true
                                              | _ => false
                                              end) warnings))))
  /\ (forall warnings w e,
        GetWarnings = Ok warnings ->
        In w warnings ->
        is_error w = Raise e ->
        count_warnings GetWarnings = (0, 0)%Z)
  /\ (forall e, GetWarnings = Raise e -> count_warnings GetWarnings = (0, 0)%Z).
Proof.
  unfold count_warnings.
  destruct GetWarnings as [warnings|e0]; cbn [bind].
  2:{ cbn [fst snd]. split; [lia|]. split; [intros ws H; discriminate H|].
      split; [intros ws w e H; discriminate H | reflexivity]. }
  destruct (sum_ones is_error warnings) as [n|e0] eqn:Hsum; cbn [bind fst snd].
  - destruct (sum_ones_returns is_error warnings n Hsum) as (Hn & Hall & Hcount).
    split; [lia|]. split; [|split].
    + intros ws H _. injection H as <-. now rewrite Hcount.
    + intros ws w e H Hin Hw. injection H as <-.
      destruct (Hall w Hin) as [hit Hhit]. congruence.
    + intros e H. discriminate H.
  - split; [lia|]. split; [|split].
    + intros ws H Hall. injection H as <-. exfalso.
      destruct (sum_ones_raises is_error warnings e0 Hsum) as (w & Hin & Hw).
      destruct (Hall w Hin) as [hit Hhit]. congruence.
    + reflexivity.
    + intros e H. discriminate H.
Qed.

(** ** Views and sheets *)

Lemma is_valid_cases (v : View) :
  is_valid v
  = match IsTemplate v, view_type v with
    | inl false, inr e => Raise (raised e)
    | _, _ => Ok (shown v)
    end.
Proof.
  unfold is_valid, hasattr_IsTemplate, shown.
  destruct (IsTemplate v) as [[|]|e]; cbn [negb lift bind]; try reflexivity.
  destruct (view_type v) as [kind|e]; cbn [lift bind]; [|reflexivity].
  destruct (ViewType_eqb kind Internal); reflexivity.
Qed.

Lemma valid_among_readable (all_views : list View) :
  (forall v, In v all_views -> IsTemplate v = inl false ->
             exists kind, view_type v = inl kind) ->
  valid_among all_views = Ok (filter shown all_views).
Proof.
  induction all_views as [|v rest IH]; intros Hread; [reflexivity|].
  cbn [valid_among filter]. rewrite IH by (intros x Hx; apply Hread; now right).
  rewrite is_valid_cases.
  destruct (IsTemplate v) as [[|]|e] eqn:Htemplate;
    try (cbn [bind]; reflexivity).
  destruct (Hread v (or_introl eq_refl) Htemplate) as [kind Hkind].
  rewrite Hkind. cbn [bind]. reflexivity.
Qed.

Lemma valid_among_unreadable (all_views : list View) (v : View)
  (e : library_error) :
  In v all_views ->
  type_unreadable v e ->
  exists v' e',
    In v' all_views /\ type_unreadable v' e'
    /\ valid_among all_views = Raise (raised e').
Proof.
  induction all_views as [|x rest IH]; intros Hin Hbad; [destruct Hin|].
  cbn [valid_among]. rewrite is_valid_cases.
  destruct (IsTemplate x) as [[|]|ex] eqn:Htemplate.
  - destruct Hin as [<- | Hin];
      [destruct Hbad as [Hb _]; rewrite Hb in Htemplate; discriminate Htemplate|].
    destruct (IH Hin Hbad) as (v' & e' & Hv' & Hbad' & ->).
    exists v', e'. cbn [bind]. split; [now right | auto].
  - destruct (view_type x) as [kind|ex] eqn:Hkind.
    + destruct Hin as [<- | Hin];
        [destruct Hbad as [_ Hb]; rewrite Hb in Hkind; discriminate Hkind|].
      destruct (IH Hin Hbad) as (v' & e' & Hv' & Hbad' & ->).
      exists v', e'. cbn [bind]. split; [now right | auto].
    + exists x, ex. cbn [bind]. split; [now left|]. split; [|reflexivity].
      split; assumption.
  - destruct Hin as [<- | Hin];
      [destruct Hbad as [Hb _]; rewrite Hb in Htemplate; discriminate Htemplate|].
    destruct (IH Hin Hbad) as (v' & e' & Hv' & Hbad' & ->).
    exists v', e'. cbn [bind]. split; [now right | auto].
Qed.

Lemma valid_among_cases (all_views : list View) :
  (valid_among all_views = Ok (filter shown all_views)
   /\ forall v, In v all_views -> IsTemplate v = inl false ->
                exists kind, view_type v = inl kind)
  \/ (exists v e,
        In v all_views /\ type_unreadable v e
        /\ valid_among all_views = Raise (raised e)).
Proof.
  induction all_views as [|x rest IH].
  - left. split; [reflexivity | intros v []].
  - assert (Hrest :
      (IsTemplate x = inl false -> exists kind, view_type x = inl kind) ->
      (valid_among (x :: rest) = Ok (filter shown (x :: rest))
       /\ forall v, In v (x :: rest) -> IsTemplate v = inl false ->
                    exists kind, view_type v = inl kind)
      \/ (exists v e,
            In v (x :: rest) /\ type_unreadable v e
            /\ valid_among (x :: rest) = Raise (raised e))).
    { intros Hx.
      destruct IH as [[Hvalid Hread] | (v & e & Hin & Hbad & Hraise)].
      - left.
        assert (Hall : forall v, In v (x :: rest) ->
                                 IsTemplate v = inl false ->
                                 exists kind, view_type v = inl kind).
        { intros v [<- | Hv] Hv'; [exact (Hx Hv') | exact (Hread v Hv Hv')]. }
        split; [exact (valid_among_readable _ Hall) | exact Hall].
      - right.
        destruct (valid_among_unreadable (x :: rest) v e (or_intror Hin) Hbad)
          as (v' & e' & H).
        eauto. }
    destruct (IsTemplate x) as [[|]|ex] eqn:Htemplate.
    + apply Hrest. intros H. discriminate H.
    + destruct (view_type x) as [kind|ex] eqn:Hkind.
      * apply Hrest. eauto.
      * right.
        destruct (valid_among_unreadable (x :: rest) x ex (or_introl eq_refl)
                    (conj Htemplate Hkind)) as (v' & e' & H).
        eauto.
    + apply Hrest. intros H. discriminate H.
Qed.

Lemma shown_readable (views : list View) :
  forall v, In v (filter shown views) -> exists kind, view_type v = inl kind.
Proof.
  intros v Hin. apply filter_In in Hin as [_ Hshown]. unfold shown in Hshown.
  destruct (IsTemplate v) as [[|]|]; try discriminate Hshown.
  destruct (view_type v) as [kind|]; [eauto | discriminate Hshown].
Qed.

(** The count of the views of one type, when every type can be read. *)
Lemma count_of_type (kind : ViewType) (views : list View) :
  (forall v, In v views -> exists found, view_type v = inl found) ->
  sum_ones (of_type kind) views
  = Ok (Z.of_nat (length (filter (has_type kind) views))).
Proof.
  induction views as [|v rest IH]; intros Hread; [reflexivity|].
  cbn [sum_ones filter]. rewrite IH by (intros x Hx; apply Hread; now right).
  destruct (Hread v (or_introl eq_refl)) as [found Hfound].
  unfold of_type, has_type. rewrite Hfound. cbn [lift bind].
  destruct (ViewType_eqb found kind); cbn [Datatypes.length]; f_equal; lia.
Qed.

(** Views of five different types are not more than the views. *)
Lemma five_types_within (views : list View) :
  (Z.of_nat (length (filter (has_type FloorPlan) views))
   + Z.of_nat (length (filter (has_type Elevation) views))
   + Z.of_nat (length (filter (has_type Section_) views))
   + Z.of_nat (length (filter (has_type ThreeD) views))
   + Z.of_nat (length (filter (has_type Schedule) views))
   <= Z.of_nat (length views))%Z.
Proof.
  induction views as [|v rest IH]; [cbn; lia|].
  assert (Hstep : forall kind,
            Z.of_nat (length (filter (has_type kind) (v :: rest)))
            = ((if has_type kind v then 1 else 0)
               + Z.of_nat (length (filter (has_type kind) rest)))%Z).
  { intros kind. cbn [filter].
    destruct (has_type kind v); cbn [Datatypes.length]; lia. }
  assert (Hone : ((if has_type FloorPlan v then 1 else 0)
                  + (if has_type Elevation v then 1 else 0)
                  + (if has_type Section_ v then 1 else 0)
                  + (if has_type ThreeD v then 1 else 0)
                  + (if has_type Schedule v then 1 else 0) <= 1)%Z).
  { unfold has_type. destruct (view_type v) as [[]|]; cbn; lia. }
  rewrite !Hstep. cbn [Datatypes.length]. lia.
Qed.

(** The section on views and sheets always returns its seven counts.  The
    five counts by type are not negative and together never exceed the number
    of views, which never exceeds the number of views collected.  When the
    sheet collector or the view collector fails, or when the type of a single
    view that is no template cannot be read, all seven counts are zero, the
    sheet count included although it had been read, and one line is logged
    with the text of the failure.  Otherwise nothing is logged, the sheet
    count is the one collected, the views are those that are no templates and
    of neither the internal nor the project browser type (a view whose
    [IsTemplate] cannot be read is left out), and each count by type is the
    number of those views of that type. *)
Theorem view_breakdown_within_total (GetSheetCount : Z + library_error)
  (ToElements : list View + library_error) :
  exists d log,
    count_views GetSheetCount ToElements = Ok (d, log)
    /\ (0 <= floor_plans d /\ 0 <= elevations d /\ 0 <= sections d
        /\ 0 <= threed_views d /\ 0 <= schedules d)%Z
    /\ (floor_plans d + elevations d + sections d + threed_views d
        + schedules d <= views_count d)%Z
    /\ (forall all_views,
          ToElements = inl all_views ->
          (views_count d <= Z.of_nat (length all_views))%Z)
    /\ (forall e,
          GetSheetCount = inr e ->
          d = mkDocumentation 0 0 0 0 0 0 0
          /\ log = ["Could not get views/sheets: " ++ error_text e])
    /\ (forall n e,
          GetSheetCount = inl n ->
          ToElements = inr e ->
          d = mkDocumentation 0 0 0 0 0 0 0
          /\ log = ["Could not get views/sheets: " ++ error_text e])
    /\ (forall n all_views v e,
          GetSheetCount = inl n ->
          ToElements = inl all_views ->
          In v all_views ->
          type_unreadable v e ->
          d = mkDocumentation 0 0 0 0 0 0 0
          /\ exists v' e',
               In v' all_views /\ type_unreadable v' e'
               /\ log = ["Could not get views/sheets: " ++ error_text e'])
    /\ (forall n all_views,
          GetSheetCount = inl n ->
          ToElements = inl all_views ->
          (forall v, In v all_views -> IsTemplate v = inl false ->
                     exists kind, view_type v = inl kind) ->
          log = []
          /\ d = mkDocumentation
                   n
                   (Z.of_nat (length (filter shown all_views)))
                   (Z.of_nat (length (filter (has_type FloorPlan)
                                             (filter shown all_views))))
                   (Z.of_nat (length (filter (has_type Elevation)
                                             (filter shown all_views))))
                   (Z.of_nat (length (filter (has_type Section_)
                                             (filter shown all_views))))
                   (Z.of_nat (length (filter (has_type ThreeD)
                                             (filter shown all_views))))
                   (Z.of_nat (length (filter (has_type Schedule)
                                             (filter shown all_views))))).
Proof.
  unfold count_views.
  destruct GetSheetCount as [n|e0];
    cbn [lift bind try_except raised is_Exception exc_text].
  2:{ do 2 eexists. split; [reflexivity|]. cbn.
      split; [lia|]. split; [lia|]. split; [intros; lia|].
      split; [intros e H; injection H as <-; auto|].
      split; [intros m e H; discriminate H|].
      split; [intros m ws v e H; discriminate H|].
      intros m ws H. discriminate H. }
  destruct ToElements as [all_views|e0];
    cbn [lift bind try_except raised is_Exception exc_text].
  2:{ do 2 eexists. split; [reflexivity|]. cbn.
      split; [lia|]. split; [lia|]. split; [intros ws H; discriminate H|].
      split; [intros e H; discriminate H|].
      split; [intros m e _ H; injection H as <-; auto|].
      split; [intros m ws v e _ H; discriminate H|].
      intros m ws _ H. discriminate H. }
  destruct (valid_among_cases all_views)
    as [[Hvalid Hread] | (v & e & Hin & Hbad & Hraise)].
  - rewrite Hvalid. cbn [bind].
    rewrite !(count_of_type _ _ (shown_readable all_views)).
    cbn [bind try_except]. do 2 eexists. split; [reflexivity|]. cbn.
    split; [lia|]. split; [apply five_types_within|]. split.
    { intros ws H. injection H as <-.
      pose proof (filter_length_le shown all_views). lia. }
    split; [intros e H; discriminate H|].
    split; [intros m e _ H; discriminate H|]. split.
    { intros m ws v e _ H Hin [Htemplate Hkind]. injection H as <-.
      destruct (Hread v Hin Htemplate) as [kind Hk]. congruence. }
    intros m ws Hm H _. injection Hm as <-. injection H as <-. auto.
  - rewrite Hraise. cbn [bind try_except raised is_Exception exc_text].
    do 2 eexists. split; [reflexivity|]. cbn.
    split; [lia|]. split; [lia|]. split; [intros; lia|].
    split; [intros e' H; discriminate H|].
    split; [intros m e' _ H; discriminate H|]. split.
    { intros m ws v' e' _ H _ _. injection H as <-. split; [reflexivity|].
      exists v, e. auto. }
    intros m ws _ H Hread. injection H as <-. exfalso.
    destruct Hbad as [Htemplate Hkind].
    destruct (Hread v Hin Htemplate) as [kind Hk]. congruence.
Qed.

End ModelInfoSpec.
